(** * froide-crowdfunding: the form layer ([froide_crowdfunding/forms.py])

    A shallow embedding of the two policy functions
    ([calculate_amount_needed], [parse_address]) and of the two forms
    ([CrowdfundingRequestStartForm], [ContributionForm]), together with the
    parts of the Python runtime they rely on: [decimal.Decimal] arithmetic in
    the default context, the [str] methods [replace], [strip] and
    [splitlines], and the regular expression [POSTCODE_RE].

    Layout: first the model (all definitions), then the facts about it,
    then further properties of the functions and the forms. *)

From Stdlib Require Import ZArith NArith QArith Qpower Bool List String Ascii.
From Stdlib Require Import Lia Lqa ListSet.
Import ListNotations.

Set Implicit Arguments.

(* ===================================================================== *)
(** * Part I: the model                                                   *)
(* ===================================================================== *)

(** ** Python exceptions and fallible results *)

Module Py.

(** The exceptions the modelled code can raise. *)
Inductive exn : Type :=
| IndexError            (* list index out of range *)
| AttributeError        (* attribute access on None *)
| TypeError             (* iteration over None *)
| ValueError            (* ModelForm.save on a form with errors *)
| ValidationError (message : string)   (* django.forms.ValidationError *)
| Overflow              (* decimal.Overflow, trapped by the default context *)
| DivisionByZero        (* decimal.DivisionByZero, trapped *)
| InvalidOperation      (* decimal.InvalidOperation, trapped *)
| CollaboratorFailure.  (* an error raised by the persistence layer *)

(** A computation either returns a value or raises. *)
Inductive result (A : Type) : Type :=
| Return (a : A)
| Raise (e : exn).

Arguments Return {A} a.
Arguments Raise {A} e.

Definition bind {A B : Type} (m : result A) (k : A -> result B) : result B :=
  match m with
  | Return a => k a
  | Raise e => Raise e
  end.

End Py.

Import Py.

Declare Scope py_scope.
Delimit Scope py_scope with py.
Notation "x <- m ;; k" := (bind m (fun x => k))
  (at level 100, m at next level, right associativity) : py_scope.

(** ** [decimal.Decimal] in the default context

    A finite decimal is a sign, a coefficient and an exponent; its value is
    [(-1)^sign * coefficient * 10^exponent].  Arithmetic happens in the
    default context: precision 28, rounding [ROUND_HALF_EVEN],
    [Emin = -999999], [Emax = 999999], with [Overflow], [DivisionByZero] and
    [InvalidOperation] trapped (they raise) and [Underflow], [Inexact],
    [Rounded], [Subnormal] not trapped (the rounded result is returned).
    NaN and the infinities are not numbers and are left out: what is said
    below about decimals is said about the finite ones. *)

Module PyDecimal.

Record Decimal : Type := mkDecimal {
  d_sign : bool;   (* true: negative *)
  d_int  : N;      (* the coefficient, [self._int] *)
  d_exp  : Z       (* the exponent, [self._exp] *)
}.

Definition prec : Z := 28.
Definition Emax : Z := 999999.
Definition Emin : Z := -999999.
(** [Context.Etiny] and [Context.Etop]. *)
Definition Etiny : Z := Emin - prec + 1.
Definition Etop : Z := Emax - prec + 1.

(** The signed coefficient. *)
Definition signed (d : Decimal) : Z :=
  if d_sign d then - Z.of_N (d_int d) else Z.of_N (d_int d).

(** [n * 10^e] as a rational number. *)
Definition scaled (n e : Z) : Q := inject_Z n * inject_Z 10 ^ e.

(** The number a decimal denotes. *)
Definition value (d : Decimal) : Q := scaled (signed d) (d_exp d).

(** [Decimal(n)] for a Python int [n]: exact, whatever the context. *)
Definition of_int (n : Z) : Decimal :=
  mkDecimal (n <? 0)%Z (Z.to_N (Z.abs n)) 0.

(** Number of decimal digits of a coefficient, [len(self._int)]; the
    coefficient 0 is written with one digit.  The fuel is the number of
    binary digits, which bounds the number of decimal ones. *)
Fixpoint ndigits_go (fuel : nat) (c : Z) : Z :=
  match fuel with
  | O => 1
  | S fuel' => if (c <? 10)%Z then 1 else (1 + ndigits_go fuel' (c / 10))%Z
  end.

Definition ndigits (c : Z) : Z :=
  ndigits_go (Z.to_nat (Z.log2 c)) c.

(** [ROUND_HALF_EVEN]: drop the [k] low digits of [c]. *)
Definition round_half_even (c k : Z) : Z :=
  let p := (10 ^ k)%Z in
  let q := (c / p)%Z in
  let r := (c mod p)%Z in
  if (2 * r <? p)%Z then q
  else if (p <? 2 * r)%Z then (q + 1)%Z
  else if Z.even q then q else (q + 1)%Z.

(** [Decimal._fix(context)]: round the exact result of an operation to
    the context.  A zero keeps its sign and has its exponent clamped; a
    result above [Emax] raises [Overflow]; a coefficient with too many
    digits, or an exponent below [Etiny], is rounded. *)
Definition _fix (d : Decimal) : result Decimal :=
  let c := Z.of_N (d_int d) in
  let e := d_exp d in
  if (c =? 0)%Z then
    Return (mkDecimal (d_sign d) 0 (Z.min (Z.max e Etiny) Emax))
  else
    let exp_min := (ndigits c + e - prec)%Z in
    if (Etop <? exp_min)%Z then Raise Overflow
    else
      let exp_min := Z.max exp_min Etiny in
      if (e <? exp_min)%Z then
        let q := round_half_even c (exp_min - e) in
        if (prec <? ndigits q)%Z then
          (* the carry gave one digit too many: 10^prec *)
          if (Etop <? exp_min + 1)%Z then Raise Overflow
          else Return (mkDecimal (d_sign d) (Z.to_N (q / 10)) (exp_min + 1))
        else Return (mkDecimal (d_sign d) (Z.to_N q) exp_min)
      else Return d.

(** The product of two decimals before it is rounded. *)
Definition exact_mul (a b : Decimal) : Decimal :=
  mkDecimal (xorb (d_sign a) (d_sign b))
            (d_int a * d_int b)
            (d_exp a + d_exp b).

(** [Decimal.__mul__]: the exact product, then [_fix]. *)
Definition mul (a b : Decimal) : result Decimal :=
  _fix (exact_mul a b).

(** The loop of [__truediv__] that brings an exact quotient as close to
    the ideal exponent as its trailing zeros allow.  Every turn raises
    [exp] by one, so [ideal - exp] turns are enough. *)
Fixpoint strip_zeros (fuel : nat) (coeff exp ideal : Z) : Z * Z :=
  match fuel with
  | O => (coeff, exp)
  | S fuel' =>
      if ((exp <? ideal) && (coeff mod 10 =? 0))%Z
      then strip_zeros fuel' (coeff / 10) (exp + 1) ideal
      else (coeff, exp)
  end.

(** [Decimal.__truediv__]. *)
Definition truediv (a b : Decimal) : result Decimal :=
  let sign := xorb (d_sign a) (d_sign b) in
  let ca := Z.of_N (d_int a) in
  let cb := Z.of_N (d_int b) in
  if (cb =? 0)%Z then
    if (ca =? 0)%Z then Raise InvalidOperation else Raise DivisionByZero
  else if (ca =? 0)%Z then
    _fix (mkDecimal sign 0 (d_exp a - d_exp b))
  else
    let shift := (ndigits cb - ndigits ca + prec + 1)%Z in
    let exp := (d_exp a - d_exp b - shift)%Z in
    let '(coeff, remainder) :=
      if (0 <=? shift)%Z
      then Z.div_eucl (ca * 10 ^ shift) cb
      else Z.div_eucl ca (cb * 10 ^ (- shift)) in
    if (remainder =? 0)%Z then
      let ideal_exp := (d_exp a - d_exp b)%Z in
      let '(coeff, exp) :=
        strip_zeros (Z.to_nat (ideal_exp - exp)) coeff exp ideal_exp in
      _fix (mkDecimal sign (Z.to_N coeff) exp)
    else
      (* inexact: make the discarded part visible to the rounding *)
      let coeff := if (coeff mod 5 =? 0)%Z then (coeff + 1)%Z else coeff in
      _fix (mkDecimal sign (Z.to_N coeff) exp).

(** [Decimal.__ceil__], what [math.ceil] calls: the least integer not
    below the value. *)
Definition ceil (d : Decimal) : Z :=
  if (d_int d =? 0)%N then 0%Z
  else if (0 <=? d_exp d)%Z then (signed d * 10 ^ d_exp d)%Z
  else (- ((- signed d) / 10 ^ (- d_exp d)))%Z.

(** A decimal the context holds as it is, and whose tenth it holds as
    well: it is zero, or it has at most [prec] digits, an exponent above
    [Etiny] and an adjusted exponent of at most [Emax]. *)
Definition fits (d : Decimal) : Prop :=
  d_int d = 0%N \/
  (ndigits (Z.of_N (d_int d)) <= prec /\
   Etiny < d_exp d /\
   ndigits (Z.of_N (d_int d)) + d_exp d - 1 <= Emax)%Z.

End PyDecimal.

(** ** Python [str]

    Text is modelled with [string]; a character is a code point below 256.
    The character classes are those of CPython for that range. *)

Module PyStr.

Local Open Scope string_scope.

Definition LF : ascii := "010"%char.
Definition CR : ascii := "013"%char.

Definition code (c : ascii) : N := N_of_ascii c.

(** [Py_UNICODE_ISSPACE]: what [str.strip] removes and [\s] matches. *)
Definition isspace (c : ascii) : bool :=
  let n := code c in
  ((9 <=? n) && (n <=? 13) || (28 <=? n) && (n <=? 32)
   || (n =? 133) || (n =? 160))%N.

(** [Py_UNICODE_ISDECIMAL]: what [\d] matches. *)
Definition isdecimal (c : ascii) : bool :=
  let n := code c in ((48 <=? n) && (n <=? 57))%N.

(** The line boundaries of [str.splitlines]. *)
Definition is_linebreak (c : ascii) : bool :=
  let n := code c in
  ((10 <=? n) && (n <=? 13) || (28 <=? n) && (n <=? 30) || (n =? 133))%N.

Definition is_empty (s : string) : bool :=
  match s with EmptyString => true | String _ _ => false end.

(** [s.lstrip()], [s.rstrip()], [s.strip()]. *)
Fixpoint lstrip (s : string) : string :=
  match s with
  | EmptyString => EmptyString
  | String c s' => if isspace c then lstrip s' else s
  end.

Fixpoint rstrip (s : string) : string :=
  match s with
  | EmptyString => EmptyString
  | String c s' =>
      let t := rstrip s' in
      if isspace c && is_empty t then EmptyString else String c t
  end.

Definition strip (s : string) : string := rstrip (lstrip s).

(** [s.replace(old, new)]: every occurrence of [old], left to right,
    without overlap.  [skip] counts the characters of the occurrence just
    replaced that are still to be passed over. *)
Fixpoint replace_go (old new : string) (skip : nat) (s : string) : string :=
  match s with
  | EmptyString => EmptyString
  | String c s' =>
      match skip with
      | S n => replace_go old new n s'
      | O =>
          if prefix old s
          then new ++ replace_go old new (String.length old - 1) s'
          else String c (replace_go old new 0 s')
      end
  end.

(** With an empty [old], [new] goes before every character and at the
    end. *)
Fixpoint intersperse (new s : string) : string :=
  match s with
  | EmptyString => new
  | String c s' => new ++ String c (intersperse new s')
  end.

Definition replace (old new s : string) : string :=
  if is_empty old then intersperse new s else replace_go old new 0 s.

(** [s.splitlines()]: the lines of [s] without their line breaks; CR LF
    counts as one break, and a break at the very end opens no new line. *)
Fixpoint splitlines (s : string) : list string :=
  match s with
  | EmptyString => []
  | String c s' =>
      if is_linebreak c then
        EmptyString ::
          match s' with
          | String c' s'' =>
              if Ascii.eqb c CR && Ascii.eqb c' LF
              then splitlines s'' else splitlines s'
          | EmptyString => []
          end
      else
        match splitlines s' with
        | [] => [String c EmptyString]
        | line :: lines => String c line :: lines
        end
  end.

(** [sep.join(parts)]. *)
Definition join (sep : string) (parts : list string) : string :=
  String.concat sep parts.

End PyStr.

(** ** Python [re]: the fragment [POSTCODE_RE] is written in

    A backtracking matcher: a pattern is tried against the text at one
    position, greedy repetitions take as much as they can and give back one
    character at a time when the rest of the pattern fails. *)

Module PyRe.

Import PyStr.
Local Open Scope string_scope.

(** Character categories: [\d], [\s] and [.] (anything but a newline). *)
Inductive category : Type := Digit | Space | Dot.

Definition in_category (k : category) (c : ascii) : bool :=
  match k with
  | Digit => isdecimal c
  | Space => isspace c
  | Dot => negb (Ascii.eqb c LF)
  end.

Inductive regex : Type :=
| Repeat (k : category) (n : nat)   (* k{n} *)
| Plus (k : category)               (* k+ *)
| Star (k : category)               (* k* *)
| Group (r : regex)                 (* (r) *)
| Seq (r1 r2 : regex).              (* r1r2 *)

Section Matcher.

Variable A : Type.

(** Exactly [n] characters of category [k]. *)
Fixpoint exactly (k : category) (n : nat) (s : string)
  : option (string * string) :=
  match n with
  | O => Some (EmptyString, s)
  | S n' =>
      match s with
      | String c s' =>
          if in_category k c then
            match exactly k n' s' with
            | Some (m, rest) => Some (String c m, rest)
            | None => None
            end
          else None
      | EmptyString => None
      end
  end.

(** At least [least] characters of category [k], the longest run
    first. *)
Fixpoint greedy (k : category) (least : nat) (s : string)
         (cont : string -> string -> option A) : option A :=
  let stop := match least with O => cont EmptyString s | S _ => None end in
  match s with
  | String c s' =>
      if in_category k c then
        match greedy k (Nat.pred least) s'
                     (fun m rest => cont (String c m) rest) with
        | Some r => Some r
        | None => stop
        end
      else stop
  | EmptyString => stop
  end.

Fixpoint set_nth (i : nat) (x : string) (l : list string) : list string :=
  match l, i with
  | [], _ => []
  | _ :: l', O => x :: l'
  | y :: l', S i' => y :: set_nth i' x l'
  end.

(** [run r s groups cont]: match [r] at the start of [s]; [cont]
    receives the matched text, the rest of [s] and the groups.  A group
    is numbered when it opens. *)
Fixpoint run (r : regex) (s : string) (groups : list string)
         (cont : string -> string -> list string -> option A) : option A :=
  match r with
  | Repeat k n =>
      match exactly k n s with
      | Some (m, rest) => cont m rest groups
      | None => None
      end
  | Plus k => greedy k 1 s (fun m rest => cont m rest groups)
  | Star k => greedy k 0 s (fun m rest => cont m rest groups)
  | Group r' =>
      let i := List.length groups in
      run r' s (groups ++ [EmptyString])
          (fun m rest groups' => cont m rest (set_nth i m groups'))
  | Seq r1 r2 =>
      run r1 s groups (fun m1 rest1 groups1 =>
        run r2 rest1 groups1 (fun m2 rest2 groups2 =>
          cont (m1 ++ m2) rest2 groups2))
  end.

End Matcher.

(** A match object: where it starts, [group(0)] and the numbered
    groups. *)
Record Match : Type := mkMatch {
  m_start : nat;
  m_whole : string;
  m_groups : list string
}.

(** [match.group(n)]. *)
Definition group (m : Match) (n : nat) : string :=
  match n with
  | O => m_whole m
  | S i => nth i (m_groups m) EmptyString
  end.

(** [pattern.match(s)] at one position. *)
Definition match_here (r : regex) (s : string)
  : option (string * list string) :=
  run r s [] (fun m _ groups => Some (m, groups)).

(** [pattern.search(s)]: the first position, from the left, where the
    pattern matches. *)
Fixpoint search_from (r : regex) (pos : nat) (s : string) : option Match :=
  match match_here r s with
  | Some (m, groups) => Some (mkMatch pos m groups)
  | None =>
      match s with
      | String _ s' => search_from r (S pos) s'
      | EmptyString => None
      end
  end.

Definition search (r : regex) (s : string) : option Match :=
  search_from r 0 s.

End PyRe.

(** ** Django form fields

    What [Field.clean] does for the field classes the two forms declare,
    with the options they are declared with.  A field either yields its
    cleaned value or the code of the validation error it reports. *)

Module Django.

Import PyStr PyDecimal.
Local Open Scope string_scope.

Inductive cleaned (A : Type) : Type :=
| Clean (a : A)
| Invalid (code : string).

Arguments Clean {A} a.
Arguments Invalid {A} code.

(** [forms.CharField(required=..., max_length=...)]: the submitted text
    is stripped; an empty value fails a required field; a longer value
    than [max_length] is refused. *)
Definition CharField_clean (required : bool) (max_length : option nat)
           (raw : string) : cleaned string :=
  let v := strip raw in
  if is_empty v then
    if required then Invalid "required" else Clean v
  else
    match max_length with
    | Some n => if (n <? String.length v)%nat then Invalid "max_length"
                else Clean v
    | None => Clean v
    end.

(** [forms.ChoiceField(choices=...)], required. *)
Definition ChoiceField_clean (choices : list (string * string))
           (raw : string) : cleaned string :=
  if is_empty raw then Invalid "required"
  else if existsb (fun c => String.eqb (fst c) raw) choices then Clean raw
  else Invalid "invalid_choice".

(** [forms.BooleanField(required=...)]. *)
Definition BooleanField_clean (required : bool) (raw : bool) : cleaned bool :=
  if required && negb raw then Invalid "required" else Clean raw.

(** [MinValueValidator]: [value < min_value] is an error. *)
Definition below (d : Decimal) (min_value : Z) : bool :=
  negb (Qle_bool (inject_Z min_value) (value d)).

(** [DecimalValidator(max_digits, decimal_places)]: the digits the
    number is written with, before and after the decimal point. *)
Definition decimal_digits (d : Decimal) : Z * Z :=
  let n := ndigits (Z.of_N (d_int d)) in
  let e := d_exp d in
  if (0 <=? e)%Z then ((n + e)%Z, 0%Z)
  else if (n <? - e)%Z then ((- e)%Z, (- e)%Z)
  else (n, (- e)%Z).

(** [forms.DecimalField(required=True, min_value=..., max_digits=...,
    decimal_places=...)].  [raw] is the number the submitted text parses
    to, if it does. *)
Definition DecimalField_clean (min_value max_digits decimal_places : Z)
           (raw : option Decimal) : cleaned Decimal :=
  match raw with
  | None => Invalid "invalid"
  | Some d =>
      let '(digits, decimals) := decimal_digits d in
      if below d min_value then Invalid "min_value"
      else if (max_digits <? digits)%Z then Invalid "max_digits"
      else if (decimal_places <? decimals)%Z then Invalid "max_decimal_places"
      else if (max_digits - decimal_places <? digits - decimals)%Z
           then Invalid "max_whole_digits"
      else Clean d
  end.

(** The error a field contributes to the form's error list. *)
Definition field_error {A : Type} (name : string) (c : cleaned A)
  : list (string * string) :=
  match c with
  | Clean _ => []
  | Invalid code => [(name, code)]
  end.

(** A valid field hands its value to the rest; an invalid one leaves the
    form without a full set of cleaned values. *)
Definition and_then {A B : Type} (c : cleaned A) (k : A -> option B)
  : option B :=
  match c with
  | Clean a => k a
  | Invalid _ => None
  end.

End Django.

(** ** [froide_crowdfunding/forms.py] *)

Module Forms.

Import PyDecimal PyStr PyRe Django.
Local Open Scope string_scope.

(** *** The records the forms read and write *)

(** A user of froide, with the profile attributes the contribution form
    reads. *)
Record User : Type := mkUser {
  u_email : string;
  u_first_name : string;
  u_last_name : string;
  u_address : string
}.

(** A request of froide: its title and its costs, if any are recorded. *)
Record FoiRequest : Type := mkFoiRequest {
  req_title : string;
  req_costs : option Decimal
}.

(** Modelled from the spec: the [Crowdfunding] model of [models.py], which
    is not among the sources.  A campaign has the attributes [forms.py]
    reads and writes, as the data model of the specification lists them;
    the status is compared with the text 'finished'. *)
Record Crowdfunding : Type := mkCrowdfunding {
  cf_title : string;
  cf_kind : string;
  cf_description : string;
  cf_public_interest : string;
  cf_amount_requested : Decimal;
  cf_amount_needed : Decimal;
  cf_status : string;
  cf_user : option User;
  cf_request : option FoiRequest;
  cf_slug : string
}.

(** An order of froide_payment: its primary key and the attributes
    [ContributionForm.save] passes to [Order.objects.create]. *)
Record Order : Type := mkOrder {
  o_pk : nat;
  o_user : option User;
  o_first_name : string;
  o_last_name : string;
  o_street_address_1 : string;
  o_street_address_2 : string;
  o_city : string;
  o_postcode : string;
  o_country : string;
  o_user_email : string;
  o_total_net : Decimal;
  o_total_gross : Decimal;
  o_is_donation : bool;
  o_kind : string;
  o_description : string
}.

(** Modelled from the spec: the [Contribution] model of [models.py], which
    is not among the sources, with the attributes
    [ContributionForm.save] passes to [Contribution.objects.create]. *)
Record Contribution : Type := mkContribution {
  ct_crowdfunding : option Crowdfunding;
  ct_user : option User;
  ct_amount : Decimal;
  ct_note : string;
  ct_public : bool;
  ct_order : Order
}.

(** *** The database, and code that writes to it

    A write that fails raises and leaves the tables as they are; what was
    written before an exception stays written. *)

Record DB : Type := mkDB {
  db_crowdfundings : list Crowdfunding;
  db_orders : list Order;
  db_contributions : list Contribution
}.

Definition M (A : Type) : Type := DB -> result A * DB.

Definition ret {A : Type} (a : A) : M A := fun db => (Return a, db).

Definition lift {A : Type} (r : result A) : M A := fun db => (r, db).

Definition bindM {A B : Type} (m : M A) (k : A -> M B) : M B :=
  fun db =>
    match m db with
    | (Return a, db') => k a db'
    | (Raise e, db') => (Raise e, db')
    end.

Declare Scope db_scope.
Delimit Scope db_scope with db.
Notation "x <- m ;; k" := (bindM m (fun x => k))
  (at level 100, m at next level, right associativity) : db_scope.

(** A Python dict with text keys and text values, in insertion order. *)
Definition dict : Type := list (string * string).

(** [d.get(key, default)]. *)
Fixpoint dict_get (d : dict) (key default : string) : string :=
  match d with
  | [] => default
  | (k, v) :: d' => if String.eqb k key then v else dict_get d' key default
  end.

(** [l[0]]. *)
Definition first_item {A : Type} (l : list A) : result A :=
  match l with
  | [] => Raise IndexError
  | x :: _ => Return x
  end.

(** [POSTCODE_RE]: a group of five [\d], then [\s+], then a group of
    [.] repeated with a star. *)
Definition POSTCODE_RE : regex :=
  Seq (Group (Repeat Digit 5)) (Seq (Plus Space) (Group (Star Dot))).

Definition can_start_crowdfunding (crowdfundings : list Crowdfunding)
  : bool :=
  if existsb (fun c => negb (String.eqb (cf_status c) "finished"))
             crowdfundings
  then false
  else true.

Definition parse_address (address : string) : result dict :=
  match search POSTCODE_RE address with
  | None => Return []
  | Some m =>
      let postcode := group m 1 in
      let city := group m 2 in
      let refined := splitlines (strip (replace (group m 0) "" address)) in
      (first <- first_item refined ;;
       Return [("address", first); ("postcode", postcode); ("city", city)])%py
  end.

(** The text holds a postcode as [POSTCODE_RE] looks for it: somewhere in
    it five decimal digits stand directly before a whitespace
    character. *)
Definition has_postcode (s : string) : Prop :=
  exists before digits space rest,
    s = before ++ digits ++ String space rest /\
    String.length digits = 5%nat /\
    (forall c, In c (list_ascii_of_string digits) -> isdecimal c = true) /\
    isspace space = true.

(** The reading of the specification: a run of exactly five digits, no
    more, then a whitespace character, then more text.  [run] counts the
    digits just passed. *)
Fixpoint exactly_five_then_space (run : nat) (s : string) : bool :=
  match s with
  | EmptyString => false
  | String c s' =>
      if isdecimal c then exactly_five_then_space (S run) s'
      else (Nat.eqb run 5 && isspace c && negb (is_empty s'))
           || exactly_five_then_space 0 s'
  end.

(** The reading of the specification for the kinds on offer: a choice is
    withheld when a campaign that is not finished uses its kind. *)
Definition unfinished_kind_choices (choices : list (string * string))
           (crowdfundings : list Crowdfunding) : list (string * string) :=
  filter (fun c =>
            negb (existsb (fun cf =>
                             String.eqb (cf_kind cf) (fst c)
                             && negb (String.eqb (cf_status cf) "finished"))
                          crowdfundings))
         choices.

(** An overhead factor of ordinary size, below [10^999980]: its product
    with an amount the start form accepts (less than [10^10], with at most
    ten digits) stays within the exponent range of the context, so that
    the multiplication cannot overflow. *)
Definition moderate (factor : Decimal) : Prop :=
  (ndigits (Z.of_N (d_int factor)) + d_exp factor <= 999980)%Z.

Section Model.

(** What [forms.py] imports and this package or its collaborators
    define elsewhere. *)

(** [.models.OVERHEAD_FACTOR]: a decimal constant of [models.py], which is
    not among the sources; the specification says it is above 1. *)
Variable OVERHEAD_FACTOR : Decimal.
(** [Crowdfunding.KIND_CHOICES], of [models.py] as well: pairs of a kind
    and its label. *)
Variable KIND_CHOICES : list (string * string).
(** [froide_payment.models.PAYMENT_METHODS]. *)
Variable PAYMENT_METHODS : list (string * string).
(** [Crowdfunding()]: a new instance with the model's defaults. *)
Variable Crowdfunding_new : Crowdfunding.
(** [instance.full_clean()]: the errors of the model's own validators. *)
Variable Crowdfunding_full_clean : Crowdfunding -> list (string * string).
(** The slug [save_obj_with_slug] settles on for a title, given the
    rows already stored. *)
Variable unique_slug : string -> list Crowdfunding -> string.
(** Whether the database takes a row; a refused row raises. *)
Variable stores_crowdfunding : Crowdfunding -> bool.
Variable stores_order : Order -> bool.
Variable stores_contribution : Contribution -> bool.
(** [_('Contribution to Crowdfunding ...').format]: the description of
    an order in the active language, for a campaign title. *)
Variable contribution_description : string -> string.

Definition calculate_amount_needed (amount_requested : Decimal)
  : result Decimal :=
  (amount_needed <- mul amount_requested OVERHEAD_FACTOR ;;
   (* Round up to next 10 *)
   tenth <- truediv amount_needed (of_int 10) ;;
   let amount_needed := (ceil tenth * 10)%Z in
   Return (of_int amount_needed))%py.

(** **** [CrowdfundingRequestStartForm] *)

(** The submitted values, one per declared field. *)
Record StartData : Type := mkStartData {
  raw_title : string;
  raw_kind : string;
  raw_description : string;
  raw_public_interest : string;
  raw_amount_requested : option Decimal;
  raw_terms : bool
}.

Record CrowdfundingRequestStartForm : Type := mkStartForm {
  sf_data : StartData;
  sf_foirequest : option FoiRequest;
  sf_crowdfundings : option (list Crowdfunding);
  sf_user : option User;
  (* fields['title'].initial, fields['amount_requested'].initial,
     fields['kind'].choices *)
  sf_title_initial : option string;
  sf_amount_requested_initial : Decimal;
  sf_kind_choices : list (string * string)
}.

Definition set_title_initial (self : CrowdfundingRequestStartForm)
           (v : string) : CrowdfundingRequestStartForm :=
  mkStartForm (sf_data self) (sf_foirequest self) (sf_crowdfundings self)
              (sf_user self) (Some v) (sf_amount_requested_initial self)
              (sf_kind_choices self).

Definition set_amount_requested_initial (self : CrowdfundingRequestStartForm)
           (v : Decimal) : CrowdfundingRequestStartForm :=
  mkStartForm (sf_data self) (sf_foirequest self) (sf_crowdfundings self)
              (sf_user self) (sf_title_initial self) v
              (sf_kind_choices self).

Definition set_kind_choices (self : CrowdfundingRequestStartForm)
           (v : list (string * string)) : CrowdfundingRequestStartForm :=
  mkStartForm (sf_data self) (sf_foirequest self) (sf_crowdfundings self)
              (sf_user self) (sf_title_initial self)
              (sf_amount_requested_initial self) v.

(** Truth value of a decimal: zero is false. *)
Definition nonzero (d : Decimal) : bool := negb (d_int d =? 0)%N.

(** [set(c.kind for c in crowdfundings)]. *)
Definition kinds_of (crowdfundings : list Crowdfunding) : set string :=
  fold_left (fun acc c => set_add string_dec (cf_kind c) acc)
            crowdfundings (empty_set string).

(** [CrowdfundingRequestStartForm.__init__].  The declared fields start
    with no initial title, the initial amount 10 and no kind choices. *)
Definition CrowdfundingRequestStartForm_init (data : StartData)
           (foirequest : option FoiRequest)
           (crowdfundings : option (list Crowdfunding))
           (user : option User) : result CrowdfundingRequestStartForm :=
  let self :=
    mkStartForm data foirequest crowdfundings user None (of_int 10) [] in
  let self :=
    match sf_foirequest self with
    | Some r => set_title_initial self (req_title r)
    | None => self
    end in
  (costs <- match sf_foirequest self with
            | Some r => Return (req_costs r)
            | None => Raise AttributeError
            end ;;
   let self :=
     match costs with
     | Some d => if nonzero d
                 then set_amount_requested_initial self d else self
     | None => self
     end in
   let self :=
     match sf_crowdfundings self with
     | Some cfs =>
         let existing_kinds := kinds_of cfs in
         set_kind_choices self
           (filter (fun c => negb (set_mem string_dec (fst c) existing_kinds))
                   KIND_CHOICES)
     | None => self
     end in
   Return self)%py.

(** [CrowdfundingRequestStartForm.clean]; iterating over an absent
    collection is a [TypeError]. *)
Definition CrowdfundingRequestStartForm_clean {A : Type}
           (self : CrowdfundingRequestStartForm) (cleaned_data : A)
  : result A :=
  match sf_crowdfundings self with
  | None => Raise TypeError
  | Some cfs =>
      if negb (can_start_crowdfunding cfs)
      then Raise (ValidationError "You have an ongoing crowdfunding.")
      else Return cleaned_data
  end.

(** The cleaned values of a submission whose fields are all valid. *)
Record StartCleaned : Type := mkStartCleaned {
  sc_title : string;
  sc_kind : string;
  sc_description : string;
  sc_public_interest : string;
  sc_amount_requested : Decimal;
  sc_terms : bool
}.

(** [_clean_fields]: every declared field cleans its submitted value;
    the errors come in the order of declaration. *)
Definition CrowdfundingRequestStartForm_clean_fields
           (self : CrowdfundingRequestStartForm)
  : list (string * string) * option StartCleaned :=
  let d := sf_data self in
  let title := CharField_clean true (Some 255%nat) (raw_title d) in
  let kind := ChoiceField_clean (sf_kind_choices self) (raw_kind d) in
  let description := CharField_clean true None (raw_description d) in
  let public_interest :=
    CharField_clean true None (raw_public_interest d) in
  let amount_requested :=
    DecimalField_clean 10 10 2 (raw_amount_requested d) in
  let terms := BooleanField_clean true (raw_terms d) in
  ((field_error "title" title ++ field_error "kind" kind
    ++ field_error "description" description
    ++ field_error "public_interest" public_interest
    ++ field_error "amount_requested" amount_requested
    ++ field_error "terms" terms)%list,
   and_then title (fun t =>
   and_then kind (fun k =>
   and_then description (fun de =>
   and_then public_interest (fun p =>
   and_then amount_requested (fun a =>
   and_then terms (fun te =>
     Some (mkStartCleaned t k de p a te)))))))).

(** [construct_instance]: the fields listed in [Meta.fields] are copied
    from the cleaned data onto a new instance. *)
Definition construct_instance (c : StartCleaned) : Crowdfunding :=
  mkCrowdfunding (sc_title c) (sc_kind c) (sc_description c)
                 (sc_public_interest c) (sc_amount_requested c)
                 (cf_amount_needed Crowdfunding_new)
                 (cf_status Crowdfunding_new)
                 (cf_user Crowdfunding_new)
                 (cf_request Crowdfunding_new)
                 (cf_slug Crowdfunding_new).

(** The errors of a form: by field, and of the form as a whole. *)
Record ErrorDict : Type := mkErrorDict {
  field_errors : list (string * string);
  non_field_errors : list string
}.

Definition no_errors (e : ErrorDict) : bool :=
  match field_errors e, non_field_errors e with
  | [], [] => true
  | _, _ => false
  end.

(** [full_clean]: the fields, then [clean] (a [ValidationError] it
    raises becomes an error of the form; any other exception goes on to
    the caller), then, for a model form, the instance and its own
    validation. *)
Definition CrowdfundingRequestStartForm_full_clean
           (self : CrowdfundingRequestStartForm)
  : result (ErrorDict * option Crowdfunding) :=
  let '(errors, cleaned_data) :=
    CrowdfundingRequestStartForm_clean_fields self in
  (form_errors <-
     match CrowdfundingRequestStartForm_clean self cleaned_data with
     | Return _ => Return []
     | Raise (ValidationError message) => Return [message]
     | Raise e => Raise e
     end ;;
   let instance := option_map construct_instance cleaned_data in
   let model_errors :=
     match instance with
     | Some i => Crowdfunding_full_clean i
     | None => []
     end in
   Return (mkErrorDict (errors ++ model_errors)%list form_errors, instance))%py.

(** [form.is_valid()]. *)
Definition CrowdfundingRequestStartForm_is_valid
           (self : CrowdfundingRequestStartForm)
  : result bool :=
  (r <- CrowdfundingRequestStartForm_full_clean self ;;
   Return (no_errors (fst r)))%py.

(** [ModelForm.save(commit=False)]: a form with errors raises
    [ValueError]; otherwise the instance built from the cleaned data is
    returned, unsaved. *)
Definition ModelForm_save (self : CrowdfundingRequestStartForm)
  : result Crowdfunding :=
  (r <- CrowdfundingRequestStartForm_full_clean self ;;
   match r with
   | (errors, Some instance) =>
       if no_errors errors then Return instance else Raise ValueError
   | (_, None) => Raise ValueError
   end)%py.

(** [froide.helper.db_utils.save_obj_with_slug]: the object gets its
    slug and is stored. *)
Definition save_obj_with_slug (obj : Crowdfunding) : M Crowdfunding :=
  fun db =>
    let obj :=
      mkCrowdfunding (cf_title obj) (cf_kind obj) (cf_description obj)
                     (cf_public_interest obj) (cf_amount_requested obj)
                     (cf_amount_needed obj) (cf_status obj) (cf_user obj)
                     (cf_request obj)
                     (unique_slug (cf_title obj) (db_crowdfundings db)) in
    if stores_crowdfunding obj then
      (Return obj,
       mkDB (db_crowdfundings db ++ [obj])%list (db_orders db)
            (db_contributions db))
    else (Raise CollaboratorFailure, db).

Definition set_user (c : Crowdfunding) (v : option User) : Crowdfunding :=
  mkCrowdfunding (cf_title c) (cf_kind c) (cf_description c)
                 (cf_public_interest c) (cf_amount_requested c)
                 (cf_amount_needed c) (cf_status c) v (cf_request c)
                 (cf_slug c).

Definition set_request (c : Crowdfunding) (v : option FoiRequest)
  : Crowdfunding :=
  mkCrowdfunding (cf_title c) (cf_kind c) (cf_description c)
                 (cf_public_interest c) (cf_amount_requested c)
                 (cf_amount_needed c) (cf_status c) (cf_user c) v
                 (cf_slug c).

Definition set_amount_needed (c : Crowdfunding) (v : Decimal)
  : Crowdfunding :=
  mkCrowdfunding (cf_title c) (cf_kind c) (cf_description c)
                 (cf_public_interest c) (cf_amount_requested c)
                 v (cf_status c) (cf_user c) (cf_request c) (cf_slug c).

(** [CrowdfundingRequestStartForm.save]. *)
Definition CrowdfundingRequestStartForm_save
           (self : CrowdfundingRequestStartForm)
  : M Crowdfunding :=
  (crowdfunding <- lift (ModelForm_save self) ;;
   let crowdfunding := set_user crowdfunding (sf_user self) in
   let crowdfunding := set_request crowdfunding (sf_foirequest self) in
   (* Calculate amount needed *)
   amount_needed <-
     lift (calculate_amount_needed (cf_amount_requested crowdfunding)) ;;
   let crowdfunding := set_amount_needed crowdfunding amount_needed in
   crowdfunding <- save_obj_with_slug crowdfunding ;;
   ret crowdfunding)%db.

(** **** [ContributionForm] *)

Record ContributionData : Type := mkContributionData {
  raw_amount : option Decimal;
  raw_note : string;
  raw_first_name : string;
  raw_last_name : string;
  raw_public : bool;
  raw_address : string;
  raw_postcode : string;
  raw_city : string;
  raw_country : string;
  raw_email : string;
  raw_method : string;
  raw_contribution_terms : bool
}.

Record ContributionForm : Type := mkContributionForm {
  bf_data : ContributionData;
  bf_user : option User;
  bf_crowdfunding : option Crowdfunding;
  (* fields[...].initial *)
  bf_email_initial : option string;
  bf_first_name_initial : option string;
  bf_last_name_initial : option string;
  bf_address_initial : option string;
  bf_postcode_initial : option string;
  bf_city_initial : option string
}.

(** [ContributionForm.__init__]. *)
Definition ContributionForm_init (data : ContributionData)
           (user : option User) (crowdfunding : option Crowdfunding)
  : result ContributionForm :=
  match user with
  | Some u =>
      (parsed <- parse_address (u_address u) ;;
       Return (mkContributionForm data user crowdfunding
                 (Some (u_email u)) (Some (u_first_name u))
                 (Some (u_last_name u))
                 (Some (dict_get parsed "address" ""))
                 (Some (dict_get parsed "postcode" ""))
                 (Some (dict_get parsed "city" ""))))%py
  | None =>
      Return (mkContributionForm data user crowdfunding
                None None None None None None)
  end.

(** [self.cleaned_data] of a form whose fields are all valid. *)
Record ContributionCleaned : Type := mkContributionCleaned {
  cc_amount : Decimal;
  cc_note : string;
  cc_first_name : string;
  cc_last_name : string;
  cc_public : bool;
  cc_address : string;
  cc_postcode : string;
  cc_city : string;
  cc_country : string;
  cc_email : string;
  cc_method : string;
  cc_terms : bool
}.

Definition COUNTRY_CHOICES : list (string * string) :=
  [("DE", "Germany"); ("AT", "Austria"); ("CH", "Switzerland")].

Definition ContributionForm_clean_fields (self : ContributionForm)
  : list (string * string) * option ContributionCleaned :=
  let d := bf_data self in
  let amount := DecimalField_clean 1 10 2 (raw_amount d) in
  let note := CharField_clean false (Some 260%nat) (raw_note d) in
  let first_name :=
    CharField_clean true (Some 255%nat) (raw_first_name d) in
  let last_name := CharField_clean true (Some 255%nat) (raw_last_name d) in
  let public := BooleanField_clean false (raw_public d) in
  let address := CharField_clean true (Some 255%nat) (raw_address d) in
  let postcode := CharField_clean true (Some 255%nat) (raw_postcode d) in
  let city := CharField_clean true (Some 255%nat) (raw_city d) in
  let country := ChoiceField_clean COUNTRY_CHOICES (raw_country d) in
  let email := CharField_clean true (Some 255%nat) (raw_email d) in
  let method := ChoiceField_clean PAYMENT_METHODS (raw_method d) in
  let terms := BooleanField_clean true (raw_contribution_terms d) in
  ((field_error "amount" amount ++ field_error "note" note
    ++ field_error "first_name" first_name
    ++ field_error "last_name" last_name
    ++ field_error "public" public ++ field_error "address" address
    ++ field_error "postcode" postcode ++ field_error "city" city
    ++ field_error "country" country ++ field_error "email" email
    ++ field_error "method" method ++ field_error "terms" terms)%list,
   and_then amount (fun a =>
   and_then note (fun n =>
   and_then first_name (fun fn =>
   and_then last_name (fun ln =>
   and_then public (fun pu =>
   and_then address (fun ad =>
   and_then postcode (fun pc =>
   and_then city (fun ci =>
   and_then country (fun co =>
   and_then email (fun em =>
   and_then method (fun me =>
   and_then terms (fun te =>
     Some (mkContributionCleaned a n fn ln pu ad pc ci co em me te)
   ))))))))))))).

(** The submission is valid: no field reports an error, and [d] is the
    cleaned data. *)
Definition ContributionForm_valid (self : ContributionForm)
           (d : ContributionCleaned) : Prop :=
  ContributionForm_clean_fields self = ([], Some d).

(** The next primary key of the orders table. *)
Definition next_pk (orders : list Order) : nat :=
  S (fold_right Nat.max O (map o_pk orders)).

(** [Order.objects.create(...)]. *)
Definition Order_objects_create (user : option User)
           (first_name last_name street_address_1 street_address_2
            city postcode country user_email : string)
           (total_net total_gross : Decimal) (is_donation : bool)
           (kind description : string) : M Order :=
  fun db =>
    let order :=
      mkOrder (next_pk (db_orders db)) user first_name last_name
              street_address_1 street_address_2 city postcode country
              user_email total_net total_gross is_donation kind
              description in
    if stores_order order then
      (Return order,
       mkDB (db_crowdfundings db) (db_orders db ++ [order])%list
            (db_contributions db))
    else (Raise CollaboratorFailure, db).

(** [Contribution.objects.create(...)]. *)
Definition Contribution_objects_create
           (crowdfunding : option Crowdfunding)
           (user : option User) (amount : Decimal) (note : string)
           (public : bool) (order : Order) : M Contribution :=
  fun db =>
    let contribution :=
      mkContribution crowdfunding user amount note public order in
    if stores_contribution contribution then
      (Return contribution,
       mkDB (db_crowdfundings db) (db_orders db)
            (db_contributions db ++ [contribution])%list)
    else (Raise CollaboratorFailure, db).

(** [self.crowdfunding.title]. *)
Definition crowdfunding_title (self : ContributionForm) : result string :=
  match bf_crowdfunding self with
  | Some c => Return (cf_title c)
  | None => Raise AttributeError
  end.

(** [ContributionForm.save]; [d] is [self.cleaned_data]. *)
Definition ContributionForm_save (self : ContributionForm)
           (d : ContributionCleaned) : M Contribution :=
  let address_lines := splitlines (cc_address d) in
  (street_address_1 <- lift (first_item address_lines) ;;
   title <- lift (crowdfunding_title self) ;;
   order <- Order_objects_create
              (bf_user self)
              (cc_first_name d)
              (cc_last_name d)
              street_address_1
              (join (String LF "") (tl address_lines))
              (cc_city d)
              (cc_postcode d)
              (cc_country d)
              (cc_email d)
              (cc_amount d)
              (cc_amount d)
              true
              "froide_crowdfunding.Contribution"
              (contribution_description title) ;;
   contribution <- Contribution_objects_create
                     (bf_crowdfunding self)
                     (bf_user self)
                     (cc_amount d)
                     (cc_note d)
                     (cc_public d)
                     order ;;
   ret contribution)%db.

End Model.

(** *** Sample data *)

(** The factor 1.15. *)
Definition sample_factor : Decimal := mkDecimal false 115 (-2).

Definition sample_choices : list (string * string) :=
  [("fees", "Fees"); ("lawsuit", "Lawsuit")].

Definition sample_methods : list (string * string) :=
  [("creditcard", "Credit card"); ("sepa", "SEPA")].

Definition sample_user : User :=
  mkUser "ada@example.org" "Ada" "Lovelace"
         ("Main Street 1" ++ String LF "12345 Springfield").

Definition sample_request : FoiRequest :=
  mkFoiRequest "Budget papers" (Some (of_int 100)).

(** A campaign of kind "fees", in a given status. *)
Definition sample_campaign (status : string) : Crowdfunding :=
  mkCrowdfunding "Copies" "fees" "I need them." "Everyone does."
                 (of_int 100) (of_int 120) status
                 (Some sample_user) (Some sample_request) "copies".

(** A new, blank campaign. *)
Definition sample_blank : Crowdfunding :=
  mkCrowdfunding "" "" "" "" (of_int 0) (of_int 0) "needs_approval"
                 None None "".

(** A submission asking for 10.50 toward a lawsuit. *)
Definition sample_start_data : StartData :=
  mkStartData "Appeal" "lawsuit" "I need them." "Everyone does."
              (Some (mkDecimal false 1050 (-2))) true.

(** The start form over that submission, for a request with the given
    campaigns. *)
Definition sample_start_form (crowdfundings : list Crowdfunding)
  : CrowdfundingRequestStartForm :=
  mkStartForm sample_start_data (Some sample_request) (Some crowdfundings)
              (Some sample_user) (Some "Budget papers") (of_int 100)
              sample_choices.

(** A contribution of 25 with an address of two lines. *)
Definition sample_contribution_data : ContributionData :=
  mkContributionData (Some (of_int 25)) "" "Ada" "Lovelace" false
                     ("Main Street 1" ++ String LF "c/o Babbage")
                     "12345" "Springfield" "DE" "ada@example.org"
                     "creditcard" true.

Definition sample_contribution_form : ContributionForm :=
  mkContributionForm sample_contribution_data (Some sample_user)
                     (Some (sample_campaign "running"))
                     (Some "ada@example.org") (Some "Ada") (Some "Lovelace")
                     (Some "Main Street 1") (Some "12345")
                     (Some "Springfield").

Definition sample_contribution_cleaned : ContributionCleaned :=
  mkContributionCleaned (of_int 25) "" "Ada" "Lovelace" false
                        ("Main Street 1" ++ String LF "c/o Babbage")
                        "12345" "Springfield" "DE" "ada@example.org"
                        "creditcard" true.

Definition empty_db : DB := mkDB [] [] [].

(** The campaign the sample submission is saved as: the amount needed
    for 10.50 at the factor 1.15 is 20. *)
Definition sample_saved : Crowdfunding :=
  mkCrowdfunding "Appeal" "lawsuit" "I need them." "Everyone does."
                 (mkDecimal false 1050 (-2)) (of_int 20) "needs_approval"
                 (Some sample_user) (Some sample_request) "Appeal".

(** The order and the contribution the sample contribution is saved
    as. *)
Definition sample_order : Order :=
  mkOrder 1 (Some sample_user) "Ada" "Lovelace" "Main Street 1"
          "c/o Babbage" "Springfield" "12345" "DE" "ada@example.org"
          (of_int 25) (of_int 25) true "froide_crowdfunding.Contribution"
          "Copies".

Definition sample_contribution : Contribution :=
  mkContribution (Some (sample_campaign "running")) (Some sample_user)
                 (of_int 25) "" false sample_order.

End Forms.

(* ===================================================================== *)
(** * Part II: the facts                                                  *)
(* ===================================================================== *)

Unset Implicit Arguments.

(** ** Decimal arithmetic *)

Module PyDecimalFacts.

Import PyDecimal.
Local Open Scope Z_scope.

(** *** Counting digits *)

Lemma ndigits_go_bounds (fuel : nat) :
  forall c, 0 < c -> Z.log2 c <= Z.of_nat fuel ->
  10 ^ (ndigits_go fuel c - 1) <= c < 10 ^ ndigits_go fuel c /\
  1 <= ndigits_go fuel c.
Proof.
  induction fuel as [|fuel IH]; intros c Hc Hlog.
  - assert (c < 2 ^ 1) by (apply Z.log2_lt_pow2; lia).
    simpl. lia.
  - cbn [ndigits_go]. destruct (Z.ltb_spec c 10) as [Hlt|Hge].
    + simpl. lia.
    + assert (Hq : 0 < c / 10) by (apply Z.div_str_pos; lia).
      assert (Hlq : Z.log2 (c / 10) <= Z.of_nat fuel).
      { assert (c / 10 <= c / 2) by (apply Z.div_le_compat_l; lia).
        assert (Z.log2 (c / 2) = Z.log2 c - 1).
        { rewrite <- Z.div2_div, Z.div2_spec, Z.log2_shiftr by lia.
          pose proof (Z.log2_le_mono 2 c). change (Z.log2 2) with 1 in *.
          lia. }
        pose proof (Z.log2_le_mono (c / 10) (c / 2)). lia. }
      destruct (IH (c / 10) Hq Hlq) as [[Hlo Hhi] H1].
      replace (1 + ndigits_go fuel (c / 10) - 1)
        with (Z.succ (ndigits_go fuel (c / 10) - 1)) by lia.
      replace (1 + ndigits_go fuel (c / 10))
        with (Z.succ (ndigits_go fuel (c / 10))) by lia.
      rewrite !Z.pow_succ_r by lia.
      pose proof (Z.div_mod c 10) as Hdm.
      pose proof (Z.mod_pos_bound c 10).
      lia.
Qed.

(** A positive coefficient of [n] digits lies between [10^(n-1)] and
    [10^n]. *)
Lemma ndigits_bounds (c : Z) :
  0 < c -> 10 ^ (ndigits c - 1) <= c < 10 ^ ndigits c.
Proof.
  intros Hc. apply ndigits_go_bounds; [assumption|].
  pose proof (Z.log2_nonneg c). lia.
Qed.

Lemma ndigits_pos (c : Z) : 1 <= ndigits c.
Proof.
  unfold ndigits. destruct (Z.ltb_spec 0 c) as [Hc|Hc].
  - apply ndigits_go_bounds; [assumption|].
    pose proof (Z.log2_nonneg c). lia.
  - rewrite (Z.log2_nonpos c) by lia. simpl. lia.
Qed.

Lemma ndigits_le_mono (a b : Z) :
  0 < a -> a <= b -> ndigits a <= ndigits b.
Proof.
  intros Ha Hab.
  destruct (ndigits_bounds a Ha) as [Hlo _].
  destruct (ndigits_bounds b) as [_ Hhi]; [lia|].
  destruct (Z.le_gt_cases (ndigits a) (ndigits b)) as [|Hgt]; [assumption|].
  assert (10 ^ ndigits b <= 10 ^ (ndigits a - 1))
    by (apply Z.pow_le_mono_r; pose proof (ndigits_pos b); lia).
  lia.
Qed.


(** A product has no more digits than its factors together. *)
Lemma ndigits_mul_le (a b : Z) :
  0 < a -> 0 < b -> ndigits (a * b) <= ndigits a + ndigits b.
Proof.
  intros Ha Hb.
  destruct (ndigits_bounds a Ha) as [_ Ha'].
  destruct (ndigits_bounds b Hb) as [_ Hb'].
  destruct (ndigits_bounds (a * b)) as [Hab _]; [nia|].
  pose proof (ndigits_pos a). pose proof (ndigits_pos b).
  destruct (Z.le_gt_cases (ndigits (a * b)) (ndigits a + ndigits b))
    as [|Hgt]; [assumption|].
  assert (10 ^ (ndigits a + ndigits b) <= 10 ^ (ndigits (a * b) - 1))
    by (apply Z.pow_le_mono_r; lia).
  rewrite Z.pow_add_r in * by lia. nia.
Qed.

Lemma ndigits_unique (c n : Z) :
  10 ^ (n - 1) <= c < 10 ^ n -> 1 <= n -> ndigits c = n.
Proof.
  intros [Hlo Hhi] Hn.
  assert (Hc : 0 < c)
    by (pose proof (Z.pow_pos_nonneg 10 (n - 1)); lia).
  destruct (ndigits_bounds c Hc) as [Hlo' Hhi'].
  pose proof (ndigits_pos c).
  destruct (Z.lt_trichotomy (ndigits c) n) as [Hlt|[Heq|Hgt]];
    [|exact Heq|].
  - assert (10 ^ ndigits c <= 10 ^ (n - 1))
      by (apply Z.pow_le_mono_r; lia). lia.
  - assert (10 ^ n <= 10 ^ (ndigits c - 1))
      by (apply Z.pow_le_mono_r; lia). lia.
Qed.

Lemma ndigits_pow10 (c k : Z) :
  0 < c -> 0 <= k -> ndigits (c * 10 ^ k) = ndigits c + k.
Proof.
  intros Hc Hk. destruct (ndigits_bounds c Hc) as [Hlo Hhi].
  pose proof (ndigits_pos c).
  assert (Hp : 0 < 10 ^ k) by (apply Z.pow_pos_nonneg; lia).
  apply ndigits_unique; [|lia].
  replace (ndigits c + k - 1) with (ndigits c - 1 + k) by lia.
  rewrite !Z.pow_add_r by lia. nia.
Qed.

Lemma ndigits_below (c n : Z) : c < 10 ^ n -> 1 <= n -> ndigits c <= n.
Proof.
  intros Hhi Hn. destruct (Z.ltb_spec 0 c) as [Hc|Hc].
  - destruct (ndigits_bounds c Hc) as [Hlo _].
    destruct (Z.le_gt_cases (ndigits c) n) as [|Hgt]; [assumption|].
    assert (10 ^ n <= 10 ^ (ndigits c - 1))
      by (apply Z.pow_le_mono_r; lia). lia.
  - unfold ndigits. rewrite (Z.log2_nonpos c) by lia. simpl. lia.
Qed.

(** *** Rounding to the context *)

Ltac context_bounds := unfold Etop, Etiny, Emin, Emax, prec in *.

(** [_fix] leaves a decimal alone that is within the context. *)
Lemma fix_exact (d : Decimal) :
  d_int d <> 0%N ->
  ndigits (Z.of_N (d_int d)) <= prec ->
  Etiny <= d_exp d ->
  ndigits (Z.of_N (d_int d)) + d_exp d - 1 <= Emax ->
  _fix d = Return d.
Proof.
  intros Hnz Hprec Htiny Hmax. unfold _fix.
  destruct (Z.eqb_spec (Z.of_N (d_int d)) 0) as [H0|_]; [lia|].
  context_bounds.
  destruct (Z.ltb_spec (999999 - 28 + 1)
              (ndigits (Z.of_N (d_int d)) + d_exp d - 28)); [lia|].
  destruct (Z.ltb_spec (d_exp d)
              (Z.max (ndigits (Z.of_N (d_int d)) + d_exp d - 28)
                     (-999999 - 28 + 1))); [lia|].
  reflexivity.
Qed.

Lemma fix_zero (d : Decimal) :
  d_int d = 0%N ->
  exists e, _fix d = Return (mkDecimal (d_sign d) 0 e).
Proof.
  intros H0. unfold _fix. rewrite H0. simpl. eexists. reflexivity.
Qed.

(** A rounded coefficient is the truncated one or its successor. *)
Lemma round_half_even_bounds (c k : Z) :
  c / 10 ^ k <= round_half_even c k <= c / 10 ^ k + 1.
Proof.
  unfold round_half_even.
  destruct (2 * (c mod 10 ^ k) <? 10 ^ k); [lia|].
  destruct (10 ^ k <? 2 * (c mod 10 ^ k)); [lia|].
  destruct (Z.even (c / 10 ^ k)); lia.
Qed.

(** Rounding to at most [prec] digits never gives more than [10^prec]. *)
Lemma round_half_even_below (c k : Z) :
  0 < c -> 0 <= k -> ndigits c - prec <= k ->
  0 <= round_half_even c k <= 10 ^ prec.
Proof.
  intros Hc Hk Hdigits.
  pose proof (round_half_even_bounds c k) as [Hlo Hhi].
  destruct (ndigits_bounds c Hc) as [_ Hc'].
  assert (Hp : 0 < 10 ^ k) by (apply Z.pow_pos_nonneg; lia).
  assert (0 <= c / 10 ^ k) by (apply Z.div_pos; lia).
  split; [lia|].
  assert (c / 10 ^ k < 10 ^ prec); [|lia].
  apply Z.div_lt_upper_bound; [lia|].
  rewrite <- Z.pow_add_r by (unfold prec; lia).
  apply Z.lt_le_trans with (10 ^ ndigits c); [assumption|].
  apply Z.pow_le_mono_r; lia.
Qed.

(** [_fix] raises only on overflow: a result whose adjusted exponent is
    below [Emax] is returned, within the context. *)
Lemma fix_returns (d : Decimal) :
  ndigits (Z.of_N (d_int d)) + d_exp d <= Emax ->
  exists r,
    _fix d = Return r /\
    d_sign r = d_sign d /\
    (d_int r <> 0%N ->
     ndigits (Z.of_N (d_int r)) <= prec /\
     ndigits (Z.of_N (d_int r)) + d_exp r - 1 <= Emax).
Proof.
  intros Hmax. unfold _fix.
  set (c := Z.of_N (d_int d)) in *.
  destruct (Z.eqb_spec c 0) as [H0|Hnz].
  - eexists. split; [reflexivity|]. split; [reflexivity|].
    cbn [d_int]. intros []. reflexivity.
  - assert (Hc : 0 < c) by (subst c; lia).
    destruct (Z.ltb_spec Etop (ndigits c + d_exp d - prec)) as [Hover|_];
      [context_bounds; lia|].
    set (exp_min := Z.max (ndigits c + d_exp d - prec) Etiny).
    assert (Hexp : exp_min <= Etop - 1) by (subst exp_min; context_bounds; lia).
    destruct (Z.ltb_spec (d_exp d) exp_min) as [Hround|Hkeep].
    + destruct (round_half_even_below c (exp_min - d_exp d)) as [Hq0 Hq];
        [assumption|lia|subst exp_min; lia|].
      set (q := round_half_even c (exp_min - d_exp d)) in *.
      destruct (Z.ltb_spec prec (ndigits q)) as [Hcarry|Hfit].
      * destruct (Z.ltb_spec Etop (exp_min + 1)); [lia|].
        eexists. split; [reflexivity|]. split; [reflexivity|].
        cbn [d_int d_exp]. intros _.
        assert (0 <= q / 10) by (apply Z.div_pos; lia).
        rewrite Z2N.id by assumption.
        assert (ndigits (q / 10) <= prec); [|context_bounds; lia].
        apply ndigits_below; [|unfold prec; lia].
        apply Z.div_lt_upper_bound; [lia|].
        change (10 * 10 ^ prec) with (10 ^ (prec + 1)).
        apply Z.le_lt_trans with (10 ^ prec); [assumption|].
        apply Z.pow_lt_mono_r; unfold prec; lia.
      * eexists. split; [reflexivity|]. split; [reflexivity|].
        cbn [d_int d_exp]. intros _. rewrite Z2N.id by assumption.
        context_bounds; lia.
    + eexists. split; [reflexivity|]. split; [reflexivity|].
      fold c. intros _. subst exp_min. context_bounds; lia.
Qed.

(** *** The quotient loop *)

(** The loop keeps the value: what it takes from the coefficient it adds
    to the exponent, never beyond the ideal one. *)
Lemma strip_zeros_spec (fuel : nat) :
  forall coeff exp ideal, 0 < coeff ->
  0 < fst (strip_zeros fuel coeff exp ideal) /\
  exp <= snd (strip_zeros fuel coeff exp ideal) /\
  coeff = fst (strip_zeros fuel coeff exp ideal)
          * 10 ^ (snd (strip_zeros fuel coeff exp ideal) - exp) /\
  (snd (strip_zeros fuel coeff exp ideal) <= ideal \/
   snd (strip_zeros fuel coeff exp ideal) = exp).
Proof.
  induction fuel as [|fuel IH]; intros coeff exp ideal Hpos; cbn [strip_zeros].
  - cbn [fst snd]. rewrite Z.sub_diag. simpl. lia.
  - destruct (Z.ltb_spec exp ideal) as [Hlt|Hge]; cbn [andb];
      [destruct (Z.eqb_spec (coeff mod 10) 0) as [Hmod|Hmod]|];
      try (cbn [fst snd]; rewrite Z.sub_diag; simpl; lia).
    pose proof (Z.div_mod coeff 10) as Hdm.
    assert (Hq : 0 < coeff / 10) by lia.
    destruct (IH (coeff / 10) (exp + 1) ideal Hq) as (H1 & H2 & H3 & H4).
    set (r := strip_zeros fuel (coeff / 10) (exp + 1) ideal) in *.
    repeat split; try lia.
    replace (snd r - exp) with (Z.succ (snd r - (exp + 1))) by lia.
    rewrite Z.pow_succ_r by lia. lia.
Qed.

(** [m] trailing zeros below the ideal exponent are all removed. *)
Lemma strip_zeros_pow (m : nat) :
  forall fuel coeff exp ideal,
  exp + Z.of_nat m <= ideal -> (m <= fuel)%nat ->
  strip_zeros fuel (coeff * 10 ^ Z.of_nat m) exp ideal
  = strip_zeros (fuel - m) coeff (exp + Z.of_nat m) ideal.
Proof.
  induction m as [|m IH]; intros fuel coeff exp ideal Hideal Hfuel.
  - simpl. rewrite Z.mul_1_r, Z.add_0_r, Nat.sub_0_r. reflexivity.
  - destruct fuel as [|fuel]; [lia|]. cbn [strip_zeros].
    rewrite Nat2Z.inj_succ, Z.pow_succ_r by lia.
    destruct (Z.ltb_spec exp ideal) as [_|?]; [|lia]. cbn [andb].
    replace (coeff * (10 * 10 ^ Z.of_nat m))
      with (coeff * 10 ^ Z.of_nat m * 10) by ring.
    rewrite Z.mod_mul, Z.div_mul by lia. simpl Z.eqb. cbn iota.
    rewrite IH by lia.
    replace (exp + 1 + Z.of_nat m) with (exp + Z.succ (Z.of_nat m)) by lia.
    reflexivity.
Qed.


(** *** Values *)

Lemma ten_neq_0 : ~ inject_Z 10 == 0%Q.
Proof. discriminate. Qed.

Lemma scaled_mul (a b e1 e2 : Z) :
  (scaled a e1 * scaled b e2 == scaled (a * b) (e1 + e2))%Q.
Proof.
  unfold scaled. rewrite inject_Z_mult, Qpower_plus by apply ten_neq_0. ring.
Qed.

Lemma scaled_nonneg_exp (n e : Z) :
  0 <= e -> (scaled n e == inject_Z (n * 10 ^ e))%Q.
Proof.
  intros He. unfold scaled. rewrite inject_Z_mult, Zpower_Qpower by assumption.
  reflexivity.
Qed.

Lemma scaled_neg_exp (n e : Z) :
  e < 0 -> (scaled n e == inject_Z n / inject_Z (10 ^ (- e)))%Q.
Proof.
  intros He. unfold scaled.
  rewrite Zpower_Qpower, Qpower_opp by lia.
  unfold Qdiv. rewrite Qinv_involutive. reflexivity.
Qed.

Lemma scaled_pow10 (n k e : Z) :
  0 <= k -> (scaled (n * 10 ^ k) e == scaled n (e + k))%Q.
Proof.
  intros Hk. unfold scaled.
  rewrite inject_Z_mult, Zpower_Qpower, Qpower_plus
    by (assumption || apply ten_neq_0).
  ring.
Qed.

Lemma scaled_succ (n e : Z) :
  (scaled n (e + 1) == scaled n e * inject_Z 10)%Q.
Proof.
  unfold scaled. rewrite Qpower_plus by apply ten_neq_0. simpl (_ ^ 1)%Q.
  ring.
Qed.

Lemma scaled_zero (e : Z) : (scaled 0 e == 0)%Q.
Proof. unfold scaled. ring. Qed.

Lemma scaled_pos (n e : Z) : 0 < n -> (0 < scaled n e)%Q.
Proof.
  intros Hn. unfold scaled. apply Qmult_lt_0_compat.
  - rewrite Zlt_Qlt in Hn. exact Hn.
  - apply Qpower_0_lt. reflexivity.
Qed.

Lemma signed_exact_mul (a b : Decimal) :
  signed (exact_mul a b) = signed a * signed b.
Proof.
  unfold signed, exact_mul; cbn [d_sign d_int].
  rewrite N2Z.inj_mul. destruct (d_sign a), (d_sign b); cbn [xorb]; ring.
Qed.

(** The exact product denotes the product of the values. *)
Lemma value_exact_mul (a b : Decimal) :
  (value (exact_mul a b) == value a * value b)%Q.
Proof.
  unfold value. rewrite scaled_mul, signed_exact_mul. reflexivity.
Qed.

Lemma value_of_int (n : Z) : (value (of_int n) == inject_Z n)%Q.
Proof.
  unfold value, of_int, signed; cbn [d_sign d_int d_exp].
  rewrite scaled_nonneg_exp by lia. rewrite Z.pow_0_r, Z.mul_1_r.
  rewrite Z2N.id by lia.
  destruct (Z.ltb_spec n 0); f_equiv; lia.
Qed.

(** *** Ceiling *)

(** [ceil d] is the integer with [ceil d - 1 < d <= ceil d]. *)
Lemma ceil_spec (d : Decimal) :
  (inject_Z (ceil d) - 1 < value d /\ value d <= inject_Z (ceil d))%Q.
Proof.
  unfold ceil, value.
  destruct (N.eqb_spec (d_int d) 0) as [H0|Hnz].
  - assert (Hs : signed d = 0)
      by (unfold signed; rewrite H0; destruct (d_sign d); reflexivity).
    rewrite Hs, scaled_zero. split; [reflexivity | apply Qle_refl].
  - destruct (Z.leb_spec 0 (d_exp d)) as [He|He].
    + rewrite scaled_nonneg_exp by assumption. split.
      * apply Qplus_lt_l with (z := 1%Q). ring_simplify.
        rewrite <- (inject_Z_plus _ 1), <- Zlt_Qlt. lia.
      * apply Qle_refl.
    + rewrite scaled_neg_exp by assumption.
      set (P := 10 ^ (- d_exp d)).
      assert (HP : 0 < P) by (apply Z.pow_pos_nonneg; lia).
      assert (HPQ : (0 < inject_Z P)%Q) by (rewrite <- (Zlt_Qlt 0); exact HP).
      pose proof (Z.div_mod (- signed d) P) as Hdm.
      pose proof (Z.mod_pos_bound (- signed d) P HP) as Hmod.
      split.
      * apply Qlt_shift_div_l; [exact HPQ|].
        change 1%Q with (inject_Z 1).
        unfold Qminus.
        rewrite <- inject_Z_opp, <- inject_Z_plus, <- inject_Z_mult, <- Zlt_Qlt.
        nia.
      * apply Qle_shift_div_r; [exact HPQ|].
        rewrite <- inject_Z_mult, <- Zle_Qle. nia.
Qed.


(** *** Division by ten *)

Lemma div_eucl_eq (a b : Z) : Z.div_eucl a b = (a / b, a mod b).
Proof. unfold Z.div, Z.modulo. destruct (Z.div_eucl a b). reflexivity. Qed.

(** Dividing a non-zero decimal of at most [prec] digits by ten leaves
    the coefficient, less a trailing zero if it has one, and lowers the
    exponent accordingly; [_fix] sees exactly that. *)
Lemma truediv_ten_quotient (p : Decimal) :
  d_int p <> 0%N ->
  ndigits (Z.of_N (d_int p)) <= prec ->
  exists c e,
    truediv p (of_int 10) = _fix (mkDecimal (d_sign p) (Z.to_N c) e) /\
    0 < c /\
    Z.of_N (d_int p) = c * 10 ^ (e - (d_exp p - 1)) /\
    d_exp p - 1 <= e <= d_exp p.
Proof.
  intros Hnz Hprec.
  unfold truediv.
  change (Z.of_N (d_int (of_int 10))) with 10.
  change (d_exp (of_int 10)) with 0.
  change (d_sign (of_int 10)) with false.
  change (ndigits 10) with 2.
  set (ca := Z.of_N (d_int p)) in *.
  assert (Hca : 0 < ca) by (subst ca; lia).
  change (10 =? 0) with false. cbn iota.
  destruct (Z.eqb_spec ca 0) as [?|_]; [lia|].
  set (shift := 2 - ndigits ca + prec + 1).
  assert (Hshift : 3 <= shift) by (subst shift; context_bounds; lia).
  destruct (Z.leb_spec 0 shift) as [_|?]; [|lia].
  rewrite div_eucl_eq.
  set (m := Z.to_nat (shift - 1)).
  assert (Hpow : ca * 10 ^ shift = ca * 10 ^ Z.of_nat m * 10).
  { subst m. rewrite Z2Nat.id by lia.
    replace shift with (Z.succ (shift - 1)) at 1 by lia.
    rewrite Z.pow_succ_r by lia. ring. }
  rewrite Hpow, Z.mod_mul, Z.div_mul by lia.
  change (0 =? 0) with true. cbn iota.
  rewrite xorb_false_r.
  rewrite strip_zeros_pow by (subst m; lia).
  replace (Z.to_nat (d_exp p - 0 - (d_exp p - 0 - shift)) - m)%nat
    with 1%nat by (subst m; lia).
  replace (d_exp p - 0 - shift + Z.of_nat m) with (d_exp p - 1)
    by (subst m; lia).
  destruct (strip_zeros_spec 1 ca (d_exp p - 1) (d_exp p - 0) Hca)
    as (Hc & He & Heq & Hid).
  destruct (strip_zeros 1 ca (d_exp p - 1) (d_exp p - 0)) as [c e].
  cbn [fst snd] in *.
  exists c, e. repeat split; try assumption; lia.
Qed.

(** Within the context, a tenth is exact. *)
Lemma truediv_ten_exact (p : Decimal) :
  d_int p <> 0%N ->
  ndigits (Z.of_N (d_int p)) <= prec ->
  Etiny < d_exp p ->
  ndigits (Z.of_N (d_int p)) + d_exp p - 1 <= Emax ->
  exists q, truediv p (of_int 10) = Return q /\
            (value q * inject_Z 10 == value p)%Q.
Proof.
  intros Hnz Hprec Htiny Hmax.
  destruct (truediv_ten_quotient p Hnz Hprec) as (c & e & Hq & Hc & Heq & He).
  rewrite Hq.
  assert (Hk : 1 <= 10 ^ (e - (d_exp p - 1)))
    by (apply Z.lt_pred_le, Z.pow_pos_nonneg; lia).
  assert (Hle : c <= Z.of_N (d_int p)) by nia.
  pose proof (ndigits_le_mono c _ Hc Hle) as Hnd.
  eexists. split.
  - apply fix_exact; cbn [d_int d_exp]; rewrite ?Z2N.id by lia; lia.
  - unfold value, signed; cbn [d_sign d_int d_exp].
    rewrite Z2N.id by lia.
    rewrite <- scaled_succ.
    replace (e + 1) with (d_exp p + (e - (d_exp p - 1))) by lia.
    rewrite <- scaled_pow10 by lia.
    destruct (d_sign p); [rewrite Z.mul_opp_l|]; rewrite <- Heq;
      reflexivity.
Qed.

Lemma value_zero (d : Decimal) : d_int d = 0%N -> (value d == 0)%Q.
Proof.
  intros H0. unfold value, signed. rewrite H0.
  destruct (d_sign d); apply scaled_zero.
Qed.

Lemma ceil_zero (d : Decimal) : d_int d = 0%N -> ceil d = 0.
Proof. intros H0. unfold ceil. rewrite H0. reflexivity. Qed.

Lemma truediv_ten_zero (p : Decimal) :
  d_int p = 0%N ->
  exists q, truediv p (of_int 10) = Return q /\ d_int q = 0%N.
Proof.
  intros H0. unfold truediv. rewrite H0.
  change (Z.of_N (d_int (of_int 10)) =? 0) with false.
  change (Z.of_N 0 =? 0) with true. cbn iota.
  edestruct fix_zero as [e He]; [|rewrite He; eexists; split; reflexivity].
  reflexivity.
Qed.

(** Dividing what [_fix] returned by ten never raises. *)
Lemma truediv_ten_returns (p : Decimal) :
  (d_int p <> 0%N ->
   ndigits (Z.of_N (d_int p)) <= prec /\
   ndigits (Z.of_N (d_int p)) + d_exp p - 1 <= Emax) ->
  exists q, truediv p (of_int 10) = Return q.
Proof.
  intros Hp. destruct (N.eq_dec (d_int p) 0) as [H0|Hnz].
  - destruct (truediv_ten_zero p H0) as (q & Hq & _). eauto.
  - destruct (Hp Hnz) as [Hprec Hmax]. clear Hp.
    destruct (truediv_ten_quotient p Hnz Hprec) as (c & e & Hq & Hc & Heq & He).
    rewrite Hq.
    pose proof (ndigits_pow10 c (e - (d_exp p - 1)) Hc) as Hnd.
    rewrite <- Heq in Hnd.
    destruct (fix_returns (mkDecimal (d_sign p) (Z.to_N c) e))
      as (q & Hfix & _); [|eauto].
    cbn [d_int d_exp]. rewrite Z2N.id by lia. lia.
Qed.

End PyDecimalFacts.

(** ** The matcher *)

Module PyReFacts.

Import PyStr PyRe.
Local Open Scope string_scope.

Lemma exactly_sound (k : category) (n : nat) :
  forall s m rest,
  exactly k n s = Some (m, rest) ->
  s = m ++ rest /\ String.length m = n /\
  (forall c, In c (list_ascii_of_string m) -> in_category k c = true).
Proof.
  induction n as [|n IH]; intros s m rest H; cbn [exactly] in H.
  - inversion H; subst. repeat split. intros c [].
  - destruct s as [|c s]; [discriminate|].
    destruct (in_category k c) eqn:Hc; [|discriminate].
    destruct (exactly k n s) as [[m' rest']|] eqn:He; [|discriminate].
    inversion H; subst. destruct (IH _ _ _ He) as (-> & Hlen & Hall).
    repeat split.
    + simpl. now rewrite Hlen.
    + intros c' [<-|Hin]; auto.
Qed.

Lemma exactly_complete (k : category) (rest : string) :
  forall m,
  (forall c, In c (list_ascii_of_string m) -> in_category k c = true) ->
  exactly k (String.length m) (m ++ rest) = Some (m, rest).
Proof.
  induction m as [|c m IH]; intros Hall; cbn.
  - reflexivity.
  - rewrite (Hall c) by (left; reflexivity).
    rewrite IH by (intros c' Hin; apply Hall; right; exact Hin).
    reflexivity.
Qed.

Section Greedy.

Variable A : Type.

Lemma greedy_star_total (k : category) :
  forall s (cont : string -> string -> option A),
  (forall m rest, cont m rest <> None) ->
  greedy k 0 s cont <> None.
Proof.
  induction s as [|c s IH]; intros cont Hcont; cbn [greedy Nat.pred].
  - apply Hcont.
  - destruct (in_category k c); [|apply Hcont].
    specialize (IH (fun m rest => cont (String c m) rest)).
    destruct (greedy k 0 s _); [discriminate|].
    exfalso. apply IH; [|reflexivity]. intros; apply Hcont.
Qed.

Lemma greedy_plus_starts (k : category) (s : string)
      (cont : string -> string -> option A) :
  greedy k 1 s cont <> None ->
  exists c s', s = String c s' /\ in_category k c = true.
Proof.
  destruct s as [|c s]; cbn [greedy]; [congruence|].
  destruct (in_category k c) eqn:Hc; [|congruence].
  intros _. now exists c, s.
Qed.

Lemma greedy_plus_total (k : category) (c : ascii) (s : string)
      (cont : string -> string -> option A) :
  (forall m rest, cont m rest <> None) ->
  in_category k c = true ->
  greedy k 1 (String c s) cont <> None.
Proof.
  intros Hcont Hc. cbn [greedy Nat.pred]. rewrite Hc.
  pose proof (@greedy_star_total k s (fun m rest => cont (String c m) rest))
    as Hstar.
  destruct (greedy k 0 s _); [discriminate|].
  exfalso. apply Hstar; [|reflexivity]. intros; apply Hcont.
Qed.

End Greedy.

(** The first position where the pattern matches is a position of the
    text; a search that finds nothing has tried them all. *)
Lemma search_from_none (r : regex) :
  forall s pos,
  search_from r pos s = None <->
  (forall before t, s = before ++ t -> match_here r t = None).
Proof.
  induction s as [|c s IH]; intros pos; cbn [search_from].
  - destruct (match_here r "") as [[m g]|] eqn:Hm.
    + split; [discriminate|]. intros H.
      specialize (H "" "" eq_refl). congruence.
    + split; [|reflexivity]. intros _ before t Heq.
      destruct before; destruct t; try discriminate. exact Hm.
  - destruct (match_here r (String c s)) as [[m g]|] eqn:Hm.
    + split; [discriminate|]. intros H.
      specialize (H "" (String c s) eq_refl). congruence.
    + rewrite IH. split.
      * intros H before t Heq. destruct before as [|b before].
        -- simpl in Heq. subst t. exact Hm.
        -- simpl in Heq. inversion Heq; subst. eapply H. reflexivity.
      * intros H before t Heq. apply (H (String c before) t).
        simpl. now rewrite Heq.
Qed.

End PyReFacts.

(** ** Text *)

Module PyStrFacts.

Import PyStr.
Local Open Scope string_scope.

Lemma splitlines_nonempty (s : string) :
  is_empty s = false -> exists line lines, splitlines s = line :: lines.
Proof.
  destruct s as [|c s]; [discriminate|]. intros _. cbn [splitlines].
  destruct (is_linebreak c); [eauto|].
  destruct (splitlines s); eauto.
Qed.

Lemma splitlines_nil (s : string) : splitlines s = [] <-> s = "".
Proof.
  split; [|intros ->; reflexivity].
  destruct s as [|c s]; [reflexivity|]. cbn [splitlines].
  destruct (is_linebreak c); [discriminate|].
  destruct (splitlines s); discriminate.
Qed.

Lemma append_assoc (a b c : string) : (a ++ b) ++ c = a ++ (b ++ c).
Proof. induction a as [|x a IH]; cbn; [reflexivity | now rewrite IH]. Qed.

Lemma append_char (a : string) (x : ascii) (b : string) :
  (a ++ String x "") ++ b = a ++ String x b.
Proof. now rewrite append_assoc. Qed.

Lemma length_append_char (a : string) (x : ascii) :
  String.length (a ++ String x "") = S (String.length a).
Proof. induction a as [|y a IH]; cbn; [reflexivity | now rewrite IH]. Qed.

Lemma in_append_char (a : string) (x c : ascii) :
  In c (list_ascii_of_string (a ++ String x "")) ->
  In c (list_ascii_of_string a) \/ c = x.
Proof.
  induction a as [|y a IH]; cbn.
  - intros [<-|[]]. now right.
  - intros [<-|H]; [left; now left|].
    destruct (IH H) as [?|?]; [left; now right | now right].
Qed.

End PyStrFacts.

(** ** Form fields *)

Module DjangoFacts.

Import PyDecimal PyDecimalFacts PyStr Django.
Local Open Scope string_scope.

(** What a [DecimalField] with [max_digits=10, decimal_places=2] lets
    through. *)
Lemma DecimalField_clean_bounds (min_value : Z) (raw : option Decimal)
      (a : Decimal) :
  DecimalField_clean min_value 10 2 raw = Clean a ->
  raw = Some a /\
  below a min_value = false /\
  (ndigits (Z.of_N (d_int a)) <= 10 /\ -2 <= d_exp a <= 9)%Z.
Proof.
  unfold DecimalField_clean. destruct raw as [d|]; [|discriminate].
  destruct (decimal_digits d) as [digits decimals] eqn:Hdd.
  destruct (below d min_value) eqn:Hbelow; [discriminate|].
  destruct (Z.ltb_spec 10 digits); [discriminate|].
  destruct (Z.ltb_spec 2 decimals); [discriminate|].
  destruct (Z.ltb_spec (10 - 2) (digits - decimals)); [discriminate|].
  intros Heq; inversion Heq; subst a; clear Heq.
  split; [reflexivity|]. split; [exact Hbelow|].
  unfold decimal_digits in Hdd.
  pose proof (ndigits_pos (Z.of_N (d_int d))).
  destruct (Z.leb_spec 0 (d_exp d));
    [|destruct (Z.ltb_spec (ndigits (Z.of_N (d_int d))) (- d_exp d))];
    inversion Hdd; subst; lia.
Qed.

Lemma CharField_clean_required (max_length : option nat) (raw v : string) :
  CharField_clean true max_length raw = Clean v -> is_empty v = false.
Proof.
  unfold CharField_clean. destruct (is_empty (strip raw)) eqn:He;
    [discriminate|].
  destruct max_length as [n|];
    [destruct (n <? String.length (strip raw))%nat; [discriminate|]|];
    intros H; inversion H; subst; exact He.
Qed.

End DjangoFacts.

(** ** The forms *)

Module FormsFacts.

Import PyDecimal PyDecimalFacts PyStr PyStrFacts PyRe PyReFacts.
Import Django DjangoFacts Forms.
Local Open Scope string_scope.

(** *** [parse_address] *)

(** [POSTCODE_RE] matches at the start of a text exactly when the text
    opens with five digits and a whitespace character: the greedy [\s+] and
    [.*] that follow never fail. *)
Lemma match_here_POSTCODE_RE (s : string) :
  match_here POSTCODE_RE s <> None <->
  exists digits space rest,
    s = digits ++ String space rest /\
    String.length digits = 5%nat /\
    (forall c, In c (list_ascii_of_string digits) -> isdecimal c = true) /\
    isspace space = true.
Proof.
  unfold match_here, POSTCODE_RE. cbn [run].
  split.
  - destruct (exactly Digit 5 s) as [[m rest]|] eqn:He; [|congruence].
    intros H. apply greedy_plus_starts in H.
    destruct H as (c & s' & -> & Hc).
    destruct (exactly_sound _ _ _ _ _ He) as (-> & Hlen & Hall).
    now exists m, c, s'.
  - intros (digits & space & rest & -> & Hlen & Hall & Hspace).
    rewrite <- Hlen, exactly_complete by exact Hall.
    apply greedy_plus_total; [|exact Hspace].
    intros m1 rest1. apply greedy_star_total. discriminate.
Qed.

Lemma search_POSTCODE_RE_none (s : string) :
  search POSTCODE_RE s = None <-> ~ has_postcode s.
Proof.
  unfold search. rewrite search_from_none. unfold has_postcode. split.
  - intros H (before & digits & space & rest & Heq & Hrest).
    apply (proj2 (match_here_POSTCODE_RE (digits ++ String space rest))).
    + now exists digits, space, rest.
    + eapply H. exact Heq.
  - intros H before t Heq.
    destruct (match_here POSTCODE_RE t) eqn:Hm; [|reflexivity].
    exfalso. apply H.
    destruct (proj1 (match_here_POSTCODE_RE t)) as (d & w & r & -> & Hr);
      [congruence|].
    now exists before, d, w, r.
Qed.

(** C2, at the failing input: an address that is nothing but a postcode
    and a city matches, the match is removed, nothing is left to split into
    lines, and [refined[0]] raises [IndexError] where the claim promises a
    value. *)
Example parse_address_bare_postcode :
  parse_address "12345 Berlin" = Raise IndexError.
Proof. reflexivity. Qed.

(** C7, as stated, fails.  The text "1234567 x" holds no run of exactly
    five digits, yet the result is not empty: the pattern matches the last
    five digits of the longer run.  In "x 12345 " no text follows the
    whitespace, and the result is not empty either: the city is the empty
    text. *)
Lemma parse_address_longer_digit_run :
  (exactly_five_then_space 0 "1234567 x" = false /\
   parse_address "1234567 x"
   = Return [("address", "12"); ("postcode", "34567"); ("city", "x")]) /\
  (exactly_five_then_space 0 "x 12345 " = false /\
   parse_address "x 12345 "
   = Return [("address", "x"); ("postcode", "12345"); ("city", "")]).
Proof. repeat split. Qed.

(** C7, amended: [parse_address] returns the empty result exactly when
    nowhere in the text five decimal digits stand directly before a
    whitespace character (the digits may end a longer run, and nothing
    need follow the whitespace); an input whose only digit group has four
    digits yields the empty result. *)
Theorem parse_address_empty_iff :
  (forall address : string,
      parse_address address = Return [] <-> ~ has_postcode address) /\
  parse_address "1234 too short" = Return [].
Proof.
  split; [|reflexivity].
  intros address. rewrite <- search_POSTCODE_RE_none.
  unfold parse_address.
  destruct (search POSTCODE_RE address) as [m|]; [|tauto].
  split; [|discriminate].
  destruct (splitlines _); cbn; discriminate.
Qed.

(** C8: the address "Main Street 1", newline, "12345 Springfield" parses
    to the street address "Main Street 1", the postcode "12345" and the
    city "Springfield". *)
Theorem parse_address_main_street :
  parse_address ("Main Street 1" ++ String LF "12345 Springfield")
  = Return [("address", "Main Street 1"); ("postcode", "12345");
            ("city", "Springfield")].
Proof. reflexivity. Qed.

(** The function raises exactly when the pattern matches and nothing but
    whitespace is left once the match is taken out; [IndexError] is the
    only exception it raises. *)
Lemma parse_address_raises_iff (address : string) (e : exn) :
  parse_address address = Raise e <->
  e = IndexError /\
  exists m, search POSTCODE_RE address = Some m /\
            strip (replace (group m 0) "" address) = "".
Proof.
  unfold parse_address.
  destruct (search POSTCODE_RE address) as [m|].
  - destruct (splitlines (strip (replace (group m 0) "" address)))
      as [|line lines] eqn:Hlines; cbn [first_item bind].
    + apply splitlines_nil in Hlines. split.
      * intros H. injection H as <-. split; [reflexivity|]. now exists m.
      * intros [-> _]. reflexivity.
    + split; [discriminate|]. intros (_ & m' & Hm & Hstrip).
      injection Hm as <-. rewrite Hstrip in Hlines. discriminate.
  - split; [discriminate|]. intros (_ & m & Hm & _). discriminate.
Qed.

(** A postcode later in the text is a postcode of the text. *)
Lemma has_postcode_append (before s : string) :
  has_postcode s -> has_postcode (before ++ s).
Proof.
  intros (b & digits & space & rest & -> & Hrest).
  exists (before ++ b), digits, space, rest.
  split; [now rewrite append_assoc | exact Hrest].
Qed.

(** The reading of the specification is the narrower one: a run of
    exactly five digits before a whitespace character and more text is, in
    particular, five digits before a whitespace character. *)
Lemma exactly_five_then_space_has_postcode (s : string) :
  forall run : string,
  (forall c, In c (list_ascii_of_string run) -> isdecimal c = true) ->
  exactly_five_then_space (String.length run) s = true ->
  has_postcode (run ++ s).
Proof.
  induction s as [|c s IH]; intros run Hrun; cbn [exactly_five_then_space];
    [discriminate|].
  destruct (isdecimal c) eqn:Hc.
  - intros H. rewrite <- append_char. apply IH.
    + intros c' Hin. apply in_append_char in Hin.
      destruct Hin as [Hin| ->]; [now apply Hrun | exact Hc].
    + now rewrite length_append_char.
  - intros H. apply orb_true_iff in H. destruct H as [H|H].
    + apply andb_true_iff in H. destruct H as [H _].
      apply andb_true_iff in H. destruct H as [Hfive Hspace].
      apply Nat.eqb_eq in Hfive.
      exists "", run, c, s. repeat split; assumption.
    + rewrite <- append_char. apply has_postcode_append.
      apply (IH "" (fun _ (H : False) => match H with end) H).
Qed.

(** *** The kinds on offer *)

Lemma kinds_of_acc (k : string) :
  forall crowdfundings acc,
  set_In k (fold_left (fun acc c => set_add string_dec (cf_kind c) acc)
                      crowdfundings acc) <->
  set_In k acc \/ exists cf, In cf crowdfundings /\ cf_kind cf = k.
Proof.
  induction crowdfundings as [|c cfs IH]; intros acc; cbn [fold_left].
  - split; [auto|]. intros [H|(cf & [] & _)]; exact H.
  - rewrite IH, set_add_iff. split.
    + intros [[->|H]|(cf & Hin & Hk)]; eauto.
      * right. exists c. split; [left|]; reflexivity.
      * right. exists cf. split; [right|]; assumption.
    + intros [H|(cf & [<-|Hin] & Hk)]; eauto.
Qed.

Lemma kinds_of_mem (k : string) (crowdfundings : list Crowdfunding) :
  set_mem string_dec k (kinds_of crowdfundings)
  = existsb (fun cf => String.eqb (cf_kind cf) k) crowdfundings.
Proof.
  apply eq_true_iff_eq. rewrite existsb_exists. split.
  - intros H. apply set_mem_correct1 in H. apply kinds_of_acc in H.
    destruct H as [[]|(cf & Hin & Hk)].
    exists cf. split; [assumption|]. now apply String.eqb_eq.
  - intros (cf & Hin & Hk). apply set_mem_correct2, kinds_of_acc.
    right. exists cf. split; [assumption|]. now apply String.eqb_eq.
Qed.

(** *** Validation *)

Lemma can_start_crowdfunding_false (crowdfundings : list Crowdfunding)
      (c : Crowdfunding) :
  In c crowdfundings -> cf_status c <> "finished" ->
  can_start_crowdfunding crowdfundings = false.
Proof.
  intros Hin Hstatus. unfold can_start_crowdfunding.
  replace (existsb _ crowdfundings) with true; [reflexivity|].
  symmetry. apply existsb_exists. exists c. split; [assumption|].
  apply negb_true_iff, String.eqb_neq. assumption.
Qed.

Lemma no_errors_form_error (fields : list (string * string)) (message : string)
      (others : list string) :
  no_errors (mkErrorDict fields (message :: others)) = false.
Proof. unfold no_errors. cbn. destruct fields; reflexivity. Qed.

(** The product of an accepted amount and a factor of ordinary size stays
    below the top of the context. *)
Lemma accepted_amount_below_Emax (factor a : Decimal) :
  moderate factor ->
  (ndigits (Z.of_N (d_int a)) <= 10 /\ -2 <= d_exp a <= 9)%Z ->
  (ndigits (Z.of_N (d_int (exact_mul a factor)))
   + d_exp (exact_mul a factor) <= Emax)%Z.
Proof.
  unfold moderate, exact_mul. cbn [d_int d_exp]. intros Hf [Ha He].
  rewrite N2Z.inj_mul.
  pose proof (ndigits_pos (Z.of_N (d_int factor))).
  assert (ndigits (Z.of_N (d_int a) * Z.of_N (d_int factor))
          <= ndigits (Z.of_N (d_int a)) + ndigits (Z.of_N (d_int factor)))%Z;
    [|unfold Emax; lia].
  destruct (Z.eq_dec (Z.of_N (d_int a) * Z.of_N (d_int factor)) 0) as [->|Hnz].
  - change (ndigits 0) with 1%Z. pose proof (ndigits_pos (Z.of_N (d_int a))).
    lia.
  - apply ndigits_mul_le; nia.
Qed.

(** For a factor of at most 18 digits with an everyday exponent, the
    product with an accepted amount is exact. *)
Lemma accepted_amount_fits (factor a : Decimal) :
  (ndigits (Z.of_N (d_int factor)) <= 18 /\ -1000 <= d_exp factor <= 1000)%Z ->
  (ndigits (Z.of_N (d_int a)) <= 10 /\ -2 <= d_exp a <= 9)%Z ->
  fits (exact_mul a factor).
Proof.
  intros [Hdigits Hexp] [Ha He]. unfold fits, exact_mul; cbn [d_int d_exp].
  destruct (N.eq_dec (d_int a * d_int factor) 0) as [H0|Hnz];
    [left; exact H0|].
  right. rewrite N2Z.inj_mul.
  pose proof (ndigits_mul_le (Z.of_N (d_int a)) (Z.of_N (d_int factor))).
  pose proof (ndigits_pos (Z.of_N (d_int a) * Z.of_N (d_int factor))).
  unfold Etiny, Emin, Emax, prec. lia.
Qed.

Section Facts.

Variable OVERHEAD_FACTOR : Decimal.
Variable KIND_CHOICES : list (string * string).
Variable PAYMENT_METHODS : list (string * string).
Variable Crowdfunding_new : Crowdfunding.
Variable Crowdfunding_full_clean : Crowdfunding -> list (string * string).
Variable unique_slug : string -> list Crowdfunding -> string.
Variable stores_crowdfunding : Crowdfunding -> bool.
Variable stores_order : Order -> bool.
Variable stores_contribution : Contribution -> bool.
Variable contribution_description : string -> string.

(** *** [calculate_amount_needed] *)

(** Whatever the function returns is [Decimal(n)] for a multiple [n] of
    ten. *)
Lemma calculate_amount_needed_multiple (x r : Decimal) :
  calculate_amount_needed OVERHEAD_FACTOR x = Return r ->
  exists n : Z, r = of_int n /\ (n mod 10 = 0)%Z.
Proof.
  unfold calculate_amount_needed.
  destruct (mul x OVERHEAD_FACTOR) as [p|]; [|discriminate]. cbn [bind].
  destruct (truediv p (of_int 10)) as [q|]; [|discriminate]. cbn [bind].
  intros H. injection H as <-. eexists. split; [reflexivity|].
  apply Z.mod_mul. lia.
Qed.

(** The function raises only when the product overflows. *)
Lemma calculate_amount_needed_returns (x : Decimal) :
  (ndigits (Z.of_N (d_int (exact_mul x OVERHEAD_FACTOR)))
   + d_exp (exact_mul x OVERHEAD_FACTOR) <= Emax)%Z ->
  exists r, calculate_amount_needed OVERHEAD_FACTOR x = Return r.
Proof.
  intros Hmax. unfold calculate_amount_needed, mul.
  destruct (fix_returns _ Hmax) as (p & Hp & _ & Hbounds).
  rewrite Hp. cbn [bind].
  destruct (truediv_ten_returns p Hbounds) as (q & Hq).
  rewrite Hq. cbn [bind]. eauto.
Qed.

(** The target of an amount whose product with the factor fits the
    context: the least multiple of ten that is not below the product. *)
Lemma calculate_amount_needed_fits (x : Decimal) :
  fits (exact_mul x OVERHEAD_FACTOR) ->
  exists n : Z,
    calculate_amount_needed OVERHEAD_FACTOR x = Return (of_int n) /\
    (n mod 10 = 0)%Z /\
    (value x * value OVERHEAD_FACTOR <= inject_Z n)%Q /\
    (inject_Z n - inject_Z 10 < value x * value OVERHEAD_FACTOR)%Q.
Proof.
  intros Hfits. unfold calculate_amount_needed, mul.
  destruct (N.eq_dec (d_int (exact_mul x OVERHEAD_FACTOR)) 0) as [H0|Hnz].
  - (* the product is zero *)
    destruct (fix_zero _ H0) as [e He]. rewrite He. cbn [bind].
    destruct (truediv_ten_zero
                (mkDecimal (d_sign (exact_mul x OVERHEAD_FACTOR)) 0 e))
      as (q & Hq & Hq0); [reflexivity|].
    rewrite Hq. cbn [bind]. rewrite (ceil_zero _ Hq0).
    exists 0%Z. split; [reflexivity|]. split; [reflexivity|].
    rewrite <- value_exact_mul, (value_zero _ H0).
    split; [apply Qle_refl | reflexivity].
  - destruct Hfits as [?|(Hprec & Htiny & Hmax)]; [contradiction|].
    rewrite fix_exact by (assumption || lia). cbn [bind].
    destruct (truediv_ten_exact _ Hnz Hprec Htiny Hmax) as (q & Hq & Hval).
    rewrite Hq. cbn [bind].
    exists (ceil q * 10)%Z. split; [reflexivity|].
    split; [apply Z.mod_mul; lia|].
    rewrite inject_Z_mult.
    rewrite value_exact_mul in Hval.
    destruct (ceil_spec q) as [Hlo Hhi].
    change (inject_Z 10) with (10#1)%Q in *.
    split; lra.
Qed.

(** C1, amended: for a factor above 1 and a non-negative amount [x] whose
    product with the factor the decimal context holds exactly (at most 28
    digits, exponent within range), the function returns a multiple of ten
    that is not below [x] and not below [x] times the factor; it is the
    least such multiple. *)
Theorem calculate_amount_needed_rounds_up (x : Decimal) :
  (1 < value OVERHEAD_FACTOR)%Q ->
  (0 <= value x)%Q ->
  fits (exact_mul x OVERHEAD_FACTOR) ->
  exists n : Z,
    calculate_amount_needed OVERHEAD_FACTOR x = Return (of_int n) /\
    (n mod 10 = 0)%Z /\
    (value x <= value (of_int n))%Q /\
    (value x * value OVERHEAD_FACTOR <= value (of_int n))%Q /\
    (value (of_int n) - inject_Z 10 < value x * value OVERHEAD_FACTOR)%Q.
Proof.
  intros Hf Hx Hfits.
  assert (Hxf : (value x <= value x * value OVERHEAD_FACTOR)%Q) by nra.
  destruct (calculate_amount_needed_fits x Hfits)
    as (n & Hn & Hmod & Hle & Hlt).
  exists n. rewrite value_of_int. repeat split; try assumption.
  now apply Qle_trans with (value x * value OVERHEAD_FACTOR)%Q.
Qed.

(** Every amount the start form accepts is such an amount, when the
    factor is above 1, has at most 18 digits and an everyday exponent. *)
Corollary calculate_amount_needed_accepted (raw : option Decimal)
          (a : Decimal) :
  DecimalField_clean 10 10 2 raw = Clean a ->
  (1 < value OVERHEAD_FACTOR)%Q ->
  (ndigits (Z.of_N (d_int OVERHEAD_FACTOR)) <= 18 /\
   -1000 <= d_exp OVERHEAD_FACTOR <= 1000)%Z ->
  exists n : Z,
    calculate_amount_needed OVERHEAD_FACTOR a = Return (of_int n) /\
    (n mod 10 = 0)%Z /\
    (value a <= inject_Z n)%Q /\
    (value a * value OVERHEAD_FACTOR <= inject_Z n)%Q.
Proof.
  intros Hclean Hf Hfactor.
  apply DecimalField_clean_bounds in Hclean.
  destruct Hclean as (_ & Hmin & Hbounds).
  unfold below in Hmin. apply negb_false_iff, Qle_bool_iff in Hmin.
  change (inject_Z 10) with (10#1)%Q in Hmin.
  destruct (calculate_amount_needed_fits a
              (accepted_amount_fits _ _ Hfactor Hbounds))
    as (n & Hn & Hmod & Hle & _).
  exists n. repeat split; try assumption.
  apply Qle_trans with (value a * value OVERHEAD_FACTOR)%Q; [nra|assumption].
Qed.

(** *** [CrowdfundingRequestStartForm] *)

(** C3, amended: with a request and a collection of campaigns given, the
    kinds on offer are the entries of [KIND_CHOICES], in their order, whose
    kind no campaign of the collection uses, whatever the status of that
    campaign. *)
Theorem kind_choices_exclude_used_kinds
        (data : StartData) (request : FoiRequest)
        (crowdfundings : list Crowdfunding) (user : option User) :
  exists form,
    CrowdfundingRequestStartForm_init KIND_CHOICES data (Some request)
                                      (Some crowdfundings) user
    = Return form /\
    sf_kind_choices form
    = filter (fun c =>
                negb (existsb (fun cf => String.eqb (cf_kind cf) (fst c))
                              crowdfundings))
             KIND_CHOICES /\
    (forall c, In c (sf_kind_choices form) <->
               In c KIND_CHOICES /\
               ~ exists cf, In cf crowdfundings /\ cf_kind cf = fst c).
Proof.
  unfold CrowdfundingRequestStartForm_init.
  cbn [sf_foirequest sf_crowdfundings bind].
  eexists. split; [reflexivity|].
  match goal with
  | |- ?choices = _ /\ _ =>
      assert (Hchoices :
        choices
        = filter (fun c =>
                    negb (existsb (fun cf => String.eqb (cf_kind cf) (fst c))
                                  crowdfundings))
                 KIND_CHOICES)
  end.
  { destruct (req_costs request) as [d|]; [destruct (nonzero d)|];
      cbn [sf_crowdfundings set_amount_requested_initial set_title_initial
           set_kind_choices sf_kind_choices];
      apply filter_ext; intros c; now rewrite kinds_of_mem. }
  split; [exact Hchoices|].
  intros c. rewrite Hchoices, filter_In, negb_true_iff.
  rewrite <- not_true_iff_false, existsb_exists.
  split; intros [H1 H2]; (split; [exact H1|]);
    intros (cf & Hcf & Hk); apply H2; exists cf; (split; [exact Hcf|]);
    now apply String.eqb_eq.
Qed.

(** C10: without a request the initializer raises ([None] has no
    [costs]), whatever else it is given; so a form that was initialized
    had a request, and its initial title is that request's title. *)
Theorem CrowdfundingRequestStartForm_init_requires_request :
  (forall data crowdfundings user,
      CrowdfundingRequestStartForm_init KIND_CHOICES data None crowdfundings
                                        user
      = Raise AttributeError) /\
  (forall data foirequest crowdfundings user form,
      CrowdfundingRequestStartForm_init KIND_CHOICES data foirequest
                                        crowdfundings user
      = Return form ->
      exists request,
        foirequest = Some request /\
        sf_title_initial form = Some (req_title request)).
Proof.
  split.
  - reflexivity.
  - intros data [request|] crowdfundings user form H; [|discriminate].
    exists request. split; [reflexivity|].
    unfold CrowdfundingRequestStartForm_init in H.
    cbn [sf_foirequest bind] in H.
    inversion H; subst; clear H.
    destruct (req_costs request) as [d|]; [destruct (nonzero d)|];
      destruct crowdfundings; reflexivity.
Qed.

(** C4: when one of the request's campaigns is not finished, validation
    ends with exactly one error of the form as a whole, the form is not
    valid, and saving raises and leaves the database as it was. *)
Theorem ongoing_crowdfunding_rejected
        (self : CrowdfundingRequestStartForm)
        (crowdfundings : list Crowdfunding) (c : Crowdfunding) :
  sf_crowdfundings self = Some crowdfundings ->
  In c crowdfundings ->
  cf_status c <> "finished" ->
  (exists errors instance,
      CrowdfundingRequestStartForm_full_clean Crowdfunding_new
                                              Crowdfunding_full_clean self
      = Return (errors, instance) /\
      non_field_errors errors = ["You have an ongoing crowdfunding."]) /\
  CrowdfundingRequestStartForm_is_valid Crowdfunding_new
                                        Crowdfunding_full_clean self
  = Return false /\
  (forall db,
      CrowdfundingRequestStartForm_save OVERHEAD_FACTOR Crowdfunding_new
                     Crowdfunding_full_clean unique_slug
                     stores_crowdfunding self db
      = (Raise ValueError, db)).
Proof.
  intros Hcfs Hin Hstatus.
  pose proof (can_start_crowdfunding_false _ _ Hin Hstatus) as Hcan.
  assert (Hclean :
    exists fields instance,
      CrowdfundingRequestStartForm_full_clean Crowdfunding_new
                                              Crowdfunding_full_clean self
      = Return (mkErrorDict fields ["You have an ongoing crowdfunding."],
                instance)).
  { unfold CrowdfundingRequestStartForm_full_clean,
      CrowdfundingRequestStartForm_clean.
    destruct (CrowdfundingRequestStartForm_clean_fields self)
      as [errors cleaned_data].
    rewrite Hcfs, Hcan. cbn. eauto. }
  destruct Hclean as (fields & instance & Hclean).
  split; [|split].
  - eauto.
  - unfold CrowdfundingRequestStartForm_is_valid. rewrite Hclean.
    cbn [bind fst].
    now rewrite no_errors_form_error.
  - intros db. unfold CrowdfundingRequestStartForm_save, ModelForm_save.
    rewrite Hclean.
    cbn [bind]. rewrite no_errors_form_error.
    destruct instance; reflexivity.
Qed.

Lemma CrowdfundingRequestStartForm_clean_fields_valid
      (self : CrowdfundingRequestStartForm) :
  fst (CrowdfundingRequestStartForm_clean_fields self) = [] ->
  exists d,
    snd (CrowdfundingRequestStartForm_clean_fields self) = Some d /\
    DecimalField_clean 10 10 2 (raw_amount_requested (sf_data self))
    = Clean (sc_amount_requested d).
Proof.
  unfold CrowdfundingRequestStartForm_clean_fields. cbn [fst snd].
  destruct (CharField_clean true (Some 255%nat) (raw_title (sf_data self)));
    [|discriminate].
  destruct (ChoiceField_clean (sf_kind_choices self) (raw_kind (sf_data self)));
    [|discriminate].
  destruct (CharField_clean true None (raw_description (sf_data self)));
    [|discriminate].
  destruct (CharField_clean true None (raw_public_interest (sf_data self)));
    [|discriminate].
  destruct (DecimalField_clean 10 10 2 (raw_amount_requested (sf_data self)));
    [|discriminate].
  destruct (BooleanField_clean true (raw_terms (sf_data self)));
    [|discriminate].
  intros _. eexists. split; reflexivity.
Qed.

(** C6: a submission that passes validation is saved as exactly one new
    campaign; its amount requested is the submitted one, its amount needed
    is what [calculate_amount_needed] returns for it, and the form's user
    and request are attached.  (The factor is of ordinary size and the
    database takes the row.) *)
Theorem CrowdfundingRequestStartForm_save_persists
        (self : CrowdfundingRequestStartForm) (db : DB) :
  CrowdfundingRequestStartForm_is_valid Crowdfunding_new
                                        Crowdfunding_full_clean self
  = Return true ->
  moderate OVERHEAD_FACTOR ->
  (forall c, stores_crowdfunding c = true) ->
  exists c,
    CrowdfundingRequestStartForm_save OVERHEAD_FACTOR Crowdfunding_new
                                      Crowdfunding_full_clean unique_slug
                                      stores_crowdfunding self db
    = (Return c,
       mkDB (db_crowdfundings db ++ [c]) (db_orders db)
            (db_contributions db)) /\
    raw_amount_requested (sf_data self) = Some (cf_amount_requested c) /\
    calculate_amount_needed OVERHEAD_FACTOR (cf_amount_requested c)
    = Return (cf_amount_needed c) /\
    cf_user c = sf_user self /\
    cf_request c = sf_foirequest self.
Proof.
  intros Hvalid Hfactor Hstores.
  unfold CrowdfundingRequestStartForm_is_valid in Hvalid.
  destruct (CrowdfundingRequestStartForm_full_clean
              Crowdfunding_new Crowdfunding_full_clean self)
    as [[errors instance]|] eqn:Hclean; [|discriminate].
  cbn [bind fst] in Hvalid. injection Hvalid as Hvalid.
  unfold CrowdfundingRequestStartForm_full_clean in Hclean.
  destruct (CrowdfundingRequestStartForm_clean_fields self)
    as [fields cleaned_data] eqn:Hfields.
  destruct (match CrowdfundingRequestStartForm_clean self cleaned_data with
            | Return _ => Return []
            | Raise (ValidationError message) => Return [message]
            | Raise e => Raise e
            end) as [form_errors|] eqn:Hform; [|discriminate].
  cbn [bind] in Hclean. injection Hclean as <- <-.
  unfold no_errors in Hvalid. cbn [field_errors non_field_errors] in Hvalid.
  destruct (fields ++ _)%list eqn:Happ; [|discriminate].
  apply app_eq_nil in Happ. destruct Happ as [-> Hmodel].
  destruct (CrowdfundingRequestStartForm_clean_fields_valid self)
    as (d & Hd & Hamount);
    [now rewrite Hfields|].
  rewrite Hfields in Hd. cbn [snd] in Hd. subst cleaned_data.
  cbn [option_map] in Hmodel.
  apply DecimalField_clean_bounds in Hamount.
  destruct Hamount as (Hraw & _ & Hbounds).
  destruct (calculate_amount_needed_returns (sc_amount_requested d)
              (accepted_amount_below_Emax _ _ Hfactor Hbounds))
    as (needed & Hneeded).
  unfold CrowdfundingRequestStartForm_save, ModelForm_save,
    CrowdfundingRequestStartForm_full_clean.
  rewrite Hfields, Hform. cbn [bind option_map]. rewrite Hmodel.
  rewrite app_nil_r. unfold no_errors. cbn [field_errors non_field_errors].
  destruct form_errors; [|discriminate].
  unfold bindM, lift. cbn [set_amount_needed set_request set_user
    construct_instance cf_amount_requested].
  rewrite Hneeded. unfold save_obj_with_slug. rewrite Hstores.
  eexists. split; [reflexivity|]. cbn. auto.
Qed.

(** *** [ContributionForm] *)

(** The cleaned amount and address of a valid contribution: the amount is
    the submitted one, the address is the submitted text stripped, and it
    is not empty. *)
Lemma ContributionForm_valid_fields (self : ContributionForm)
      (d : ContributionCleaned) :
  ContributionForm_valid PAYMENT_METHODS self d ->
  raw_amount (bf_data self) = Some (cc_amount d) /\
  cc_address d = strip (raw_address (bf_data self)) /\
  is_empty (cc_address d) = false.
Proof using PAYMENT_METHODS.
  unfold ContributionForm_valid, ContributionForm_clean_fields.
  intros H. apply (f_equal snd) in H. cbv zeta in H. cbn [snd] in H.
  revert H.
  destruct (DecimalField_clean 1 10 2 (raw_amount (bf_data self)))
    as [amount|] eqn:Hamount; cbn [and_then]; [|discriminate].
  destruct (CharField_clean false (Some 260%nat) (raw_note (bf_data self)));
    cbn [and_then]; [|discriminate].
  destruct (CharField_clean true (Some 255%nat)
                            (raw_first_name (bf_data self)));
    cbn [and_then]; [|discriminate].
  destruct (CharField_clean true (Some 255%nat) (raw_last_name (bf_data self)));
    cbn [and_then]; [|discriminate].
  destruct (BooleanField_clean false (raw_public (bf_data self)));
    cbn [and_then]; [|discriminate].
  destruct (CharField_clean true (Some 255%nat) (raw_address (bf_data self)))
    as [address|] eqn:Haddress; cbn [and_then]; [|discriminate].
  destruct (CharField_clean true (Some 255%nat) (raw_postcode (bf_data self)));
    cbn [and_then]; [|discriminate].
  destruct (CharField_clean true (Some 255%nat) (raw_city (bf_data self)));
    cbn [and_then]; [|discriminate].
  destruct (ChoiceField_clean COUNTRY_CHOICES (raw_country (bf_data self)));
    cbn [and_then]; [|discriminate].
  destruct (CharField_clean true (Some 255%nat) (raw_email (bf_data self)));
    cbn [and_then]; [|discriminate].
  destruct (ChoiceField_clean PAYMENT_METHODS (raw_method (bf_data self)));
    cbn [and_then]; [|discriminate].
  destruct (BooleanField_clean true (raw_contribution_terms (bf_data self)));
    cbn [and_then]; [|discriminate].
  intros H. injection H as <-. cbn [cc_amount cc_address].
  apply DecimalField_clean_bounds in Hamount.
  split; [exact (proj1 Hamount)|].
  split; [|exact (CharField_clean_required _ _ _ Haddress)].
  revert Haddress. unfold CharField_clean.
  destruct (is_empty (strip (raw_address (bf_data self)))); [discriminate|].
  destruct (255 <? String.length (strip (raw_address (bf_data self))))%nat;
    [discriminate|].
  intros Heq; now inversion Heq.
Qed.

(** C5, amended: on a form that was given a campaign, saving a valid
    contribution first creates one order and then one contribution that
    refers to it.  If the order is refused, saving raises with the database
    untouched: no contribution.  If the order is stored and the
    contribution refused, the order alone is added.  Otherwise both are
    added, one each, and the contribution is returned. *)
Theorem ContributionForm_save_order_first
        (self : ContributionForm) (d : ContributionCleaned)
        (c : Crowdfunding) (db : DB) :
  ContributionForm_valid PAYMENT_METHODS self d ->
  bf_crowdfunding self = Some c ->
  exists order contribution,
    o_pk order = next_pk (db_orders db) /\
    ct_order contribution = order /\
    ct_crowdfunding contribution = Some c /\
    ct_amount contribution = cc_amount d /\
    let saved :=
      ContributionForm_save stores_order stores_contribution
                            contribution_description self d db in
    (stores_order order = false ->
     saved = (Raise CollaboratorFailure, db)) /\
    (stores_order order = true ->
     stores_contribution contribution = false ->
     saved = (Raise CollaboratorFailure,
              mkDB (db_crowdfundings db) (db_orders db ++ [order])
                   (db_contributions db))) /\
    (stores_order order = true ->
     stores_contribution contribution = true ->
     saved = (Return contribution,
              mkDB (db_crowdfundings db) (db_orders db ++ [order])
                   (db_contributions db ++ [contribution]))).
Proof using PAYMENT_METHODS stores_order stores_contribution
            contribution_description.
  intros Hvalid Hcf.
  destruct (ContributionForm_valid_fields self d Hvalid) as (_ & _ & Hne).
  destruct (splitlines_nonempty _ Hne) as (line & lines & Hlines).
  unfold ContributionForm_save, crowdfunding_title.
  rewrite Hlines, Hcf.
  unfold bindM, lift, first_item, Order_objects_create,
    Contribution_objects_create, ret. cbn [tl].
  eexists. eexists.
  split; [|split; [|split; [|split; [|split; [|split]]]]].
  5: { intros Ho. rewrite Ho. reflexivity. }
  5: { intros Ho Hc. rewrite Ho.
       cbn [db_crowdfundings db_orders db_contributions].
       rewrite Hc. reflexivity. }
  5: { intros Ho Hc. rewrite Ho.
       cbn [db_crowdfundings db_orders db_contributions].
       rewrite Hc. reflexivity. }
  all: reflexivity.
Qed.


End Facts.

(** *** Where the claims as stated stop holding *)

(** C1, as stated, fails outside the decimal context, here for the factor
    1.15.  The amount [10^29 + 1] has thirty digits: its product is rounded
    to 28 digits before it is rounded up to tens, and the result,
    [1.15 * 10^29], is below the product.  The amount [10^-1000026] is the
    smallest positive number of the context: a tenth of its product
    underflows to zero, and the result, 0, is below the amount. *)
Lemma calculate_amount_needed_outside_context :
  let large := of_int (10 ^ 29 + 1) in
  let tiny := mkDecimal false 1 (-1000026) in
  (1 < value sample_factor)%Q /\
  ((0 <= value large)%Q /\
   exists r, calculate_amount_needed sample_factor large = Return r /\
             ~ (value large * value sample_factor <= value r)%Q) /\
  ((0 <= value tiny)%Q /\
   exists r, calculate_amount_needed sample_factor tiny = Return r /\
             ~ (value tiny <= value r)%Q).
Proof.
  cbv zeta. split; [reflexivity|]. split; split.
  - discriminate.
  - exists (of_int (115 * 10 ^ 27)). split; [vm_compute; reflexivity|].
    apply Qlt_not_le. reflexivity.
  - apply Qlt_le_weak. apply scaled_pos. reflexivity.
  - exists (of_int 0). split; [vm_compute; reflexivity|].
    apply Qlt_not_le. rewrite value_of_int. apply scaled_pos. reflexivity.
Qed.

(** C3, as stated, fails: the only campaign of kind "fees" is finished,
    so by the claim "fees" stays on offer; the form offers "lawsuit"
    alone. *)
Lemma finished_kind_not_offered :
  cf_status (sample_campaign "finished") = "finished" /\
  unfinished_kind_choices sample_choices [sample_campaign "finished"]
  = [("fees", "Fees"); ("lawsuit", "Lawsuit")] /\
  exists form,
    CrowdfundingRequestStartForm_init
      sample_choices sample_start_data (Some sample_request)
      (Some [sample_campaign "finished"]) (Some sample_user)
    = Return form /\
    sf_kind_choices form = [("lawsuit", "Lawsuit")].
Proof. split; [|split; [|eexists; split]]; reflexivity. Qed.

(** C5, as stated, fails for a form that was made without a campaign,
    as the initializer allows ([crowdfunding] defaults to [None]): the
    sample submission is valid on it, every row would be taken, and saving
    raises [AttributeError] at the title of the missing campaign, before
    any order is created; afterwards there is no order and no
    contribution. *)
Lemma ContributionForm_save_needs_campaign :
  let form :=
    mkContributionForm sample_contribution_data (Some sample_user) None
                       (Some "ada@example.org") (Some "Ada")
                       (Some "Lovelace") (Some "Main Street 1")
                       (Some "12345") (Some "Springfield") in
  let saved :=
    ContributionForm_save (fun _ => true) (fun _ => true)
                          (fun title => title) form
                          sample_contribution_cleaned empty_db in
  ContributionForm_init sample_contribution_data (Some sample_user) None
  = Return form /\
  ContributionForm_valid sample_methods form sample_contribution_cleaned /\
  saved = (Raise AttributeError, empty_db) /\
  db_orders (snd saved) = [] /\
  db_contributions (snd saved) = [].
Proof. cbv zeta. repeat split. Qed.

(** *** The theorems at the sample data *)

(** C1 at the amount 10.50 and the factor 1.15. *)
Lemma calculate_amount_needed_rounds_up_witness :
  (1 < value sample_factor)%Q /\
  (0 <= value (mkDecimal false 1050 (-2)))%Q /\
  fits (exact_mul (mkDecimal false 1050 (-2)) sample_factor) /\
  exists n : Z,
    calculate_amount_needed sample_factor (mkDecimal false 1050 (-2))
    = Return (of_int n) /\
    (n mod 10 = 0)%Z /\
    (value (mkDecimal false 1050 (-2)) <= value (of_int n))%Q /\
    (value (mkDecimal false 1050 (-2)) * value sample_factor
     <= value (of_int n))%Q /\
    (value (of_int n) - inject_Z 10
     < value (mkDecimal false 1050 (-2)) * value sample_factor)%Q.
Proof.
  assert (Hfits : fits (exact_mul (mkDecimal false 1050 (-2)) sample_factor))
    by (right; vm_compute; repeat split; discriminate).
  split; [reflexivity|]. split; [discriminate|]. split; [exact Hfits|].
  apply (calculate_amount_needed_rounds_up sample_factor
                                           (mkDecimal false 1050 (-2))).
  - reflexivity.
  - discriminate.
  - exact Hfits.
Defined.

(** C10 at the sample request. *)
Lemma CrowdfundingRequestStartForm_init_requires_request_witness :
  exists request,
    Some sample_request = Some request /\
    sf_title_initial (sample_start_form []) = Some (req_title request).
Proof.
  apply (proj2 (CrowdfundingRequestStartForm_init_requires_request
                  sample_choices)
               sample_start_data (Some sample_request) (Some [])
               (Some sample_user) (sample_start_form [])).
  reflexivity.
Defined.

(** C4 at a request with a running campaign. *)
Lemma ongoing_crowdfunding_rejected_witness :
  cf_status (sample_campaign "running") <> "finished" /\
  CrowdfundingRequestStartForm_is_valid sample_blank (fun _ => [])
                     (sample_start_form [sample_campaign "running"])
  = Return false /\
  CrowdfundingRequestStartForm_save sample_factor sample_blank (fun _ => [])
                 (fun title _ => title) (fun _ => true)
                 (sample_start_form [sample_campaign "running"]) empty_db
  = (Raise ValueError, empty_db).
Proof.
  split; [discriminate|].
  destruct (ongoing_crowdfunding_rejected
              sample_factor sample_blank (fun _ => [])
              (fun title _ => title) (fun _ => true)
              (sample_start_form [sample_campaign "running"])
              [sample_campaign "running"] (sample_campaign "running"))
    as (_ & Hvalid & Hsave).
  - reflexivity.
  - left. reflexivity.
  - discriminate.
  - split; [exact Hvalid | exact (Hsave empty_db)].
Defined.

(** C6 at a request whose only campaign is finished. *)
Lemma CrowdfundingRequestStartForm_save_persists_witness :
  CrowdfundingRequestStartForm_is_valid sample_blank (fun _ => [])
                     (sample_start_form [sample_campaign "finished"])
  = Return true /\
  exists c,
    CrowdfundingRequestStartForm_save sample_factor sample_blank (fun _ => [])
                   (fun title _ => title) (fun _ => true)
                   (sample_start_form [sample_campaign "finished"]) empty_db
    = (Return c, mkDB [c] [] []) /\
    raw_amount_requested sample_start_data = Some (cf_amount_requested c) /\
    calculate_amount_needed sample_factor (cf_amount_requested c)
    = Return (cf_amount_needed c) /\
    cf_user c = Some sample_user /\
    cf_request c = Some sample_request.
Proof.
  split; [reflexivity|].
  apply (CrowdfundingRequestStartForm_save_persists
           sample_factor sample_blank (fun _ => [])
           (fun title _ => title) (fun _ => true)
           (sample_start_form [sample_campaign "finished"]) empty_db).
  - reflexivity.
  - vm_compute. discriminate.
  - reflexivity.
Defined.

(** C5 at the sample contribution, with a database that takes every row
    and with one that refuses the order. *)
Lemma ContributionForm_save_order_first_witness :
  ContributionForm_valid sample_methods sample_contribution_form
                         sample_contribution_cleaned /\
  exists order contribution,
    o_pk order = 1%nat /\
    ct_order contribution = order /\
    ContributionForm_save (fun _ => true) (fun _ => true) (fun title => title)
                          sample_contribution_form
                          sample_contribution_cleaned empty_db
    = (Return contribution, mkDB [] [order] [contribution]) /\
    ContributionForm_save (fun _ => false) (fun _ => true) (fun title => title)
                          sample_contribution_form
                          sample_contribution_cleaned empty_db
    = (Raise CollaboratorFailure, empty_db).
Proof.
  split; [reflexivity|].
  destruct (ContributionForm_save_order_first
              sample_methods (fun _ => true) (fun _ => true)
              (fun title => title) sample_contribution_form
              sample_contribution_cleaned (sample_campaign "running")
              empty_db)
    as (order & contribution & Hpk & Horder & _ & _ & _ & _ & Hboth);
    [reflexivity | reflexivity |].
  exists order, contribution.
  split; [exact Hpk|]. split; [exact Horder|].
  split; [exact (Hboth eq_refl eq_refl)|].
  reflexivity.
Defined.


End FormsFacts.

(* ===================================================================== *)
(** * Part III: further properties                                        *)
(* ===================================================================== *)

(** ** Text: [strip], [splitlines], [replace] *)

Module TextFacts.

Import PyStr PyStrFacts.
Local Open Scope string_scope.

Lemma linebreak_isspace (c : ascii) :
  is_linebreak c = true -> isspace c = true.
Proof.
  destruct c as [[] [] [] [] [] [] [] []]; vm_compute; congruence.
Qed.

Lemma decimal_not_space (c : ascii) : isdecimal c = true -> isspace c = false.
Proof.
  destruct c as [[] [] [] [] [] [] [] []]; vm_compute; congruence.
Qed.

Lemma forallb_chars (p : ascii -> bool) (s : string) :
  forallb p (list_ascii_of_string s) = true <->
  (forall c, In c (list_ascii_of_string s) -> p c = true).
Proof. apply forallb_forall. Qed.

Lemma list_ascii_of_string_append (a b : string) :
  list_ascii_of_string (a ++ b)
  = (list_ascii_of_string a ++ list_ascii_of_string b)%list.
Proof. induction a as [|x a IH]; cbn; [reflexivity | now rewrite IH]. Qed.

Lemma append_empty (a : string) : a ++ "" = a.
Proof. induction a as [|x a IH]; cbn; [reflexivity | now rewrite IH]. Qed.

Lemma lstrip_head (s : string) (c : ascii) (t : string) :
  lstrip s = String c t -> isspace c = false.
Proof.
  induction s as [|x s IH]; cbn [lstrip]; [discriminate|].
  destruct (isspace x) eqn:Hx; [exact IH|].
  intros H. injection H as <- _. exact Hx.
Qed.

Lemma lstrip_fixed (c : ascii) (t : string) :
  isspace c = false -> lstrip (String c t) = String c t.
Proof. intros H. cbn [lstrip]. now rewrite H. Qed.

Lemma rstrip_head (c : ascii) (t : string) :
  isspace c = false -> rstrip (String c t) = String c (rstrip t).
Proof. intros H. cbn [rstrip]. now rewrite H. Qed.

(** What [strip] leaves is empty or starts with a character that is not
    whitespace. *)
Lemma strip_head (s : string) (c : ascii) (t : string) :
  strip s = String c t -> isspace c = false.
Proof.
  unfold strip. destruct (lstrip s) as [|x u] eqn:Hl; [discriminate|].
  pose proof (lstrip_head _ _ _ Hl) as Hx.
  rewrite (rstrip_head x u Hx). intros H. injection H as <- _. exact Hx.
Qed.

Lemma rstrip_idempotent (s : string) : rstrip (rstrip s) = rstrip s.
Proof.
  induction s as [|c s IH]; [reflexivity|]. cbn [rstrip].
  destruct (isspace c && is_empty (rstrip s)) eqn:Hc; [reflexivity|].
  cbn [rstrip]. now rewrite IH, Hc.
Qed.

Lemma strip_idempotent (s : string) : strip (strip s) = strip s.
Proof.
  unfold strip. destruct (lstrip s) as [|x u] eqn:Hl; [reflexivity|].
  pose proof (lstrip_head _ _ _ Hl) as Hx.
  rewrite (rstrip_head x u Hx), (lstrip_fixed x (rstrip u) Hx).
  rewrite <- (rstrip_head x u Hx). apply rstrip_idempotent.
Qed.

(** A text of whitespace strips to nothing. *)
Lemma strip_spaces (s : string) :
  forallb isspace (list_ascii_of_string s) = true -> strip s = "".
Proof.
  intros H. unfold strip.
  assert (Hl : lstrip s = "").
  { induction s as [|c s IH]; [reflexivity|].
    cbn [list_ascii_of_string forallb] in H. apply andb_true_iff in H.
    destruct H as [Hc Hs]. cbn [lstrip]. rewrite Hc. now apply IH. }
  now rewrite Hl.
Qed.

(** [rstrip] works on the end of a text: it goes on into [a] only when
    nothing of [b] is left. *)
Lemma rstrip_append (a b : string) :
  rstrip (a ++ b)
  = if is_empty (rstrip b) then rstrip a else a ++ rstrip b.
Proof.
  induction a as [|c a IH]; cbn [append].
  - destruct (rstrip b); reflexivity.
  - cbn [rstrip]. rewrite IH. destruct (rstrip b) as [|y t]; cbn [is_empty].
    + reflexivity.
    + replace (is_empty (a ++ String y t)) with false
        by (destruct a; reflexivity).
      now rewrite andb_false_r.
Qed.

(** No line of [splitlines] holds a line break. *)
Lemma splitlines_no_linebreak :
  forall (n : nat) (s : string), (String.length s <= n)%nat ->
  forall line c,
  In line (splitlines s) -> In c (list_ascii_of_string line) ->
  is_linebreak c = false.
Proof.
  induction n as [|n IH]; intros s Hlen line c.
  - destruct s; [intros []|cbn in Hlen; lia].
  - destruct s as [|x s]; [intros []|]. cbn [String.length] in Hlen.
    cbn [splitlines]. destruct (is_linebreak x) eqn:Hx.
    + intros [<-|Hin]; [intros []|].
      destruct s as [|y s]; [destruct Hin|].
      destruct (Ascii.eqb x CR && Ascii.eqb y LF).
      * apply (IH s); [cbn [String.length] in Hlen; lia | exact Hin].
      * apply (IH (String y s)); [lia | exact Hin].
    + specialize (IH s ltac:(lia)).
      destruct (splitlines s) as [|l ls].
      * intros [<-|[]]. intros [<-|[]]. exact Hx.
      * intros [<-|Hin].
        -- intros [<-|Hc]; [exact Hx|].
           apply (IH l c); [now left | exact Hc].
        -- apply IH. now right.
Qed.

(** The first line of a text that starts with another character than a
    line break starts with that character. *)
Lemma splitlines_head (c : ascii) (t : string) :
  is_linebreak c = false ->
  exists line lines, splitlines (String c t) = String c line :: lines.
Proof.
  intros Hc. cbn [splitlines]. rewrite Hc.
  destruct (splitlines t); eauto.
Qed.

(** A text without line breaks is its own single line, *)
Lemma splitlines_single (s : string) :
  s <> "" ->
  forallb (fun c => negb (is_linebreak c)) (list_ascii_of_string s) = true ->
  splitlines s = [s].
Proof.
  induction s as [|c s IH]; [congruence|]. intros _.
  cbn [list_ascii_of_string forallb]. rewrite andb_true_iff, negb_true_iff.
  intros [Hc Hs]. cbn [splitlines]. rewrite Hc.
  destruct s as [|c' s]; [reflexivity|].
  rewrite IH; [reflexivity | discriminate | exact Hs].
Qed.

(** and it is the first line of what a newline continues. *)
Lemma splitlines_first (t : string) :
  forall s : string,
  forallb (fun c => negb (is_linebreak c)) (list_ascii_of_string s) = true ->
  exists lines, splitlines (s ++ String LF t) = s :: lines.
Proof.
  induction s as [|c s IH].
  - intros _. cbn [append splitlines].
    change (is_linebreak LF) with true. cbv iota. eauto.
  - cbn [list_ascii_of_string forallb].
    rewrite andb_true_iff, negb_true_iff. intros [Hc Hs].
    destruct (IH Hs) as [lines Hlines].
    cbn [append splitlines]. rewrite Hc, Hlines. eauto.
Qed.

(** The first line of a stripped, single-line text is still the first
    line when a newline and more text follow it. *)
Lemma first_line_kept (street post : string) :
  street <> "" ->
  strip street = street ->
  forallb (fun c => negb (is_linebreak c)) (list_ascii_of_string street)
  = true ->
  exists lines,
    splitlines (strip ((street ++ String LF "") ++ post)) = street :: lines.
Proof.
  intros Hne Hstrip Hsingle. rewrite append_char.
  destruct street as [|c street]; [congruence|].
  pose proof (strip_head _ _ _ Hstrip) as Hc.
  unfold strip in *. cbn [append].
  rewrite lstrip_fixed in * by exact Hc.
  change (String c (street ++ String LF post))
    with (String c street ++ String LF post).
  rewrite rstrip_append, Hstrip.
  cbn [rstrip]. change (isspace LF) with true. cbn [andb].
  destruct (is_empty (rstrip post)); cbn [is_empty].
  - exists []. apply splitlines_single; [discriminate | exact Hsingle].
  - apply splitlines_first. exact Hsingle.
Qed.

Lemma prefix_append (a s : string) :
  prefix a s = true <-> exists r, s = a ++ r.
Proof.
  revert s. induction a as [|x a IH]; intros s.
  - split; [intros _; now exists s | intros _; now destruct s].
  - destruct s as [|y s].
    + split; [discriminate|]. intros [r H]. discriminate.
    + cbn [prefix]. destruct (ascii_dec x y) as [->|Hne].
      * rewrite IH. split; intros [r H]; exists r.
        -- cbn. now rewrite H.
        -- cbn in H. now injection H.
      * split; [discriminate|]. intros [r H]. cbn in H.
        injection H as H _. congruence.
Qed.

Lemma prefix_refl (a r : string) : prefix a (a ++ r) = true.
Proof. apply prefix_append. now exists r. Qed.

(** After an occurrence is replaced, its remaining characters are passed
    over. *)
Lemma replace_go_passes (old new post : string) :
  forall o : string,
  replace_go old new (String.length o) (o ++ post) = replace_go old new 0 post.
Proof.
  induction o as [|y o IH]; [reflexivity|]. cbn. exact IH.
Qed.

(** Removing the first occurrence of [old] in a text: what stands before
    it stays, and the replacement goes on behind it. *)
Lemma replace_go_once (old post : string) :
  old <> "" ->
  forall pre : string,
  (forall b1 b2, pre = b1 ++ b2 -> b2 <> "" ->
                 prefix old (b2 ++ old ++ post) = false) ->
  replace_go old "" 0 (pre ++ old ++ post) = pre ++ replace_go old "" 0 post.
Proof.
  intros Hold. induction pre as [|c pre IH]; intros Hclear.
  - cbn [append]. destruct old as [|x old]; [congruence|].
    cbn [append replace_go].
    change (String x (old ++ post)) with (String x old ++ post).
    rewrite prefix_refl. cbn [append].
    replace (String.length (String x old) - 1)%nat with (String.length old)
      by (cbn [String.length]; lia).
    apply replace_go_passes.
  - pose proof (Hclear "" (String c pre) eq_refl ltac:(discriminate)) as Hp.
    cbn [append] in Hp. cbn [append replace_go]. rewrite Hp.
    rewrite IH; [reflexivity|].
    intros b1 b2 Heq Hne. apply (Hclear (String c b1) b2); [|exact Hne].
    cbn. now rewrite Heq.
Qed.

(** Where [old] does not occur, nothing is replaced. *)
Lemma replace_go_absent (old new : string) :
  forall post : string,
  (forall b1 b2, post = b1 ++ b2 -> b2 <> "" -> prefix old b2 = false) ->
  replace_go old new 0 post = post.
Proof.
  induction post as [|c post IH]; intros Hclear; [reflexivity|].
  cbn [replace_go].
  rewrite (Hclear "" (String c post) eq_refl) by discriminate.
  rewrite IH; [reflexivity|].
  intros b1 b2 Heq Hne. apply (Hclear (String c b1) b2); [|exact Hne].
  cbn. now rewrite Heq.
Qed.

(** A text that starts with a digit occurs nowhere in a text without
    digits. *)
Lemma prefix_digit_absent (d : ascii) (old post : string) :
  isdecimal d = true ->
  forallb (fun c => negb (isdecimal c)) (list_ascii_of_string post) = true ->
  forall b1 b2, post = b1 ++ b2 -> b2 <> "" ->
                prefix (String d old) b2 = false.
Proof.
  intros Hd Hpost b1 [|c b2] Heq Hne; [congruence|].
  cbn [prefix]. destruct (ascii_dec d c) as [->|]; [|reflexivity].
  exfalso. rewrite forallb_chars in Hpost.
  specialize (Hpost c). rewrite Hd in Hpost. cbn in Hpost.
  assert (false = true); [|discriminate].
  apply Hpost. rewrite Heq, list_ascii_of_string_append.
  apply in_or_app. right. now left.
Qed.

End TextFacts.

(** ** The matcher: greedy runs and the leftmost match *)

Module MatcherFacts.

Import PyStr PyStrFacts PyRe PyReFacts.
Local Open Scope string_scope.

Section GreedyRuns.

Variable A : Type.

(** When what follows a greedy repetition never fails, the repetition
    keeps the longest run: the rest of the text does not open with a
    character of the category. *)
Lemma greedy_longest (k : category) :
  forall (s : string) (least : nat) (cont : string -> string -> option A)
         (a : A),
  (forall m rest, cont m rest <> None) ->
  greedy k least s cont = Some a ->
  exists m rest,
    s = m ++ rest /\
    (forall c, In c (list_ascii_of_string m) -> in_category k c = true) /\
    (least <= String.length m)%nat /\
    (forall c r, rest = String c r -> in_category k c = false) /\
    cont m rest = Some a.
Proof.
  induction s as [|c s IH]; intros least cont a Htotal H; cbn [greedy] in H.
  - destruct least; [|discriminate]. exists "", "".
    split; [reflexivity|]. split; [intros c []|]. split; [cbn; lia|].
    split; [discriminate | exact H].
  - destruct (in_category k c) eqn:Hc.
    + destruct (greedy k (Nat.pred least) s
                       (fun m rest => cont (String c m) rest)) as [r|] eqn:Hg.
      * injection H as ->.
        apply IH in Hg; [|intros m rest; apply Htotal].
        destruct Hg as (m & rest & -> & Hall & Hlen & Hmax & Hcont).
        exists (String c m), rest.
        split; [reflexivity|]. split; [|split; [|split]].
        -- intros c' [<-|Hin]; [exact Hc | now apply Hall].
        -- cbn [String.length]. lia.
        -- exact Hmax.
        -- exact Hcont.
      * exfalso. destruct least as [|[|n]]; try discriminate;
          cbn [Nat.pred] in Hg;
          apply (greedy_star_total A k s
                   (fun m rest => cont (String c m) rest));
          try exact Hg; intros m rest; apply Htotal.
    + destruct least; [|discriminate]. exists "", (String c s).
      split; [reflexivity|]. split; [intros c' []|]. split; [cbn; lia|].
      split; [|exact H].
      intros c' r Heq. injection Heq as <- _. exact Hc.
Qed.

(** If the rest of the pattern accepts the longest run, the repetition
    takes it. *)
Lemma greedy_run (k : category) (rest : string) :
  (forall c r, rest = String c r -> in_category k c = false) ->
  forall (m : string) (least : nat) (cont : string -> string -> option A)
         (a : A),
  (forall c, In c (list_ascii_of_string m) -> in_category k c = true) ->
  (least <= String.length m)%nat ->
  cont m rest = Some a ->
  greedy k least (m ++ rest) cont = Some a.
Proof.
  intros Hmax. induction m as [|x m IH]; intros least cont a Hall Hlen Hcont.
  - cbn [String.length] in Hlen. assert (least = 0%nat) as -> by lia.
    cbn [append]. destruct rest as [|c r]; cbn [greedy]; [exact Hcont|].
    now rewrite (Hmax c r eq_refl).
  - cbn [append greedy]. rewrite (Hall x) by (left; reflexivity).
    rewrite (IH (Nat.pred least) (fun m0 rest0 => cont (String x m0) rest0) a);
      [reflexivity | | | exact Hcont].
    + intros c Hin. apply Hall. now right.
    + cbn [String.length] in Hlen. lia.
Qed.

End GreedyRuns.

(** A search that finds a match finds the leftmost one. *)
Lemma search_from_some (r : regex) :
  forall (s : string) (pos : nat) (found : Match),
  search_from r pos s = Some found ->
  exists before t,
    s = before ++ t /\
    m_start found = (pos + String.length before)%nat /\
    match_here r t = Some (m_whole found, m_groups found) /\
    (forall b1 t1, s = b1 ++ t1 ->
                   (String.length b1 < String.length before)%nat ->
                   match_here r t1 = None).
Proof.
  induction s as [|c s IH]; intros pos found; cbn [search_from].
  - destruct (match_here r "") as [[m g]|] eqn:Hm; [|discriminate].
    intros H. injection H as <-. exists "", "". cbn.
    split; [reflexivity|]. split; [lia|]. split; [exact Hm | intros; lia].
  - destruct (match_here r (String c s)) as [[m g]|] eqn:Hm.
    + intros H. injection H as <-. exists "", (String c s). cbn.
      split; [reflexivity|]. split; [lia|]. split; [exact Hm | intros; lia].
    + intros H. apply IH in H.
      destruct H as (before & t & -> & Hstart & Hmatch & Hleft).
      exists (String c before), t. cbn [append String.length].
      split; [reflexivity|]. split; [lia|]. split; [exact Hmatch|].
      intros [|x b1] t1 Heq Hlen.
      * cbn in Heq. now subst t1.
      * cbn in Heq. injection Heq as <- Heq. cbn [String.length] in Hlen.
        apply (Hleft b1 t1 Heq). lia.
Qed.

(** Positions where the pattern does not match are passed over. *)
Lemma search_from_skip (r : regex) (t : string) :
  forall (pre : string) (pos : nat),
  (forall b1 b2, pre = b1 ++ b2 -> b2 <> "" ->
                 match_here r (b2 ++ t) = None) ->
  search_from r pos (pre ++ t)
  = search_from r (pos + String.length pre) t.
Proof.
  induction pre as [|c pre IH]; intros pos Hclear.
  - cbn. now rewrite Nat.add_0_r.
  - pose proof (Hclear "" (String c pre) eq_refl ltac:(discriminate)) as Hc.
    cbn [append] in Hc. cbn [append search_from String.length]. rewrite Hc.
    rewrite IH; [f_equal; lia|].
    intros b1 b2 Heq Hne. apply (Hclear (String c b1) b2); [|exact Hne].
    cbn. now rewrite Heq.
Qed.

Lemma search_from_here (r : regex) (s m : string) (g : list string)
      (pos : nat) :
  match_here r s = Some (m, g) -> search_from r pos s = Some (mkMatch pos m g).
Proof. intros H. destruct s; cbn [search_from]; now rewrite H. Qed.

End MatcherFacts.

(** ** [parse_address]: what it reads, what it raises on *)

Module AddressFacts.

Import PyStr PyStrFacts TextFacts PyRe PyReFacts MatcherFacts.
Import Forms FormsFacts.
Local Open Scope string_scope.

(** What [POSTCODE_RE] matches at the start of a text, and what its groups
    hold: five digits (group 1), all the whitespace that follows, at least
    one character of it, and the rest of the line (group 2). *)
Lemma match_here_POSTCODE_RE_groups (s whole : string) (groups : list string) :
  match_here POSTCODE_RE s = Some (whole, groups) <->
  exists digits gap city rest,
    s = digits ++ gap ++ city ++ rest /\
    whole = digits ++ gap ++ city /\
    groups = [digits; city] /\
    String.length digits = 5%nat /\
    (forall c, In c (list_ascii_of_string digits) -> isdecimal c = true) /\
    gap <> "" /\
    (forall c, In c (list_ascii_of_string gap) -> isspace c = true) /\
    (forall c r, city ++ rest = String c r -> isspace c = false) /\
    (forall c, In c (list_ascii_of_string city) -> c <> LF) /\
    (forall c r, rest = String c r -> c = LF).
Proof.
  unfold match_here, POSTCODE_RE. cbn [run List.length app set_nth].
  split.
  - destruct (exactly Digit 5 s) as [[digits rest0]|] eqn:He; [|discriminate].
    destruct (exactly_sound _ _ _ _ _ He) as (-> & Hlen & Hdigits).
    intros H. apply greedy_longest in H;
      [|intros m rest; apply greedy_star_total; discriminate].
    destruct H as (gap & rest1 & -> & Hgap & Hlen1 & Hmax1 & H).
    apply greedy_longest in H; [|discriminate].
    destruct H as (city & rest & -> & Hcity & _ & Hmax2 & H).
    injection H as <- <-.
    exists digits, gap, city, rest.
    split; [reflexivity|]. split; [reflexivity|].
    split; [reflexivity|]. split; [exact Hlen|]. split; [exact Hdigits|].
    split; [|split; [exact Hgap|split; [exact Hmax1|split]]].
    + intros ->. cbn in Hlen1. lia.
    + intros c Hin Hc. specialize (Hcity c Hin). cbn in Hcity.
      subst c. discriminate.
    + intros c r Heq. specialize (Hmax2 c r Heq). cbn in Hmax2.
      apply negb_false_iff, Ascii.eqb_eq in Hmax2. exact Hmax2.
  - intros (digits & gap & city & rest & -> & -> & -> & Hlen & Hdigits
            & Hne & Hgap & Hmax1 & Hcity & Hmax2).
    rewrite <- Hlen, exactly_complete by exact Hdigits.
    apply greedy_run.
    + exact Hmax1.
    + exact Hgap.
    + destruct gap; [congruence | cbn; lia].
    + apply greedy_run.
      * intros c r Heq. cbn. rewrite (Hmax2 c r Heq). reflexivity.
      * intros c Hin. cbn. apply negb_true_iff, Ascii.eqb_neq.
        now apply Hcity.
      * lia.
      * reflexivity.
Qed.

(** What a successful search for [POSTCODE_RE] has found. *)
Lemma search_POSTCODE_RE_some (address : string) (found : Match) :
  search POSTCODE_RE address = Some found ->
  exists before postcode gap city rest,
    address = before ++ postcode ++ gap ++ city ++ rest /\
    group found 0 = postcode ++ gap ++ city /\
    group found 1 = postcode /\
    group found 2 = city /\
    String.length postcode = 5%nat /\
    (forall c, In c (list_ascii_of_string postcode) -> isdecimal c = true) /\
    gap <> "" /\
    (forall c, In c (list_ascii_of_string gap) -> isspace c = true) /\
    (forall c r, city ++ rest = String c r -> isspace c = false) /\
    (forall c, In c (list_ascii_of_string city) -> c <> LF) /\
    (forall c r, rest = String c r -> c = LF) /\
    (forall b1 t1, address = b1 ++ t1 ->
                   (String.length b1 < String.length before)%nat ->
                   match_here POSTCODE_RE t1 = None).
Proof.
  unfold search. intros H. apply search_from_some in H.
  destruct H as (before & t & -> & _ & Hmatch & Hleft).
  apply match_here_POSTCODE_RE_groups in Hmatch.
  destruct Hmatch as (postcode & gap & city & rest & -> & Hwhole & Hgroups
                      & Hrest).
  exists before, postcode, gap, city, rest.
  destruct found as [start whole groups]. cbn in Hwhole, Hgroups. subst.
  cbn [group m_whole m_groups nth].
  repeat (split; [reflexivity|]).
  destruct Hrest as (H1 & H2 & H3 & H4 & H5 & H6 & H7).
  repeat (split; [assumption|]). assumption.
Qed.

(** The pattern matches nowhere a text that does not open with a digit. *)
Lemma match_here_POSTCODE_RE_no_digit (c : ascii) (s : string) :
  isdecimal c = false -> match_here POSTCODE_RE (String c s) = None.
Proof.
  intros Hc. unfold match_here, POSTCODE_RE. cbn [run exactly in_category].
  now rewrite Hc.
Qed.

Lemma suffix_of_snoc (x : ascii) (b2 : string) :
  b2 <> "" ->
  forall b1 pre : string,
  pre ++ String x "" = b1 ++ b2 ->
  exists a, b2 = a ++ String x "" /\ pre = b1 ++ a.
Proof.
  intros Hne. induction b1 as [|y b1 IH]; intros pre Heq.
  - exists pre. cbn in Heq. auto.
  - destruct pre as [|z pre]; cbn in Heq.
    + injection Heq as _ Heq. destruct b1; [|discriminate].
      cbn in Heq. congruence.
    + injection Heq as -> Heq. destruct (IH pre Heq) as (a & -> & ->).
      now exists a.
Qed.

Lemma digits_before (x space : ascii) (t rest : string) :
  isdecimal x = false ->
  forall digits a : string,
  (forall c, In c (list_ascii_of_string digits) -> isdecimal c = true) ->
  a ++ String x t = digits ++ String space rest ->
  exists rest', a ++ String x "" = digits ++ String space rest'.
Proof.
  intros Hx. induction digits as [|d digits IH]; intros a Hall Heq.
  - destruct a as [|y a]; cbn in Heq |- *.
    + injection Heq as -> _. now exists "".
    + injection Heq as -> _. now exists (a ++ String x "").
  - destruct a as [|y a]; cbn in Heq.
    + injection Heq as -> _. rewrite (Hall d) in Hx by (left; reflexivity).
      discriminate.
    + injection Heq as -> Heq.
      destruct (IH a (fun c H => Hall c (or_intror H)) Heq) as (rest' & Hr).
      exists rest'. cbn. now rewrite Hr.
Qed.

(** In a text without postcode that ends with another character than a
    digit, no match starts, whatever follows the text. *)
Lemma no_match_starts (pre : string) (x : ascii) (t : string) :
  isdecimal x = false ->
  ~ has_postcode (pre ++ String x "") ->
  forall b1 b2, pre ++ String x "" = b1 ++ b2 -> b2 <> "" ->
                match_here POSTCODE_RE (b2 ++ t) = None.
Proof.
  intros Hx Hnone b1 b2 Heq Hne.
  destruct (match_here POSTCODE_RE (b2 ++ t)) as [found|] eqn:Hm;
    [|reflexivity].
  exfalso. apply Hnone.
  destruct (suffix_of_snoc x b2 Hne b1 pre Heq) as (a & -> & ->).
  destruct (proj1 (match_here_POSTCODE_RE ((a ++ String x "") ++ t)))
    as (digits & space & rest & Hsplit & Hlen & Hall & Hspace);
    [congruence|].
  rewrite append_char in Hsplit.
  destruct (digits_before x space t rest Hx digits a Hall Hsplit)
    as (rest' & Hr).
  exists b1, digits, space, rest'. rewrite append_assoc, Hr. auto.
Qed.

(** An address with one postcode line: the text before it holds no start
    of a match, the text after it starts a new line and does not repeat
    the postcode line.  The postcode and the city are read off the line;
    the street address is the first line of what is left around it. *)
Lemma parse_address_postcode_line (pre postcode gap city post : string) :
  (forall b1 b2 t, pre = b1 ++ b2 -> b2 <> "" ->
                   match_here POSTCODE_RE (b2 ++ t) = None) ->
  String.length postcode = 5%nat ->
  forallb isdecimal (list_ascii_of_string postcode) = true ->
  gap <> "" ->
  forallb isspace (list_ascii_of_string gap) = true ->
  lstrip (city ++ post) = city ++ post ->
  forallb (fun c => negb (Ascii.eqb c LF)) (list_ascii_of_string city) = true ->
  (forall c r, post = String c r -> c = LF) ->
  forallb (fun c => negb (isdecimal c)) (list_ascii_of_string post) = true ->
  parse_address (pre ++ postcode ++ gap ++ city ++ post)
  = (first <- first_item (splitlines (strip (pre ++ post))) ;;
     Return [("address", first); ("postcode", postcode); ("city", city)])%py.
Proof.
  intros Hpre Hlen Hdigits Hgap Hspaces Hcity Hline Hpost Habsent.
  pose proof Hdigits as Hdigits'.
  rewrite forallb_chars in Hdigits, Hspaces, Hline.
  assert (Hmatch :
    match_here POSTCODE_RE (postcode ++ gap ++ city ++ post)
    = Some (postcode ++ gap ++ city, [postcode; city])).
  { apply match_here_POSTCODE_RE_groups.
    exists postcode, gap, city, post.
    split; [reflexivity|]. split; [reflexivity|]. split; [reflexivity|].
    split; [exact Hlen|]. split; [exact Hdigits|]. split; [exact Hgap|].
    split; [exact Hspaces|]. split; [|split; [|exact Hpost]].
    - intros c r Heq. rewrite Heq in Hcity. exact (lstrip_head _ _ _ Hcity).
    - intros c Hin Hc. specialize (Hline c Hin). cbn in Hline.
      subst c. discriminate. }
  unfold parse_address, search.
  rewrite search_from_skip by (intros b1 b2; apply Hpre).
  rewrite (search_from_here _ _ _ _ _ Hmatch).
  cbn [group m_whole m_groups nth].
  unfold replace.
  destruct postcode as [|d postcode]; [discriminate|].
  cbn [append is_empty].
  change (String d (postcode ++ gap ++ city))
    with (String d postcode ++ gap ++ city).
  change (String d (postcode ++ gap ++ city ++ post))
    with (String d postcode ++ gap ++ city ++ post).
  replace (pre ++ String d postcode ++ gap ++ city ++ post)
    with (pre ++ (String d postcode ++ gap ++ city) ++ post)
    by (now rewrite !append_assoc).
  rewrite replace_go_once, replace_go_absent; [reflexivity | | discriminate |].
  - apply prefix_digit_absent; [|exact Habsent].
    apply Hdigits. now left.
  - intros b1 b2 Heq Hne.
    destruct (prefix (String d postcode ++ gap ++ city)
                     (b2 ++ (String d postcode ++ gap ++ city) ++ post))
      eqn:Hp; [|reflexivity].
    exfalso. apply prefix_append in Hp. destruct Hp as [r Hr].
    pose proof (Hpre b1 b2 ((String d postcode ++ gap ++ city) ++ post)
                     Heq Hne) as Hno.
    apply (proj2 (match_here_POSTCODE_RE
                    (b2 ++ (String d postcode ++ gap ++ city) ++ post)));
      [|exact Hno].
    destruct gap as [|g gap]; [congruence|].
    exists (String d postcode), g, (gap ++ city ++ r).
    split; [rewrite Hr; now rewrite !append_assoc|].
    split; [exact Hlen|]. split; [exact Hdigits|].
    apply Hspaces. now left.
Qed.

(** X4: an address of the usual shape is read back.  For a street line
    (one line, not empty, no whitespace at its ends, holding no five digits
    before whitespace or at its end), a newline, a postcode of five digits,
    whitespace, a city (the rest of that line) and perhaps further lines
    without digits, [parse_address] returns the street line as address,
    the five digits as postcode and the city. *)
Theorem parse_address_round_trip (street postcode gap city post : string) :
  street <> "" ->
  strip street = street ->
  forallb (fun c => negb (is_linebreak c)) (list_ascii_of_string street)
  = true ->
  search POSTCODE_RE (street ++ String LF "") = None ->
  String.length postcode = 5%nat ->
  forallb isdecimal (list_ascii_of_string postcode) = true ->
  gap <> "" ->
  forallb isspace (list_ascii_of_string gap) = true ->
  lstrip (city ++ post) = city ++ post ->
  forallb (fun c => negb (Ascii.eqb c LF)) (list_ascii_of_string city) = true ->
  (forall c r, post = String c r -> c = LF) ->
  forallb (fun c => negb (isdecimal c)) (list_ascii_of_string post) = true ->
  parse_address (street ++ String LF (postcode ++ gap ++ city ++ post))
  = Return [("address", street); ("postcode", postcode); ("city", city)].
Proof.
  intros Hne Hstrip Hsingle Hnone Hlen Hdigits Hgap Hspaces Hcity Hline
         Hpost Habsent.
  apply search_POSTCODE_RE_none in Hnone.
  rewrite <- append_char.
  rewrite parse_address_postcode_line; try assumption.
  - destruct (first_line_kept street post Hne Hstrip Hsingle)
      as [lines Hlines].
    rewrite Hlines. reflexivity.
  - intros b1 b2 t. apply no_match_starts; [reflexivity | exact Hnone].
Qed.

(** X4 at a German address with a country line. *)
Lemma parse_address_round_trip_witness :
  parse_address ("Hauptstr. 5"
                 ++ String LF ("10115" ++ " " ++ "Berlin"
                               ++ String LF "Germany"))
  = Return [("address", "Hauptstr. 5"); ("postcode", "10115");
            ("city", "Berlin")].
Proof.
  apply (parse_address_round_trip
           "Hauptstr. 5" "10115" " " "Berlin" (String LF "Germany"));
    try (reflexivity || discriminate).
  intros c r H. now injection H.
Defined.

(** X5: an address that is nothing but a postcode line raises.  For
    whitespace, a postcode of five digits, whitespace, a city and, on
    further lines, nothing but whitespace, [parse_address] raises
    [IndexError]. *)
Theorem parse_address_postcode_line_raises
        (lead postcode gap city trail : string) :
  forallb isspace (list_ascii_of_string lead) = true ->
  String.length postcode = 5%nat ->
  forallb isdecimal (list_ascii_of_string postcode) = true ->
  gap <> "" ->
  forallb isspace (list_ascii_of_string gap) = true ->
  lstrip (city ++ trail) = city ++ trail ->
  forallb (fun c => negb (Ascii.eqb c LF)) (list_ascii_of_string city) = true ->
  forallb isspace (list_ascii_of_string trail) = true ->
  (forall c r, trail = String c r -> c = LF) ->
  parse_address (lead ++ postcode ++ gap ++ city ++ trail) = Raise IndexError.
Proof.
  intros Hlead Hlen Hdigits Hgap Hspaces Hcity Hline Htrail Hnewline.
  rewrite parse_address_postcode_line; try assumption.
  - rewrite strip_spaces; [reflexivity|].
    rewrite list_ascii_of_string_append, forallb_app, Hlead, Htrail.
    reflexivity.
  - intros b1 [|c b2] t Heq Hne; [congruence|].
    apply match_here_POSTCODE_RE_no_digit.
    destruct (isdecimal c) eqn:Hc; [|reflexivity].
    apply decimal_not_space in Hc.
    rewrite forallb_chars in Hlead. rewrite Hlead in Hc; [discriminate|].
    rewrite Heq, list_ascii_of_string_append. apply in_or_app. right.
    now left.
  - apply forallb_chars. intros c Hin. apply negb_true_iff.
    destruct (isdecimal c) eqn:Hc; [|reflexivity].
    apply decimal_not_space in Hc.
    rewrite forallb_chars in Htrail. rewrite Htrail in Hc; [discriminate|].
    exact Hin.
Qed.

(** X5 at a postcode line with whitespace around it. *)
Lemma parse_address_postcode_line_raises_witness :
  parse_address ("  " ++ "10115" ++ " " ++ "Berlin" ++ String LF " ")
  = Raise IndexError.
Proof.
  apply (parse_address_postcode_line_raises
           "  " "10115" " " "Berlin" (String LF " "));
    try (reflexivity || discriminate).
  intros c r H. now injection H.
Defined.

(** X6: the postcode and the city of a populated result.  The postcode
    is five decimal digits of the address, at the leftmost place where
    five digits stand before whitespace; all the whitespace after them is
    skipped; the city is what follows up to the end of that line, and holds
    no newline. *)
Theorem parse_address_postcode_and_city (address : string) (d : dict) :
  parse_address address = Return d ->
  d <> [] ->
  exists before gap rest,
    address
    = before ++ dict_get d "postcode" "" ++ gap ++ dict_get d "city" ""
      ++ rest /\
    String.length (dict_get d "postcode" "") = 5%nat /\
    forallb isdecimal (list_ascii_of_string (dict_get d "postcode" ""))
    = true /\
    gap <> "" /\
    forallb isspace (list_ascii_of_string gap) = true /\
    forallb (fun c => negb (Ascii.eqb c LF))
            (list_ascii_of_string (dict_get d "city" "")) = true /\
    (forall c r, dict_get d "city" "" ++ rest = String c r ->
                 isspace c = false) /\
    (forall c r, rest = String c r -> c = LF) /\
    (forall b1 digits space r,
        address = b1 ++ digits ++ String space r ->
        String.length digits = 5%nat ->
        forallb isdecimal (list_ascii_of_string digits) = true ->
        isspace space = true ->
        (String.length before <= String.length b1)%nat).
Proof.
  unfold parse_address. intros H Hd.
  destruct (search POSTCODE_RE address) as [found|] eqn:Hsearch;
    [|injection H as <-; congruence].
  destruct (search_POSTCODE_RE_some _ _ Hsearch)
    as (before & postcode & gap & city & rest & Haddress & _ & Hg1 & Hg2
        & Hlen & Hdigits & Hgap & Hspaces & Hfollow & Hline & Hrest & Hleft).
  cbv zeta in H. rewrite Hg1, Hg2 in H.
  destruct (first_item _) as [street|]; [|discriminate].
  cbn [bind] in H. injection H as <-.
  change (dict_get [("address", street); ("postcode", postcode);
                    ("city", city)] "postcode" "") with postcode.
  change (dict_get [("address", street); ("postcode", postcode);
                    ("city", city)] "city" "") with city.
  exists before, gap, rest.
  split; [exact Haddress|]. split; [exact Hlen|].
  split; [now apply forallb_chars|]. split; [exact Hgap|].
  split; [now apply forallb_chars|].
  split; [|split; [exact Hfollow|split; [exact Hrest|]]].
  - apply forallb_chars. intros c Hin. apply negb_true_iff, Ascii.eqb_neq.
    now apply Hline.
  - intros b1 digits space r Heq Hl Hall Hspace.
    destruct (Nat.le_gt_cases (String.length before) (String.length b1))
      as [Hle|Hlt]; [exact Hle|].
    exfalso.
    apply (proj2 (match_here_POSTCODE_RE (digits ++ String space r))).
    + exists digits, space, r. rewrite forallb_chars in Hall. auto.
    + apply (Hleft b1 _ Heq Hlt).
Qed.

(** X6 at an address of three lines. *)
Lemma parse_address_postcode_and_city_witness :
  exists before gap rest,
    "c/o Meyer" ++ String LF ("80331  Muenchen" ++ String LF "Germany")
    = before ++ "80331" ++ gap ++ "Muenchen" ++ rest /\
    String.length "80331" = 5%nat /\
    forallb isdecimal (list_ascii_of_string "80331") = true /\
    gap <> "" /\
    forallb isspace (list_ascii_of_string gap) = true /\
    forallb (fun c => negb (Ascii.eqb c LF))
            (list_ascii_of_string "Muenchen") = true /\
    (forall c r, "Muenchen" ++ rest = String c r -> isspace c = false) /\
    (forall c r, rest = String c r -> c = LF) /\
    (forall b1 digits space r,
        "c/o Meyer" ++ String LF ("80331  Muenchen" ++ String LF "Germany")
        = b1 ++ digits ++ String space r ->
        String.length digits = 5%nat ->
        forallb isdecimal (list_ascii_of_string digits) = true ->
        isspace space = true ->
        (String.length before <= String.length b1)%nat).
Proof.
  apply (parse_address_postcode_and_city
           ("c/o Meyer" ++ String LF ("80331  Muenchen" ++ String LF "Germany"))
           [("address", "c/o Meyer"); ("postcode", "80331");
            ("city", "Muenchen")]).
  - reflexivity.
  - discriminate.
Defined.

(** X7: the street address of a populated result.  The result has the
    three keys address, postcode and city, in this order; the address is
    one line: it is not empty, starts with a character that is not
    whitespace and holds no line break. *)
Theorem parse_address_street_line (address : string) (d : dict) :
  parse_address address = Return d ->
  d <> [] ->
  exists street postcode city,
    d = [("address", street); ("postcode", postcode); ("city", city)] /\
    (exists c t, street = String c t /\ isspace c = false) /\
    forallb (fun c => negb (is_linebreak c)) (list_ascii_of_string street)
    = true.
Proof.
  unfold parse_address. intros H Hd.
  destruct (search POSTCODE_RE address) as [found|];
    [|injection H as <-; congruence].
  destruct (strip (replace (group found 0) "" address)) as [|c t] eqn:Hstrip;
    [discriminate|].
  pose proof (strip_head _ _ _ Hstrip) as Hc.
  assert (Hbreak : is_linebreak c = false).
  { destruct (is_linebreak c) eqn:Hb; [|reflexivity].
    apply linebreak_isspace in Hb. congruence. }
  destruct (splitlines_head c t Hbreak) as (line & lines & Hlines).
  rewrite Hlines in H. cbn [first_item bind] in H. injection H as <-.
  exists (String c line), (group found 1), (group found 2).
  split; [reflexivity|]. split; [now exists c, line|].
  apply forallb_chars. intros x Hin. apply negb_true_iff.
  apply (splitlines_no_linebreak (String.length (String c t)) (String c t)
           (le_n _) (String c line) x); [|exact Hin].
  rewrite Hlines. now left.
Qed.

(** X7 at an address of three lines. *)
Lemma parse_address_street_line_witness :
  exists street postcode city,
    [("address", "c/o Meyer"); ("postcode", "80331"); ("city", "Muenchen")]
    = [("address", street); ("postcode", postcode); ("city", city)] /\
    (exists c t, street = String c t /\ isspace c = false) /\
    forallb (fun c => negb (is_linebreak c)) (list_ascii_of_string street)
    = true.
Proof.
  apply (parse_address_street_line
           ("c/o Meyer" ++ String LF ("80331  Muenchen" ++ String LF "Germany"))
           [("address", "c/o Meyer"); ("postcode", "80331");
            ("city", "Muenchen")]).
  - reflexivity.
  - discriminate.
Defined.

End AddressFacts.

(** ** [calculate_amount_needed]: what it returns, when it raises *)

Module AmountFacts.

Import PyDecimal PyDecimalFacts Django DjangoFacts Forms FormsFacts.
Local Open Scope string_scope.

(** Rounding to the context raises nothing but [Overflow]. *)
Lemma fix_raises (d : Decimal) (e : exn) : _fix d = Raise e -> e = Overflow.
Proof.
  unfold _fix.
  repeat match goal with
         | |- context [if ?b then _ else _] => destruct b
         end; intros H; congruence.
Qed.

(** Neither does a division by ten. *)
Lemma truediv_ten_raises (p : Decimal) (e : exn) :
  truediv p (of_int 10) = Raise e -> e = Overflow.
Proof.
  unfold truediv. change (Z.of_N (d_int (of_int 10))) with 10%Z.
  change (10 =? 0)%Z with false. cbv iota.
  repeat match goal with
         | |- context [if ?b then _ else _] => destruct b
         | |- context [let '(_, _) := ?p in _] => destruct p
         end; apply fix_raises.
Qed.

(** A number written with at most ten digits, two of them after the
    point, is below [10^8]. *)
Lemma DecimalField_clean_below (min_value : Z) (raw : option Decimal)
      (a : Decimal) :
  DecimalField_clean min_value 10 2 raw = Clean a ->
  (inject_Z min_value <= value a)%Q /\ (value a < inject_Z (10 ^ 8))%Q.
Proof.
  unfold DecimalField_clean. destruct raw as [d|]; [|discriminate].
  destruct (decimal_digits d) as [digits decimals] eqn:Hdd.
  destruct (below d min_value) eqn:Hbelow; [discriminate|].
  destruct (Z.ltb_spec 10 digits) as [|Hdigits]; [discriminate|].
  destruct (Z.ltb_spec 2 decimals) as [|Hplaces]; [discriminate|].
  destruct (Z.ltb_spec (10 - 2) (digits - decimals)) as [|Hwhole8];
    [discriminate|].
  intros Heq; inversion Heq; subst a; clear Heq.
  split.
  { unfold below in Hbelow. now apply negb_false_iff, Qle_bool_iff in Hbelow. }
  unfold value, signed.
  set (c := Z.of_N (d_int d)).
  assert (Hc0 : (0 <= c)%Z) by (unfold c; lia).
  destruct (Z.eq_dec c 0) as [Hzero|Hnz].
  { rewrite Hzero. destruct (d_sign d); cbn [Z.opp]; rewrite scaled_zero;
      reflexivity. }
  assert (Hpos : (0 < c)%Z) by lia.
  destruct (d_sign d).
  { apply Qlt_trans with 0%Q; [|reflexivity].
    unfold scaled. rewrite inject_Z_opp.
    pose proof (scaled_pos c (d_exp d) Hpos) as Hs. unfold scaled in Hs.
    lra. }
  destruct (ndigits_bounds c Hpos) as [_ Hhi]. fold c in Hdd.
  unfold decimal_digits in Hdd. fold c in Hdd.
  pose proof (ndigits_pos c) as Hn.
  destruct (Z.leb_spec 0 (d_exp d)) as [He|He].
  - inversion Hdd; subst digits decimals; clear Hdd.
    rewrite scaled_nonneg_exp by exact He. rewrite <- Zlt_Qlt.
    apply Z.lt_le_trans with (10 ^ ndigits c * 10 ^ d_exp d)%Z.
    + apply Z.mul_lt_mono_pos_r; [apply Z.pow_pos_nonneg; lia | exact Hhi].
    + rewrite <- Z.pow_add_r by lia. apply Z.pow_le_mono_r; lia.
  - assert (Hdec : (decimals = - d_exp d)%Z)
      by (destruct (ndigits c <? - d_exp d)%Z; inversion Hdd; reflexivity).
    assert (Hwhole : (ndigits c + d_exp d <= 8)%Z)
      by (destruct (Z.ltb_spec (ndigits c) (- d_exp d));
          inversion Hdd; subst; lia).
    assert (Hc : (c < 10 ^ (8 - d_exp d))%Z).
    { apply Z.lt_le_trans with (10 ^ ndigits c)%Z; [exact Hhi|].
      apply Z.pow_le_mono_r; lia. }
    assert (Hcases : d_exp d = (-1)%Z \/ d_exp d = (-2)%Z) by lia.
    unfold scaled. rewrite Zlt_Qlt in Hc.
    destruct Hcases as [Hexp|Hexp]; rewrite Hexp in *.
    + change (inject_Z 10 ^ (-1))%Q with (1 # 10)%Q.
      change (inject_Z (10 ^ (8 - -1))) with (1000000000 # 1)%Q in Hc.
      change (inject_Z (10 ^ 8)) with (100000000 # 1)%Q. lra.
    + change (inject_Z 10 ^ (-2))%Q with (1 # 100)%Q.
      change (inject_Z (10 ^ (8 - -2))) with (10000000000 # 1)%Q in Hc.
      change (inject_Z (10 ^ 8)) with (100000000 # 1)%Q. lra.
Qed.

(** A value below the minimum of a decimal field is refused. *)
Lemma DecimalField_clean_min_value (min_value max_digits decimal_places : Z)
      (a : Decimal) :
  (value a < inject_Z min_value)%Q ->
  DecimalField_clean min_value max_digits decimal_places (Some a)
  = Invalid "min_value".
Proof.
  intros Hlow. unfold DecimalField_clean. destruct (decimal_digits a).
  replace (below a min_value) with true; [reflexivity|].
  symmetry. unfold below. apply negb_true_iff.
  apply not_true_iff_false. rewrite Qle_bool_iff. now apply Qlt_not_le.
Qed.

Section Amounts.

Variable OVERHEAD_FACTOR : Decimal.

(** The function raises nothing but [Overflow], and only for a product
    of [10^Emax] or more. *)
Lemma calculate_amount_needed_raises (x : Decimal) (e : exn) :
  calculate_amount_needed OVERHEAD_FACTOR x = Raise e ->
  e = Overflow /\
  (Emax < ndigits (Z.of_N (d_int (exact_mul x OVERHEAD_FACTOR)))
          + d_exp (exact_mul x OVERHEAD_FACTOR))%Z.
Proof.
  intros H.
  destruct (Z.le_gt_cases
              (ndigits (Z.of_N (d_int (exact_mul x OVERHEAD_FACTOR)))
               + d_exp (exact_mul x OVERHEAD_FACTOR)) Emax) as [Hle|Hgt].
  - destruct (calculate_amount_needed_returns OVERHEAD_FACTOR x Hle)
      as (r & Hr). congruence.
  - split; [|lia]. revert H. unfold calculate_amount_needed, mul.
    destruct (_fix (exact_mul x OVERHEAD_FACTOR)) as [p|e'] eqn:Hp;
      cbn [bind].
    + destruct (truediv p (of_int 10)) as [q|e''] eqn:Hq; cbn [bind];
        [discriminate|].
      intros H. injection H as <-. exact (truediv_ten_raises _ _ Hq).
    + intros H. injection H as <-. exact (fix_raises _ _ Hp).
Qed.

(** X2: the two outcomes of [calculate_amount_needed], for every finite
    amount and every finite factor (NaN and the infinities, which
    [Decimal] here does not hold, are not covered).  What it returns is
    [Decimal(n)] for an integer multiple [n] of ten.  The only exception
    it raises is [decimal.Overflow], and only when the number of digits of
    the exact product plus its exponent is above [Emax = 999999], that is
    for a product of at least [10^999999]. *)
Theorem calculate_amount_needed_outcome (x : Decimal) :
  (forall r, calculate_amount_needed OVERHEAD_FACTOR x = Return r ->
             exists n : Z, r = of_int n /\ (n mod 10 = 0)%Z) /\
  (forall e, calculate_amount_needed OVERHEAD_FACTOR x = Raise e ->
             e = Overflow /\
             (Emax < ndigits (Z.of_N (d_int (exact_mul x OVERHEAD_FACTOR)))
                     + d_exp (exact_mul x OVERHEAD_FACTOR))%Z).
Proof.
  split.
  - intros r. apply calculate_amount_needed_multiple.
  - intros e. apply calculate_amount_needed_raises.
Qed.

(** X3: [calculate_amount_needed] is monotone.  For a factor that is not
    negative and two amounts whose products with the factor the decimal
    context holds exactly, the larger amount gets a target that is not
    smaller. *)
Theorem calculate_amount_needed_monotone (x y : Decimal) :
  (0 <= value OVERHEAD_FACTOR)%Q ->
  (value x <= value y)%Q ->
  fits (exact_mul x OVERHEAD_FACTOR) ->
  fits (exact_mul y OVERHEAD_FACTOR) ->
  exists n m : Z,
    calculate_amount_needed OVERHEAD_FACTOR x = Return (of_int n) /\
    calculate_amount_needed OVERHEAD_FACTOR y = Return (of_int m) /\
    (n <= m)%Z.
Proof.
  intros Hf Hxy Hx Hy.
  destruct (calculate_amount_needed_fits OVERHEAD_FACTOR x Hx)
    as (n & Hn & Hnmod & _ & Hnlt).
  destruct (calculate_amount_needed_fits OVERHEAD_FACTOR y Hy)
    as (m & Hm & Hmmod & Hmle & _).
  exists n, m. split; [exact Hn|]. split; [exact Hm|].
  assert (Hlt : (inject_Z n - inject_Z 10 < inject_Z m)%Q).
  { apply Qlt_le_trans with (value x * value OVERHEAD_FACTOR)%Q;
      [exact Hnlt|].
    apply Qle_trans with (value y * value OVERHEAD_FACTOR)%Q;
      [|exact Hmle].
    apply Qmult_le_compat_r; assumption. }
  unfold Qminus in Hlt. rewrite <- inject_Z_opp, <- inject_Z_plus in Hlt.
  rewrite <- Zlt_Qlt in Hlt.
  apply Z.mod_divide in Hnmod, Hmmod; try lia.
  destruct Hnmod as [a ->]. destruct Hmmod as [b ->]. lia.
Qed.

End Amounts.

(** X2 at the factor 1.15: the amount 10.50 gets the target 20, and the
    amount [9 * 10^999999] overflows. *)
Lemma calculate_amount_needed_outcome_witness :
  (exists n : Z, of_int 20 = of_int n /\ (n mod 10 = 0)%Z) /\
  (Overflow = Overflow /\
   (Emax < ndigits (Z.of_N (d_int (exact_mul (mkDecimal false 9 999999)
                                             sample_factor)))
           + d_exp (exact_mul (mkDecimal false 9 999999) sample_factor))%Z).
Proof.
  split.
  - apply (proj1 (calculate_amount_needed_outcome
                    sample_factor (mkDecimal false 1050 (-2)))).
    vm_compute. reflexivity.
  - apply (proj2 (calculate_amount_needed_outcome
                    sample_factor (mkDecimal false 9 999999))).
    vm_compute. reflexivity.
Defined.

(** X3 at the amounts 10.50 and 100 and the factor 1.15. *)
Lemma calculate_amount_needed_monotone_witness :
  exists n m : Z,
    calculate_amount_needed sample_factor (mkDecimal false 1050 (-2))
    = Return (of_int n) /\
    calculate_amount_needed sample_factor (of_int 100)
    = Return (of_int m) /\
    (n <= m)%Z.
Proof.
  apply (calculate_amount_needed_monotone
           sample_factor (mkDecimal false 1050 (-2)) (of_int 100)).
  - discriminate.
  - discriminate.
  - right. vm_compute. repeat split; discriminate.
  - right. vm_compute. repeat split; discriminate.
Defined.

End AmountFacts.

(** ** [CrowdfundingRequestStartForm]: validation and saving *)

Module StartFormFacts.

Import PyDecimal PyDecimalFacts PyStr PyStrFacts.
Import Django DjangoFacts Forms FormsFacts AmountFacts.
Local Open Scope string_scope.

Lemma can_start_crowdfunding_all_finished (crowdfundings : list Crowdfunding) :
  can_start_crowdfunding crowdfundings = true <->
  (forall c, In c crowdfundings -> cf_status c = "finished").
Proof.
  unfold can_start_crowdfunding.
  destruct (existsb _ crowdfundings) eqn:Hany.
  - split; [discriminate|]. intros Hall. exfalso.
    apply existsb_exists in Hany. destruct Hany as (c & Hin & Hc).
    apply negb_true_iff, String.eqb_neq in Hc. now apply Hc, Hall.
  - split; [|reflexivity]. intros _ c Hin.
    destruct (String.eqb_spec (cf_status c) "finished") as [Heq|Hne];
      [exact Heq|].
    exfalso. apply not_true_iff_false in Hany. apply Hany, existsb_exists.
    exists c. split; [exact Hin|]. now apply negb_true_iff, String.eqb_neq.
Qed.

(** X1: [can_start_crowdfunding] returns true exactly when every campaign
    of the collection has the status 'finished' (so also for an empty
    collection), and false exactly when some campaign has another
    status. *)
Theorem can_start_crowdfunding_iff (crowdfundings : list Crowdfunding) :
  (can_start_crowdfunding crowdfundings = true <->
   forall c, In c crowdfundings -> cf_status c = "finished") /\
  (can_start_crowdfunding crowdfundings = false <->
   exists c, In c crowdfundings /\ cf_status c <> "finished").
Proof.
  split; [apply can_start_crowdfunding_all_finished|].
  split.
  - unfold can_start_crowdfunding.
    destruct (existsb _ crowdfundings) eqn:Hany; [|discriminate].
    intros _. apply existsb_exists in Hany. destruct Hany as (c & Hin & Hc).
    exists c. split; [exact Hin|]. now apply String.eqb_neq, negb_true_iff.
  - intros (c & Hin & Hc). exact (can_start_crowdfunding_false _ _ Hin Hc).
Qed.

Lemma ChoiceField_clean_offered (choices : list (string * string))
      (raw v : string) :
  ChoiceField_clean choices raw = Clean v ->
  v = raw /\ In v (map fst choices).
Proof.
  unfold ChoiceField_clean. destruct (is_empty raw); [discriminate|].
  destruct (existsb _ choices) eqn:Hany; [|discriminate].
  intros H. injection H as <-. split; [reflexivity|].
  apply existsb_exists in Hany. destruct Hany as (c & Hin & Hc).
  apply String.eqb_eq in Hc. subst raw. now apply in_map.
Qed.

Lemma ChoiceField_clean_not_offered (choices : list (string * string))
      (raw : string) :
  ~ In raw (map fst choices) ->
  exists code, ChoiceField_clean choices raw = Invalid code.
Proof.
  intros Hout. destruct (ChoiceField_clean choices raw) as [v|code] eqn:H;
    [|eauto].
  apply ChoiceField_clean_offered in H. destruct H as [-> Hin].
  contradiction.
Qed.

Lemma no_errors_field_error (fields : list (string * string))
      (form : list string) :
  fields <> [] -> no_errors (mkErrorDict fields form) = false.
Proof. unfold no_errors. cbn. destruct fields; [congruence | reflexivity]. Qed.

(** What the initializer sets up for a request with campaigns. *)
Lemma init_with_campaigns (KIND_CHOICES : list (string * string))
      (data : StartData) (request : FoiRequest) (cfs : list Crowdfunding)
      (user : option User) (form : CrowdfundingRequestStartForm) :
  CrowdfundingRequestStartForm_init KIND_CHOICES data (Some request)
                                    (Some cfs) user
  = Return form ->
  sf_data form = data /\
  sf_crowdfundings form = Some cfs /\
  sf_kind_choices form
  = filter (fun c =>
              negb (existsb (fun cf => String.eqb (cf_kind cf) (fst c)) cfs))
           KIND_CHOICES.
Proof.
  unfold CrowdfundingRequestStartForm_init.
  cbn [sf_foirequest sf_crowdfundings bind].
  intros H. injection H as <-.
  destruct (req_costs request) as [d|]; [destruct (nonzero d)|];
    cbn [sf_crowdfundings set_amount_requested_initial set_title_initial
         set_kind_choices sf_kind_choices sf_data];
    (split; [reflexivity|]); (split; [reflexivity|]);
    apply filter_ext; intros c; now rewrite kinds_of_mem.
Qed.

Section StartForm.

Variable OVERHEAD_FACTOR : Decimal.
Variable KIND_CHOICES : list (string * string).
Variable Crowdfunding_new : Crowdfunding.
Variable Crowdfunding_full_clean : Crowdfunding -> list (string * string).
Variable unique_slug : string -> list Crowdfunding -> string.
Variable stores_crowdfunding : Crowdfunding -> bool.

(** The fields of a submission that cleans to [d]. *)
Lemma CrowdfundingRequestStartForm_clean_fields_some
      (self : CrowdfundingRequestStartForm) (d : StartCleaned) :
  snd (CrowdfundingRequestStartForm_clean_fields self) = Some d ->
  fst (CrowdfundingRequestStartForm_clean_fields self) = [] /\
  CharField_clean true (Some 255%nat) (raw_title (sf_data self))
  = Clean (sc_title d) /\
  ChoiceField_clean (sf_kind_choices self) (raw_kind (sf_data self))
  = Clean (sc_kind d) /\
  DecimalField_clean 10 10 2 (raw_amount_requested (sf_data self))
  = Clean (sc_amount_requested d) /\
  BooleanField_clean true (raw_terms (sf_data self)) = Clean (sc_terms d).
Proof.
  unfold CrowdfundingRequestStartForm_clean_fields. cbn [fst snd].
  destruct (CharField_clean true (Some 255%nat) (raw_title (sf_data self)));
    cbn [and_then]; [|discriminate].
  destruct (ChoiceField_clean (sf_kind_choices self) (raw_kind (sf_data self)));
    cbn [and_then]; [|discriminate].
  destruct (CharField_clean true None (raw_description (sf_data self)));
    cbn [and_then]; [|discriminate].
  destruct (CharField_clean true None (raw_public_interest (sf_data self)));
    cbn [and_then]; [|discriminate].
  destruct (DecimalField_clean 10 10 2 (raw_amount_requested (sf_data self)));
    cbn [and_then]; [|discriminate].
  destruct (BooleanField_clean true (raw_terms (sf_data self)));
    cbn [and_then]; [|discriminate].
  intros H. injection H as <-. cbn. auto.
Qed.

(** A field that is refused is an error of the form. *)
Lemma CrowdfundingRequestStartForm_invalid_field
      (self : CrowdfundingRequestStartForm) :
  (exists code,
      ChoiceField_clean (sf_kind_choices self) (raw_kind (sf_data self))
      = Invalid code) \/
  (exists code,
      DecimalField_clean 10 10 2 (raw_amount_requested (sf_data self))
      = Invalid code) \/
  (exists code,
      BooleanField_clean true (raw_terms (sf_data self)) = Invalid code) ->
  fst (CrowdfundingRequestStartForm_clean_fields self) <> [].
Proof.
  intros Hinvalid Hnil.
  destruct (CrowdfundingRequestStartForm_clean_fields_valid self Hnil)
    as (d & Hd & _).
  apply CrowdfundingRequestStartForm_clean_fields_some in Hd.
  destruct Hd as (_ & _ & Hkind & Hamount & Hterms).
  destruct Hinvalid as [[code H]|[[code H]|[code H]]]; congruence.
Qed.

(** What [full_clean] comes to: without the collection of campaigns
    [clean] raises; with it, the form has the errors of its fields and of
    the model, and one error of its own unless every campaign is
    finished. *)
Lemma CrowdfundingRequestStartForm_full_clean_eq
      (self : CrowdfundingRequestStartForm) :
  CrowdfundingRequestStartForm_full_clean Crowdfunding_new
                                          Crowdfunding_full_clean self
  = match sf_crowdfundings self with
    | None => Raise TypeError
    | Some cfs =>
        let fields := CrowdfundingRequestStartForm_clean_fields self in
        let instance :=
          option_map (construct_instance Crowdfunding_new) (snd fields) in
        Return (mkErrorDict
                  (fst fields
                   ++ match instance with
                      | Some i => Crowdfunding_full_clean i
                      | None => []
                      end)
                  (if can_start_crowdfunding cfs then []
                   else ["You have an ongoing crowdfunding."]),
                instance)
    end.
Proof.
  unfold CrowdfundingRequestStartForm_full_clean,
    CrowdfundingRequestStartForm_clean.
  destruct (CrowdfundingRequestStartForm_clean_fields self)
    as [errors cleaned_data].
  destruct (sf_crowdfundings self) as [cfs|]; [|reflexivity].
  destruct (can_start_crowdfunding cfs); reflexivity.
Qed.

(** A form with a field error is not valid and is not saved. *)
Lemma CrowdfundingRequestStartForm_field_error
      (self : CrowdfundingRequestStartForm) (cfs : list Crowdfunding) :
  sf_crowdfundings self = Some cfs ->
  fst (CrowdfundingRequestStartForm_clean_fields self) <> [] ->
  CrowdfundingRequestStartForm_is_valid Crowdfunding_new
                                        Crowdfunding_full_clean self
  = Return false /\
  (forall db,
      CrowdfundingRequestStartForm_save OVERHEAD_FACTOR Crowdfunding_new
                     Crowdfunding_full_clean unique_slug
                     stores_crowdfunding self db
      = (Raise ValueError, db)).
Proof.
  intros Hcfs Herr.
  assert (Hno : forall more form,
             no_errors
               (mkErrorDict
                  (fst (CrowdfundingRequestStartForm_clean_fields self)
                   ++ more) form) = false).
  { intros more form. apply no_errors_field_error.
    intros H. apply app_eq_nil in H. now apply Herr. }
  split.
  - unfold CrowdfundingRequestStartForm_is_valid.
    rewrite CrowdfundingRequestStartForm_full_clean_eq, Hcfs.
    cbn [bind fst]. now rewrite Hno.
  - intros db. unfold CrowdfundingRequestStartForm_save, ModelForm_save.
    rewrite CrowdfundingRequestStartForm_full_clean_eq, Hcfs.
    cbv zeta. cbn [bind]. rewrite Hno.
    unfold bindM, lift.
    destruct (option_map _ _); reflexivity.
Qed.

(** What a returned campaign tells about the form it was saved from. *)
Lemma CrowdfundingRequestStartForm_save_returned
      (self : CrowdfundingRequestStartForm) (db db' : DB) (c : Crowdfunding) :
  CrowdfundingRequestStartForm_save OVERHEAD_FACTOR Crowdfunding_new
                 Crowdfunding_full_clean unique_slug
                 stores_crowdfunding self db
  = (Return c, db') ->
  exists cfs d,
    sf_crowdfundings self = Some cfs /\
    can_start_crowdfunding cfs = true /\
    snd (CrowdfundingRequestStartForm_clean_fields self) = Some d /\
    cf_title c = sc_title d /\
    cf_kind c = sc_kind d /\
    cf_amount_requested c = sc_amount_requested d /\
    calculate_amount_needed OVERHEAD_FACTOR (sc_amount_requested d)
    = Return (cf_amount_needed c) /\
    cf_user c = sf_user self /\
    cf_request c = sf_foirequest self /\
    cf_slug c = unique_slug (cf_title c) (db_crowdfundings db) /\
    stores_crowdfunding c = true /\
    db' = mkDB (db_crowdfundings db ++ [c]) (db_orders db)
               (db_contributions db).
Proof.
  unfold CrowdfundingRequestStartForm_save, ModelForm_save.
  rewrite CrowdfundingRequestStartForm_full_clean_eq.
  destruct (sf_crowdfundings self) as [cfs|];
    [|unfold bindM, lift; cbn; discriminate].
  cbv zeta. cbn [bind].
  destruct (snd (CrowdfundingRequestStartForm_clean_fields self))
    as [d|] eqn:Hd; cbn [option_map];
    [|unfold bindM, lift; discriminate].
  destruct (no_errors _) eqn:Hno; [|unfold bindM, lift; discriminate].
  unfold no_errors in Hno. cbn [field_errors non_field_errors] in Hno.
  destruct (_ ++ _)%list; [|discriminate].
  destruct (can_start_crowdfunding cfs) eqn:Hcan; [|discriminate].
  unfold bindM, lift.
  cbn [set_amount_needed set_request set_user construct_instance
       cf_amount_requested].
  destruct (calculate_amount_needed OVERHEAD_FACTOR (sc_amount_requested d))
    as [needed|] eqn:Hneeded; [|discriminate].
  unfold save_obj_with_slug, ret.
  destruct (stores_crowdfunding _) eqn:Hstores; [|discriminate].
  intros H. injection H as <- <-.
  exists cfs, d. cbn. repeat split; assumption.
Qed.

(** X8: the amount the form starts with.  For every request the
    initializer returns a form; its initial amount is the costs of the
    request when costs are recorded and are not zero, and the declared 10
    when the request has no costs or costs of zero; it is never zero. *)
Theorem CrowdfundingRequestStartForm_init_amount
        (data : StartData) (request : FoiRequest)
        (crowdfundings : option (list Crowdfunding)) (user : option User) :
  exists form,
    CrowdfundingRequestStartForm_init KIND_CHOICES data (Some request)
                                      crowdfundings user
    = Return form /\
    nonzero (sf_amount_requested_initial form) = true /\
    (forall d, req_costs request = Some d -> nonzero d = true ->
               sf_amount_requested_initial form = d) /\
    (req_costs request = None \/
     (exists d, req_costs request = Some d /\ nonzero d = false) ->
     sf_amount_requested_initial form = of_int 10).
Proof.
  unfold CrowdfundingRequestStartForm_init.
  cbn [sf_foirequest sf_crowdfundings bind].
  eexists. split; [reflexivity|].
  destruct (req_costs request) as [d|] eqn:Hcosts;
    [destruct (nonzero d) eqn:Hd|].
  - assert (Hinitial :
      forall form, sf_amount_requested_initial form = d ->
        nonzero (sf_amount_requested_initial form) = true /\
        (forall d', Some d = Some d' -> nonzero d' = true ->
                    sf_amount_requested_initial form = d') /\
        (Some d = None \/ (exists d', Some d = Some d' /\ nonzero d' = false) ->
         sf_amount_requested_initial form = of_int 10)).
    { intros form ->. split; [exact Hd|]. split.
      - intros d' H _. now injection H.
      - intros [H|(d' & H & Hz)]; [discriminate|].
        injection H as <-. congruence. }
    destruct crowdfundings; apply Hinitial; reflexivity.
  - assert (Hinitial :
      forall form, sf_amount_requested_initial form = of_int 10 ->
        nonzero (sf_amount_requested_initial form) = true /\
        (forall d', Some d = Some d' -> nonzero d' = true ->
                    sf_amount_requested_initial form = d') /\
        (Some d = None \/ (exists d', Some d = Some d' /\ nonzero d' = false) ->
         sf_amount_requested_initial form = of_int 10)).
    { intros form ->. split; [reflexivity|]. split.
      - intros d' H Hnz. injection H as <-. congruence.
      - reflexivity. }
    destruct crowdfundings; apply Hinitial; reflexivity.
  - assert (Hinitial :
      forall form, sf_amount_requested_initial form = of_int 10 ->
        nonzero (sf_amount_requested_initial form) = true /\
        (forall d', @None Decimal = Some d' -> nonzero d' = true ->
                    sf_amount_requested_initial form = d') /\
        (@None Decimal = None \/
         (exists d', None = Some d' /\ nonzero d' = false) ->
         sf_amount_requested_initial form = of_int 10)).
    { intros form ->. split; [reflexivity|]. split.
      - discriminate.
      - reflexivity. }
    destruct crowdfundings; apply Hinitial; reflexivity.
Qed.

(** X9: a form made without the collection of campaigns cannot be
    validated.  For every request, the initializer returns a form when
    [crowdfundings] is left out; the form offers no kind at all, [is_valid]
    raises [TypeError] ([clean] iterates over [None]), and so does [save],
    with the database as it was. *)
Theorem CrowdfundingRequestStartForm_without_crowdfundings
        (data : StartData) (request : FoiRequest) (user : option User) :
  exists form,
    CrowdfundingRequestStartForm_init KIND_CHOICES data (Some request) None
                                      user
    = Return form /\
    sf_kind_choices form = [] /\
    CrowdfundingRequestStartForm_is_valid Crowdfunding_new
                                          Crowdfunding_full_clean form
    = Raise TypeError /\
    (forall db,
        CrowdfundingRequestStartForm_save OVERHEAD_FACTOR Crowdfunding_new
                       Crowdfunding_full_clean unique_slug
                       stores_crowdfunding form db
        = (Raise TypeError, db)).
Proof.
  unfold CrowdfundingRequestStartForm_init.
  cbn [sf_foirequest sf_crowdfundings bind].
  eexists. split; [reflexivity|].
  assert (Hnone :
    forall form, sf_crowdfundings form = None ->
      CrowdfundingRequestStartForm_is_valid Crowdfunding_new
                                            Crowdfunding_full_clean form
      = Raise TypeError /\
      (forall db,
          CrowdfundingRequestStartForm_save OVERHEAD_FACTOR Crowdfunding_new
                         Crowdfunding_full_clean unique_slug
                         stores_crowdfunding form db
          = (Raise TypeError, db))).
  { intros form Hform.
    unfold CrowdfundingRequestStartForm_is_valid,
      CrowdfundingRequestStartForm_save, ModelForm_save.
    rewrite CrowdfundingRequestStartForm_full_clean_eq, Hform.
    split; [reflexivity | intros db; reflexivity]. }
  destruct (req_costs request) as [d|]; [destruct (nonzero d)|];
    (split; [reflexivity | apply Hnone; reflexivity]).
Qed.

(** X10: when the collection of campaigns is given, [is_valid] returns
    and never raises, and it returns true exactly when no field reports an
    error, the model reports no error for the instance built from the
    cleaned data, and every campaign of the collection is finished. *)
Theorem CrowdfundingRequestStartForm_is_valid_iff
        (self : CrowdfundingRequestStartForm) (cfs : list Crowdfunding) :
  sf_crowdfundings self = Some cfs ->
  (exists b, CrowdfundingRequestStartForm_is_valid
               Crowdfunding_new Crowdfunding_full_clean self = Return b) /\
  (CrowdfundingRequestStartForm_is_valid Crowdfunding_new
                                         Crowdfunding_full_clean self
   = Return true <->
   fst (CrowdfundingRequestStartForm_clean_fields self) = [] /\
   (forall d, snd (CrowdfundingRequestStartForm_clean_fields self) = Some d ->
              Crowdfunding_full_clean (construct_instance Crowdfunding_new d)
              = []) /\
   (forall c, In c cfs -> cf_status c = "finished")).
Proof.
  intros Hcfs. unfold CrowdfundingRequestStartForm_is_valid.
  rewrite CrowdfundingRequestStartForm_full_clean_eq, Hcfs.
  cbv zeta. cbn [bind fst]. split; [eauto|].
  rewrite <- can_start_crowdfunding_all_finished.
  unfold no_errors. cbn [field_errors non_field_errors].
  destruct (fst (CrowdfundingRequestStartForm_clean_fields self))
    as [|err errs]; cbn [app].
  - destruct (snd (CrowdfundingRequestStartForm_clean_fields self)) as [d|];
      cbn [option_map].
    + destruct (Crowdfunding_full_clean (construct_instance Crowdfunding_new d))
        as [|m ms] eqn:Hmodel.
      * destruct (can_start_crowdfunding cfs).
        -- split; [|reflexivity]. intros _.
           split; [reflexivity|]. split; [|reflexivity].
           intros d' Hd'. injection Hd' as <-. exact Hmodel.
        -- split; [discriminate|]. intros (_ & _ & H). discriminate.
      * split; [discriminate|]. intros (_ & H & _).
        specialize (H d eq_refl). congruence.
    + destruct (can_start_crowdfunding cfs).
      * split; [|reflexivity]. intros _.
        split; [reflexivity|]. split; [discriminate | reflexivity].
      * split; [discriminate|]. intros (_ & _ & H). discriminate.
  - split; [discriminate|]. intros (H & _). discriminate.
Qed.

(** X11: a submission whose terms are not accepted, whose amount is
    missing or not a number, or whose amount is below 10, is never saved.
    On a form that was given the collection of campaigns it is not valid,
    and saving it raises [ValueError]; on a form that was made without the
    collection, [is_valid] and [save] raise [TypeError].  In both cases the
    database is left as it was. *)
Theorem CrowdfundingRequestStartForm_rejects
        (self : CrowdfundingRequestStartForm) :
  raw_terms (sf_data self) = false \/
  raw_amount_requested (sf_data self) = None \/
  (exists a, raw_amount_requested (sf_data self) = Some a /\
             (value a < inject_Z 10)%Q) ->
  (forall cfs,
      sf_crowdfundings self = Some cfs ->
      CrowdfundingRequestStartForm_is_valid Crowdfunding_new
                                            Crowdfunding_full_clean self
      = Return false /\
      (forall db,
          CrowdfundingRequestStartForm_save OVERHEAD_FACTOR Crowdfunding_new
                         Crowdfunding_full_clean unique_slug
                         stores_crowdfunding self db
          = (Raise ValueError, db))) /\
  (sf_crowdfundings self = None ->
   CrowdfundingRequestStartForm_is_valid Crowdfunding_new
                                         Crowdfunding_full_clean self
   = Raise TypeError /\
   (forall db,
       CrowdfundingRequestStartForm_save OVERHEAD_FACTOR Crowdfunding_new
                      Crowdfunding_full_clean unique_slug
                      stores_crowdfunding self db
       = (Raise TypeError, db))).
Proof.
  intros Hbad. split.
  - intros cfs Hcfs.
    apply (CrowdfundingRequestStartForm_field_error self cfs Hcfs).
    apply CrowdfundingRequestStartForm_invalid_field.
    destruct Hbad as [Hterms|[Hnone|(a & Ha & Hlow)]].
    + right. right. rewrite Hterms. now exists "required".
    + right. left. rewrite Hnone. now exists "invalid".
    + right. left. rewrite Ha. exists "min_value".
      now apply DecimalField_clean_min_value.
  - intros Hnone.
    unfold CrowdfundingRequestStartForm_is_valid,
      CrowdfundingRequestStartForm_save, ModelForm_save.
    rewrite CrowdfundingRequestStartForm_full_clean_eq, Hnone.
    split; [reflexivity | intros db; reflexivity].
Qed.

(** X12: a kind that a campaign of the request already uses is refused
    when it is submitted all the same: the form the initializer returns
    for the request and its campaigns is not valid for such a submission,
    and saving it raises [ValueError] and leaves the database as it
    was. *)
Theorem used_kind_refused
        (data : StartData) (request : FoiRequest) (cfs : list Crowdfunding)
        (user : option User) (form : CrowdfundingRequestStartForm)
        (cf : Crowdfunding) :
  CrowdfundingRequestStartForm_init KIND_CHOICES data (Some request)
                                    (Some cfs) user
  = Return form ->
  In cf cfs ->
  cf_kind cf = raw_kind data ->
  CrowdfundingRequestStartForm_is_valid Crowdfunding_new
                                        Crowdfunding_full_clean form
  = Return false /\
  (forall db,
      CrowdfundingRequestStartForm_save OVERHEAD_FACTOR Crowdfunding_new
                     Crowdfunding_full_clean unique_slug
                     stores_crowdfunding form db
      = (Raise ValueError, db)).
Proof.
  intros Hinit Hcf Hkind.
  apply init_with_campaigns in Hinit.
  destruct Hinit as (Hdata & Hcfs & Hchoices).
  apply (CrowdfundingRequestStartForm_field_error form cfs Hcfs).
  apply CrowdfundingRequestStartForm_invalid_field. left.
  apply ChoiceField_clean_not_offered.
  rewrite Hchoices, Hdata. intros Hin. apply in_map_iff in Hin.
  destruct Hin as ([k label] & Hk & Hin). cbn [fst] in Hk. subst k.
  apply filter_In in Hin. destruct Hin as [_ Hunused].
  apply negb_true_iff, not_true_iff_false in Hunused.
  apply Hunused, existsb_exists.
  exists cf. split; [exact Hcf|]. cbn [fst]. now apply String.eqb_eq.
Qed.

(** X13: [save] writes all or nothing.  When it raises, the database is
    as it was, and the exception is [TypeError], [ValueError],
    [decimal.Overflow] or the error of the persistence layer.  When it
    returns a campaign, the database has gained exactly that campaign, at
    the end of the campaigns, and nothing else; the campaign carries the
    slug settled on for its title among the campaigns stored before. *)
Theorem CrowdfundingRequestStartForm_save_atomic
        (self : CrowdfundingRequestStartForm) (db : DB) :
  (forall e db',
      CrowdfundingRequestStartForm_save OVERHEAD_FACTOR Crowdfunding_new
                     Crowdfunding_full_clean unique_slug
                     stores_crowdfunding self db
      = (Raise e, db') ->
      db' = db /\
      (e = TypeError \/ e = ValueError \/ e = Overflow
       \/ e = CollaboratorFailure)) /\
  (forall c db',
      CrowdfundingRequestStartForm_save OVERHEAD_FACTOR Crowdfunding_new
                     Crowdfunding_full_clean unique_slug
                     stores_crowdfunding self db
      = (Return c, db') ->
      db' = mkDB (db_crowdfundings db ++ [c]) (db_orders db)
                 (db_contributions db) /\
      stores_crowdfunding c = true /\
      cf_slug c = unique_slug (cf_title c) (db_crowdfundings db)).
Proof.
  split.
  - intros e db'.
    unfold CrowdfundingRequestStartForm_save, ModelForm_save.
    rewrite CrowdfundingRequestStartForm_full_clean_eq.
    unfold bindM, lift.
    destruct (sf_crowdfundings self) as [cfs|]; cbv zeta; cbn [bind];
      [|intros H; injection H as <- <-; auto].
    destruct (option_map _ _) as [instance|];
      [|intros H; injection H as <- <-; auto].
    destruct (no_errors _); [|intros H; injection H as <- <-; auto].
    destruct (calculate_amount_needed OVERHEAD_FACTOR _) as [needed|e']
      eqn:Hneeded.
    + unfold save_obj_with_slug, ret.
      destruct (stores_crowdfunding _); [discriminate|].
      intros H; injection H as <- <-; auto.
    + intros H; injection H as <- <-.
      apply calculate_amount_needed_raises in Hneeded.
      destruct Hneeded as [-> _]. auto.
  - intros c db' H.
    apply CrowdfundingRequestStartForm_save_returned in H.
    destruct H as (cfs & d & _ & _ & _ & _ & _ & _ & _ & _ & _ & Hslug
                   & Hstores & Hdb).
    auto.
Qed.

(** X14: the kind of a saved campaign is new for the request.  When the
    form the initializer returns for a request and its campaigns is saved,
    the kind of the new campaign is the one submitted, it is one of
    [KIND_CHOICES], no campaign of the request has it, and every campaign
    of the request is finished. *)
Theorem saved_campaign_kind_is_new
        (data : StartData) (request : FoiRequest) (cfs : list Crowdfunding)
        (user : option User) (form : CrowdfundingRequestStartForm)
        (db db' : DB) (c : Crowdfunding) :
  CrowdfundingRequestStartForm_init KIND_CHOICES data (Some request)
                                    (Some cfs) user
  = Return form ->
  CrowdfundingRequestStartForm_save OVERHEAD_FACTOR Crowdfunding_new
                 Crowdfunding_full_clean unique_slug
                 stores_crowdfunding form db
  = (Return c, db') ->
  cf_kind c = raw_kind data /\
  In (cf_kind c) (map fst KIND_CHOICES) /\
  (forall cf, In cf cfs -> cf_kind cf <> cf_kind c) /\
  (forall cf, In cf cfs -> cf_status cf = "finished").
Proof.
  intros Hinit Hsave.
  apply init_with_campaigns in Hinit.
  destruct Hinit as (Hdata & Hcfs & Hchoices).
  apply CrowdfundingRequestStartForm_save_returned in Hsave.
  destruct Hsave as (cfs' & d & Hcfs' & Hcan & Hd & _ & Hkind & _).
  rewrite Hcfs in Hcfs'. injection Hcfs' as <-.
  apply CrowdfundingRequestStartForm_clean_fields_some in Hd.
  destruct Hd as (_ & _ & Hchoice & _).
  apply ChoiceField_clean_offered in Hchoice.
  rewrite <- Hkind, Hdata in Hchoice. destruct Hchoice as [Hraw Hin].
  rewrite Hchoices in Hin. apply in_map_iff in Hin.
  destruct Hin as ([k label] & Hk & Hin). cbn [fst] in Hk. subst k.
  apply filter_In in Hin. destruct Hin as [Hin Hunused].
  split; [exact Hraw|]. split; [|split].
  - apply in_map_iff. exists (cf_kind c, label). auto.
  - intros cf Hcf Heq. apply negb_true_iff in Hunused.
    apply not_true_iff_false in Hunused. apply Hunused, existsb_exists.
    exists cf. split; [exact Hcf|]. cbn [fst]. now apply String.eqb_eq.
  - now apply can_start_crowdfunding_all_finished.
Qed.

(** X15: the amounts of a saved campaign.  For a factor above 1 with at
    most 18 digits and an exponent between -1000 and 1000, a campaign that
    [save] returns has an amount requested of at least 10 and below
    [10^8], and an amount needed that is a multiple of ten, at least 20,
    above the amount requested, and the least multiple of ten that is not
    below the amount requested times the factor. *)
Theorem saved_campaign_amounts
        (self : CrowdfundingRequestStartForm) (db db' : DB)
        (c : Crowdfunding) :
  (1 < value OVERHEAD_FACTOR)%Q ->
  (ndigits (Z.of_N (d_int OVERHEAD_FACTOR)) <= 18 /\
   -1000 <= d_exp OVERHEAD_FACTOR <= 1000)%Z ->
  CrowdfundingRequestStartForm_save OVERHEAD_FACTOR Crowdfunding_new
                 Crowdfunding_full_clean unique_slug
                 stores_crowdfunding self db
  = (Return c, db') ->
  (inject_Z 10 <= value (cf_amount_requested c))%Q /\
  (value (cf_amount_requested c) < inject_Z (10 ^ 8))%Q /\
  exists n : Z,
    cf_amount_needed c = of_int n /\
    (n mod 10 = 0)%Z /\
    (20 <= n)%Z /\
    (value (cf_amount_requested c) < inject_Z n)%Q /\
    (value (cf_amount_requested c) * value OVERHEAD_FACTOR <= inject_Z n)%Q /\
    (inject_Z n - inject_Z 10
     < value (cf_amount_requested c) * value OVERHEAD_FACTOR)%Q.
Proof.
  intros Hf Hfactor Hsave.
  apply CrowdfundingRequestStartForm_save_returned in Hsave.
  destruct Hsave as (cfs & d & _ & _ & Hd & _ & _ & Hrequested & Hneeded & _).
  apply CrowdfundingRequestStartForm_clean_fields_some in Hd.
  destruct Hd as (_ & _ & _ & Hamount & _).
  rewrite <- Hrequested in *.
  destruct (DecimalField_clean_below _ _ _ Hamount) as [Hmin Hmax].
  apply DecimalField_clean_bounds in Hamount.
  destruct Hamount as (_ & _ & Hbounds).
  destruct (calculate_amount_needed_fits OVERHEAD_FACTOR
              (cf_amount_requested c)
              (accepted_amount_fits _ _ Hfactor Hbounds))
    as (n & Hn & Hmod & Hle & Hlt).
  rewrite Hn in Hneeded. injection Hneeded as Hneeded.
  split; [exact Hmin|]. split; [exact Hmax|].
  exists n. split; [now symmetry|]. split; [exact Hmod|].
  change (inject_Z 10) with (10 # 1)%Q in *.
  assert (Hgt : (10 # 1 < inject_Z n)%Q) by nra.
  split; [|split; [nra | split; assumption]].
  change (10 # 1)%Q with (inject_Z 10) in Hgt. rewrite <- Zlt_Qlt in Hgt.
  apply Z.mod_divide in Hmod; [|lia]. destruct Hmod as [k ->]. lia.
Qed.

End StartForm.

(** X10 at the sample submission for a request whose campaign is
    finished. *)
Lemma CrowdfundingRequestStartForm_is_valid_iff_witness :
  (exists b, CrowdfundingRequestStartForm_is_valid
               sample_blank (fun _ => [])
               (sample_start_form [sample_campaign "finished"]) = Return b) /\
  (CrowdfundingRequestStartForm_is_valid
     sample_blank (fun _ => [])
     (sample_start_form [sample_campaign "finished"])
   = Return true <->
   fst (CrowdfundingRequestStartForm_clean_fields
          (sample_start_form [sample_campaign "finished"])) = [] /\
   (forall d, snd (CrowdfundingRequestStartForm_clean_fields
                     (sample_start_form [sample_campaign "finished"]))
              = Some d ->
              @nil (string * string) = []) /\
   (forall c, In c [sample_campaign "finished"] ->
              cf_status c = "finished")).
Proof.
  apply (CrowdfundingRequestStartForm_is_valid_iff
           sample_blank (fun _ => [])
           (sample_start_form [sample_campaign "finished"])
           [sample_campaign "finished"]).
  reflexivity.
Defined.

(** X11 at a submission that asks for 5, on a form with the collection
    of campaigns and on one without. *)
Lemma CrowdfundingRequestStartForm_rejects_witness :
  let data :=
    mkStartData "Appeal" "lawsuit" "I need them." "Everyone does."
                (Some (of_int 5)) true in
  let form crowdfundings :=
    mkStartForm data (Some sample_request) crowdfundings (Some sample_user)
                (Some "Budget papers") (of_int 100) sample_choices in
  (CrowdfundingRequestStartForm_is_valid sample_blank (fun _ => [])
                                         (form (Some []))
   = Return false /\
   (forall db,
       CrowdfundingRequestStartForm_save
         sample_factor sample_blank (fun _ => []) (fun title _ => title)
         (fun _ => true) (form (Some [])) db
       = (Raise ValueError, db))) /\
  (CrowdfundingRequestStartForm_is_valid sample_blank (fun _ => [])
                                         (form None)
   = Raise TypeError /\
   (forall db,
       CrowdfundingRequestStartForm_save
         sample_factor sample_blank (fun _ => []) (fun title _ => title)
         (fun _ => true) (form None) db
       = (Raise TypeError, db))).
Proof.
  cbv zeta. split.
  - apply (proj1 (CrowdfundingRequestStartForm_rejects
                    sample_factor sample_blank (fun _ => [])
                    (fun title _ => title) (fun _ => true)
                    (mkStartForm
                       (mkStartData "Appeal" "lawsuit" "I need them."
                                    "Everyone does." (Some (of_int 5)) true)
                       (Some sample_request) (Some []) (Some sample_user)
                       (Some "Budget papers") (of_int 100) sample_choices)
                    (or_intror
                       (or_intror
                          (ex_intro _ (of_int 5) (conj eq_refl eq_refl)))))
                 [] eq_refl).
  - apply (proj2 (CrowdfundingRequestStartForm_rejects
                    sample_factor sample_blank (fun _ => [])
                    (fun title _ => title) (fun _ => true)
                    (mkStartForm
                       (mkStartData "Appeal" "lawsuit" "I need them."
                                    "Everyone does." (Some (of_int 5)) true)
                       (Some sample_request) None (Some sample_user)
                       (Some "Budget papers") (of_int 100) sample_choices)
                    (or_intror
                       (or_intror
                          (ex_intro _ (of_int 5) (conj eq_refl eq_refl)))))
                 eq_refl).
Defined.

(** X12 at a request with a campaign of the kind "lawsuit" and a
    submission of that kind. *)
Lemma used_kind_refused_witness :
  CrowdfundingRequestStartForm_is_valid
    sample_blank (fun _ => [])
    (mkStartForm sample_start_data (Some sample_request)
                 (Some [sample_saved]) (Some sample_user)
                 (Some "Budget papers") (of_int 100)
                 [("fees", "Fees")])
  = Return false /\
  (forall db,
      CrowdfundingRequestStartForm_save
        sample_factor sample_blank (fun _ => []) (fun title _ => title)
        (fun _ => true)
        (mkStartForm sample_start_data (Some sample_request)
                     (Some [sample_saved]) (Some sample_user)
                     (Some "Budget papers") (of_int 100)
                     [("fees", "Fees")])
        db
      = (Raise ValueError, db)).
Proof.
  apply (used_kind_refused
           sample_factor sample_choices sample_blank (fun _ => [])
           (fun title _ => title) (fun _ => true)
           sample_start_data sample_request [sample_saved]
           (Some sample_user)
           (mkStartForm sample_start_data (Some sample_request)
                        (Some [sample_saved]) (Some sample_user)
                        (Some "Budget papers") (of_int 100)
                        [("fees", "Fees")])
           sample_saved).
  - reflexivity.
  - left. reflexivity.
  - reflexivity.
Defined.

(** X14 at the sample submission for a request whose campaign of the
    kind "fees" is finished. *)
Lemma saved_campaign_kind_is_new_witness :
  cf_kind sample_saved = "lawsuit" /\
  In (cf_kind sample_saved) (map fst sample_choices) /\
  (forall cf, In cf [sample_campaign "finished"] ->
              cf_kind cf <> cf_kind sample_saved) /\
  (forall cf, In cf [sample_campaign "finished"] ->
              cf_status cf = "finished").
Proof.
  apply (saved_campaign_kind_is_new
           sample_factor sample_choices sample_blank (fun _ => [])
           (fun title _ => title) (fun _ => true)
           sample_start_data sample_request [sample_campaign "finished"]
           (Some sample_user)
           (mkStartForm sample_start_data (Some sample_request)
                        (Some [sample_campaign "finished"])
                        (Some sample_user) (Some "Budget papers")
                        (of_int 100) [("lawsuit", "Lawsuit")])
           empty_db (mkDB [sample_saved] [] []) sample_saved).
  - reflexivity.
  - vm_compute. reflexivity.
Defined.

(** X15 at the sample submission and the factor 1.15. *)
Lemma saved_campaign_amounts_witness :
  (inject_Z 10 <= value (cf_amount_requested sample_saved))%Q /\
  (value (cf_amount_requested sample_saved) < inject_Z (10 ^ 8))%Q /\
  exists n : Z,
    cf_amount_needed sample_saved = of_int n /\
    (n mod 10 = 0)%Z /\
    (20 <= n)%Z /\
    (value (cf_amount_requested sample_saved) < inject_Z n)%Q /\
    (value (cf_amount_requested sample_saved) * value sample_factor
     <= inject_Z n)%Q /\
    (inject_Z n - inject_Z 10
     < value (cf_amount_requested sample_saved) * value sample_factor)%Q.
Proof.
  apply (saved_campaign_amounts
           sample_factor sample_blank (fun _ => [])
           (fun title _ => title) (fun _ => true)
           (sample_start_form [sample_campaign "finished"]) empty_db
           (mkDB [sample_saved] [] []) sample_saved).
  - reflexivity.
  - vm_compute. repeat split; discriminate.
  - vm_compute. reflexivity.
Defined.

End StartFormFacts.

(** ** [ContributionForm]: initial values, validation and saving *)

Module ContributionFormFacts.

Import PyDecimal PyDecimalFacts PyStr PyStrFacts TextFacts PyRe.
Import Django DjangoFacts Forms FormsFacts.
Import AddressFacts AmountFacts StartFormFacts.
Local Open Scope string_scope.

(** A text field with a maximal length yields the submitted text,
    stripped and within that length; a required one is not empty. *)
Lemma CharField_clean_value (required : bool) (n : nat) (raw v : string) :
  CharField_clean required (Some n) raw = Clean v ->
  v = strip raw /\ (String.length v <= n)%nat /\
  (required = true -> v <> "").
Proof.
  unfold CharField_clean. destruct (strip raw) as [|c s] eqn:Hs; cbn [is_empty].
  - destruct required; [discriminate|]. intros H. injection H as <-.
    split; [reflexivity|]. split; [cbn; lia | discriminate].
  - destruct (Nat.ltb_spec n (String.length (String c s))) as [|Hlen];
      [discriminate|].
    intros H. injection H as <-.
    split; [reflexivity|]. split; [assumption | discriminate].
Qed.

(** *** [__init__] *)

(** X16: the form is filled in from a profile address of the usual
    shape.  For a user whose address is a street line (one line, not
    empty, no whitespace at its ends, holding no five digits before
    whitespace or at its end), a newline, a postcode of five digits,
    whitespace, a city and perhaps further lines without digits, the
    initializer returns a form whose initial address, postcode and city are
    the street line, the five digits and the city, and whose initial email
    and names are those of the user. *)
Theorem ContributionForm_init_prefills
        (data : ContributionData) (u : User)
        (crowdfunding : option Crowdfunding)
        (street postcode gap city post : string) :
  u_address u = street ++ String LF (postcode ++ gap ++ city ++ post) ->
  street <> "" ->
  strip street = street ->
  forallb (fun c => negb (is_linebreak c)) (list_ascii_of_string street)
  = true ->
  search POSTCODE_RE (street ++ String LF "") = None ->
  String.length postcode = 5%nat ->
  forallb isdecimal (list_ascii_of_string postcode) = true ->
  gap <> "" ->
  forallb isspace (list_ascii_of_string gap) = true ->
  lstrip (city ++ post) = city ++ post ->
  forallb (fun c => negb (Ascii.eqb c LF)) (list_ascii_of_string city) = true ->
  (forall c r, post = String c r -> c = LF) ->
  forallb (fun c => negb (isdecimal c)) (list_ascii_of_string post) = true ->
  ContributionForm_init data (Some u) crowdfunding
  = Return (mkContributionForm data (Some u) crowdfunding
              (Some (u_email u)) (Some (u_first_name u))
              (Some (u_last_name u))
              (Some street) (Some postcode) (Some city)).
Proof.
  intros Haddress Hne Hstrip Hsingle Hnone Hlen Hdigits Hgap Hspaces Hcity
         Hline Hpost Habsent.
  apply search_POSTCODE_RE_none in Hnone.
  unfold ContributionForm_init.
  rewrite Haddress, <- append_char.
  rewrite parse_address_postcode_line; try assumption.
  - destruct (first_line_kept street post Hne Hstrip Hsingle)
      as [lines Hlines].
    rewrite Hlines. reflexivity.
  - intros b1 b2 t. apply no_match_starts; [reflexivity | exact Hnone].
Qed.

(** X16 at the sample user. *)
Lemma ContributionForm_init_prefills_witness :
  ContributionForm_init sample_contribution_data (Some sample_user) None
  = Return (mkContributionForm sample_contribution_data (Some sample_user)
              None (Some "ada@example.org") (Some "Ada") (Some "Lovelace")
              (Some "Main Street 1") (Some "12345") (Some "Springfield")).
Proof.
  apply (ContributionForm_init_prefills
           sample_contribution_data sample_user None
           "Main Street 1" "12345" " " "Springfield" "");
    (reflexivity || discriminate).
Defined.

(** X17: for a user whose address holds no postcode (nowhere five digits
    before whitespace), the initializer returns a form whose initial
    address, postcode and city are the empty text; the initial email and
    names are those of the user. *)
Theorem ContributionForm_init_without_postcode
        (data : ContributionData) (u : User)
        (crowdfunding : option Crowdfunding) :
  ~ has_postcode (u_address u) ->
  ContributionForm_init data (Some u) crowdfunding
  = Return (mkContributionForm data (Some u) crowdfunding
              (Some (u_email u)) (Some (u_first_name u))
              (Some (u_last_name u)) (Some "") (Some "") (Some "")).
Proof.
  intros Hnone. apply search_POSTCODE_RE_none in Hnone.
  unfold ContributionForm_init, parse_address. rewrite Hnone. reflexivity.
Qed.

(** X17 at a user whose address is a street line only. *)
Lemma ContributionForm_init_without_postcode_witness :
  ContributionForm_init sample_contribution_data
    (Some (mkUser "ada@example.org" "Ada" "Lovelace" "Main Street 1")) None
  = Return (mkContributionForm sample_contribution_data
              (Some (mkUser "ada@example.org" "Ada" "Lovelace"
                            "Main Street 1"))
              None (Some "ada@example.org") (Some "Ada") (Some "Lovelace")
              (Some "") (Some "") (Some "")).
Proof.
  apply (ContributionForm_init_without_postcode
           sample_contribution_data
           (mkUser "ada@example.org" "Ada" "Lovelace" "Main Street 1") None).
  apply search_POSTCODE_RE_none. reflexivity.
Defined.

(** X18: for a user whose address is nothing but a postcode line
    (whitespace, five digits, whitespace, a city, and nothing but whitespace
    on further lines), the initializer raises [IndexError]: no form is
    made. *)
Theorem ContributionForm_init_postcode_line_raises
        (data : ContributionData) (u : User)
        (crowdfunding : option Crowdfunding)
        (lead postcode gap city trail : string) :
  u_address u = lead ++ postcode ++ gap ++ city ++ trail ->
  forallb isspace (list_ascii_of_string lead) = true ->
  String.length postcode = 5%nat ->
  forallb isdecimal (list_ascii_of_string postcode) = true ->
  gap <> "" ->
  forallb isspace (list_ascii_of_string gap) = true ->
  lstrip (city ++ trail) = city ++ trail ->
  forallb (fun c => negb (Ascii.eqb c LF)) (list_ascii_of_string city) = true ->
  forallb isspace (list_ascii_of_string trail) = true ->
  (forall c r, trail = String c r -> c = LF) ->
  ContributionForm_init data (Some u) crowdfunding = Raise IndexError.
Proof.
  intros Haddress Hlead Hlen Hdigits Hgap Hspaces Hcity Hline Htrail Hnewline.
  unfold ContributionForm_init.
  rewrite Haddress, parse_address_postcode_line; try assumption.
  - rewrite strip_spaces; [reflexivity|].
    rewrite list_ascii_of_string_append, forallb_app, Hlead, Htrail.
    reflexivity.
  - intros b1 [|c b2] t Heq Hne; [congruence|].
    apply match_here_POSTCODE_RE_no_digit.
    destruct (isdecimal c) eqn:Hc; [|reflexivity].
    apply decimal_not_space in Hc.
    rewrite forallb_chars in Hlead. rewrite Hlead in Hc; [discriminate|].
    rewrite Heq, list_ascii_of_string_append. apply in_or_app. right.
    now left.
  - apply forallb_chars. intros c Hin. apply negb_true_iff.
    destruct (isdecimal c) eqn:Hc; [|reflexivity].
    apply decimal_not_space in Hc.
    rewrite forallb_chars in Htrail. rewrite Htrail in Hc; [discriminate|].
    exact Hin.
Qed.

(** X18 at a user whose address is "12345 Springfield". *)
Lemma ContributionForm_init_postcode_line_raises_witness :
  ContributionForm_init sample_contribution_data
    (Some (mkUser "ada@example.org" "Ada" "Lovelace" "12345 Springfield"))
    None
  = Raise IndexError.
Proof.
  apply (ContributionForm_init_postcode_line_raises
           sample_contribution_data
           (mkUser "ada@example.org" "Ada" "Lovelace" "12345 Springfield")
           None "" "12345" " " "Springfield" "");
    try (reflexivity || discriminate).
Defined.

Section ContributionForm.

Variable PAYMENT_METHODS : list (string * string).
Variable stores_order : Order -> bool.
Variable stores_contribution : Contribution -> bool.
Variable contribution_description : string -> string.

(** *** Validation *)

(** Every field of a valid contribution cleans to the value the cleaned
    data holds for it. *)
Lemma ContributionForm_valid_all (self : ContributionForm)
      (d : ContributionCleaned) :
  ContributionForm_valid PAYMENT_METHODS self d ->
  DecimalField_clean 1 10 2 (raw_amount (bf_data self))
  = Clean (cc_amount d) /\
  CharField_clean false (Some 260%nat) (raw_note (bf_data self))
  = Clean (cc_note d) /\
  CharField_clean true (Some 255%nat) (raw_first_name (bf_data self))
  = Clean (cc_first_name d) /\
  CharField_clean true (Some 255%nat) (raw_last_name (bf_data self))
  = Clean (cc_last_name d) /\
  cc_public d = raw_public (bf_data self) /\
  CharField_clean true (Some 255%nat) (raw_address (bf_data self))
  = Clean (cc_address d) /\
  CharField_clean true (Some 255%nat) (raw_postcode (bf_data self))
  = Clean (cc_postcode d) /\
  CharField_clean true (Some 255%nat) (raw_city (bf_data self))
  = Clean (cc_city d) /\
  ChoiceField_clean COUNTRY_CHOICES (raw_country (bf_data self))
  = Clean (cc_country d) /\
  CharField_clean true (Some 255%nat) (raw_email (bf_data self))
  = Clean (cc_email d) /\
  ChoiceField_clean PAYMENT_METHODS (raw_method (bf_data self))
  = Clean (cc_method d) /\
  cc_terms d = true.
Proof using PAYMENT_METHODS.
  unfold ContributionForm_valid, ContributionForm_clean_fields.
  intros H. apply (f_equal snd) in H. cbv zeta in H. cbn [snd] in H.
  revert H.
  destruct (DecimalField_clean 1 10 2 (raw_amount (bf_data self)));
    cbn [and_then]; [|discriminate].
  destruct (CharField_clean false (Some 260%nat) (raw_note (bf_data self)));
    cbn [and_then]; [|discriminate].
  destruct (CharField_clean true (Some 255%nat)
                            (raw_first_name (bf_data self)));
    cbn [and_then]; [|discriminate].
  destruct (CharField_clean true (Some 255%nat) (raw_last_name (bf_data self)));
    cbn [and_then]; [|discriminate].
  unfold BooleanField_clean at 1. cbn [andb and_then].
  destruct (CharField_clean true (Some 255%nat) (raw_address (bf_data self)));
    cbn [and_then]; [|discriminate].
  destruct (CharField_clean true (Some 255%nat) (raw_postcode (bf_data self)));
    cbn [and_then]; [|discriminate].
  destruct (CharField_clean true (Some 255%nat) (raw_city (bf_data self)));
    cbn [and_then]; [|discriminate].
  destruct (ChoiceField_clean COUNTRY_CHOICES (raw_country (bf_data self)));
    cbn [and_then]; [|discriminate].
  destruct (CharField_clean true (Some 255%nat) (raw_email (bf_data self)));
    cbn [and_then]; [|discriminate].
  destruct (ChoiceField_clean PAYMENT_METHODS (raw_method (bf_data self)));
    cbn [and_then]; [|discriminate].
  unfold BooleanField_clean.
  destruct (raw_contribution_terms (bf_data self)); cbn [andb negb and_then];
    [|discriminate].
  intros H. injection H as <-. cbn. repeat split; reflexivity.
Qed.

(** X19: a contribution with an amount below 1 is refused.  The field
    amount reports the error min_value, there is no cleaned data, and the
    submission is valid for no cleaned data at all. *)
Theorem ContributionForm_amount_below_minimum
        (self : ContributionForm) (a : Decimal) :
  raw_amount (bf_data self) = Some a ->
  (value a < inject_Z 1)%Q ->
  In ("amount", "min_value") (fst (ContributionForm_clean_fields
                                     PAYMENT_METHODS self)) /\
  snd (ContributionForm_clean_fields PAYMENT_METHODS self) = None /\
  (forall d, ~ ContributionForm_valid PAYMENT_METHODS self d).
Proof using PAYMENT_METHODS.
  intros Hraw Hlow.
  assert (Hamount : DecimalField_clean 1 10 2 (raw_amount (bf_data self))
                    = Invalid "min_value")
    by (rewrite Hraw; now apply DecimalField_clean_min_value).
  assert (Hnone : snd (ContributionForm_clean_fields PAYMENT_METHODS self)
                  = None).
  { unfold ContributionForm_clean_fields. cbv zeta. cbn [snd].
    now rewrite Hamount. }
  split; [|split; [exact Hnone|]].
  - unfold ContributionForm_clean_fields. cbv zeta. cbn [fst].
    rewrite Hamount. left. reflexivity.
  - intros d Hvalid. unfold ContributionForm_valid in Hvalid.
    rewrite Hvalid in Hnone. discriminate.
Qed.

(** *** [save] *)

(** X20: saving a valid contribution on a form that was made without a
    campaign raises [AttributeError] ([None] has no title), and the
    database is as it was: no order, no contribution. *)
Theorem ContributionForm_save_without_campaign
        (self : ContributionForm) (d : ContributionCleaned) (db : DB) :
  ContributionForm_valid PAYMENT_METHODS self d ->
  bf_crowdfunding self = None ->
  ContributionForm_save stores_order stores_contribution
                        contribution_description self d db
  = (Raise AttributeError, db).
Proof using PAYMENT_METHODS stores_order stores_contribution
            contribution_description.
  intros Hvalid Hnone.
  destruct (ContributionForm_valid_fields PAYMENT_METHODS self d Hvalid)
    as (_ & _ & Hne).
  destruct (splitlines_nonempty _ Hne) as (line & lines & Hlines).
  unfold ContributionForm_save, crowdfunding_title.
  rewrite Hlines, Hnone. reflexivity.
Qed.

(** X21: [save] keeps every contribution with its order.  If every
    stored contribution refers to a stored order, this is so after [save]
    as well, whatever the form, the cleaned data and the outcome; [save]
    only adds rows, at most one order and at most one contribution, a
    contribution only together with an order, and leaves the campaigns as
    they are. *)
Theorem ContributionForm_save_keeps_references
        (self : ContributionForm) (d : ContributionCleaned) (db : DB) :
  (forall ct, In ct (db_contributions db) ->
              In (ct_order ct) (db_orders db)) ->
  let db' := snd (ContributionForm_save stores_order stores_contribution
                                        contribution_description self d db) in
  (forall ct, In ct (db_contributions db') ->
              In (ct_order ct) (db_orders db')) /\
  db_crowdfundings db' = db_crowdfundings db /\
  exists orders contributions,
    db_orders db' = (db_orders db ++ orders)%list /\
    db_contributions db' = (db_contributions db ++ contributions)%list /\
    (List.length contributions <= List.length orders <= 1)%nat.
Proof using stores_order stores_contribution contribution_description.
  intros Hrefs. cbv zeta.
  unfold ContributionForm_save, bindM, lift, ret.
  destruct (first_item (splitlines (cc_address d))) as [line|];
    [|cbn [snd]; split; [exact Hrefs|]; split; [reflexivity|];
      exists [], []; rewrite !app_nil_r; cbn; auto].
  destruct (crowdfunding_title self) as [title|];
    [|cbn [snd]; split; [exact Hrefs|]; split; [reflexivity|];
      exists [], []; rewrite !app_nil_r; cbn; auto].
  unfold Order_objects_create.
  destruct (stores_order _);
    [|cbn [snd]; split; [exact Hrefs|]; split; [reflexivity|];
      exists [], []; rewrite !app_nil_r; cbn; auto].
  unfold Contribution_objects_create.
  cbn [db_crowdfundings db_orders db_contributions].
  destruct (stores_contribution _);
    cbn [snd db_crowdfundings db_orders db_contributions].
  - split; [|split; [reflexivity|]].
    + intros ct Hin. apply in_app_or in Hin. apply in_or_app.
      destruct Hin as [Hin|[<-|[]]]; [left; now apply Hrefs|].
      right. left. reflexivity.
    + eexists [_], [_]. cbn. auto.
  - split; [|split; [reflexivity|]].
    + intros ct Hin. apply in_or_app. left. now apply Hrefs.
    + eexists [_], []. rewrite app_nil_r. cbn. auto.
Qed.

(** X22: what is stored for a valid contribution has passed validation.
    When [save] returns a contribution for a valid submission, the
    contribution and its order are in the database; the country of the
    order is DE, AT or CH; its total is at least 1 and below [10^8], and
    is the amount of the contribution; first name, last name, city,
    postcode and email are not empty, have no whitespace at their ends and
    at most 255 characters; the note has at most 260 characters; order and
    contribution belong to the user of the form, the contribution to its
    campaign, and the order is tagged as a contribution. *)
Theorem ContributionForm_saved_rows_validated
        (self : ContributionForm) (d : ContributionCleaned) (db db' : DB)
        (contribution : Contribution) :
  ContributionForm_valid PAYMENT_METHODS self d ->
  ContributionForm_save stores_order stores_contribution
                        contribution_description self d db
  = (Return contribution, db') ->
  let order := ct_order contribution in
  In order (db_orders db') /\
  In contribution (db_contributions db') /\
  In (o_country order) ["DE"; "AT"; "CH"] /\
  (inject_Z 1 <= value (o_total_gross order))%Q /\
  (value (o_total_gross order) < inject_Z (10 ^ 8))%Q /\
  ct_amount contribution = o_total_gross order /\
  (forall v, In v [o_first_name order; o_last_name order; o_city order;
                   o_postcode order; o_user_email order] ->
             v <> "" /\ strip v = v /\ (String.length v <= 255)%nat) /\
  (String.length (ct_note contribution) <= 260)%nat /\
  o_user order = bf_user self /\
  ct_user contribution = bf_user self /\
  ct_crowdfunding contribution = bf_crowdfunding self /\
  o_kind order = "froide_crowdfunding.Contribution".
Proof using PAYMENT_METHODS stores_order stores_contribution
            contribution_description.
  intros Hvalid Hsave.
  destruct (ContributionForm_valid_all self d Hvalid)
    as (Hamount & Hnote & Hfirst & Hlast & _ & _ & Hpostcode & Hcity
        & Hcountry & Hemail & _ & _).
  revert Hsave. unfold ContributionForm_save, bindM, lift, ret.
  destruct (first_item (splitlines (cc_address d))) as [line|];
    [|discriminate].
  destruct (crowdfunding_title self) as [title|]; [|discriminate].
  unfold Order_objects_create.
  destruct (stores_order _); [|discriminate].
  unfold Contribution_objects_create.
  destruct (stores_contribution _); [|discriminate].
  intros H. injection H as <- <-.
  cbn [ct_order ct_amount ct_note ct_user ct_crowdfunding
       o_country o_total_gross o_first_name o_last_name o_city o_postcode
       o_user_email o_user o_kind db_orders db_contributions
       db_crowdfundings].
  split; [apply in_or_app; right; now left|].
  split; [apply in_or_app; right; now left|].
  split.
  { apply ChoiceField_clean_offered in Hcountry. exact (proj2 Hcountry). }
  destruct (DecimalField_clean_below _ _ _ Hamount) as [Hmin Hmax].
  split; [exact Hmin|]. split; [exact Hmax|]. split; [reflexivity|].
  split.
  { assert (Hfield : forall raw v,
              CharField_clean true (Some 255%nat) raw = Clean v ->
              v <> "" /\ strip v = v /\ (String.length v <= 255)%nat).
    { intros raw v Hclean. apply CharField_clean_value in Hclean.
      destruct Hclean as (-> & Hlen & Hne).
      split; [now apply Hne|]. split; [apply strip_idempotent | exact Hlen]. }
    intros v [<-|[<-|[<-|[<-|[<-|[]]]]]]; eapply Hfield; eassumption. }
  split.
  { apply CharField_clean_value in Hnote. exact (proj1 (proj2 Hnote)). }
  repeat split.
Qed.

End ContributionForm.

(** X19 at a contribution of 0.50. *)
Lemma ContributionForm_amount_below_minimum_witness :
  In ("amount", "min_value")
     (fst (ContributionForm_clean_fields
             sample_methods
             (mkContributionForm
                (mkContributionData (Some (mkDecimal false 50 (-2))) ""
                                    "Ada" "Lovelace" false "Main Street 1"
                                    "12345" "Springfield" "DE"
                                    "ada@example.org" "creditcard" true)
                None None None None None None None None))) /\
  snd (ContributionForm_clean_fields
         sample_methods
         (mkContributionForm
            (mkContributionData (Some (mkDecimal false 50 (-2))) ""
                                "Ada" "Lovelace" false "Main Street 1"
                                "12345" "Springfield" "DE"
                                "ada@example.org" "creditcard" true)
            None None None None None None None None)) = None /\
  (forall d,
      ~ ContributionForm_valid
          sample_methods
          (mkContributionForm
             (mkContributionData (Some (mkDecimal false 50 (-2))) ""
                                 "Ada" "Lovelace" false "Main Street 1"
                                 "12345" "Springfield" "DE"
                                 "ada@example.org" "creditcard" true)
             None None None None None None None None) d).
Proof.
  apply (ContributionForm_amount_below_minimum
           sample_methods
           (mkContributionForm
              (mkContributionData (Some (mkDecimal false 50 (-2))) ""
                                  "Ada" "Lovelace" false "Main Street 1"
                                  "12345" "Springfield" "DE"
                                  "ada@example.org" "creditcard" true)
              None None None None None None None None)
           (mkDecimal false 50 (-2))); reflexivity.
Defined.

(** X20 at the sample contribution on a form without campaign. *)
Lemma ContributionForm_save_without_campaign_witness :
  ContributionForm_save
    (fun _ => true) (fun _ => true) (fun title => title)
    (mkContributionForm sample_contribution_data (Some sample_user) None
                        None None None None None None)
    sample_contribution_cleaned empty_db
  = (Raise AttributeError, empty_db).
Proof.
  apply (ContributionForm_save_without_campaign
           sample_methods (fun _ => true) (fun _ => true)
           (fun title => title)
           (mkContributionForm sample_contribution_data (Some sample_user)
                               None None None None None None None)
           sample_contribution_cleaned empty_db); reflexivity.
Defined.

(** X21 at the sample contribution and the empty database. *)
Lemma ContributionForm_save_keeps_references_witness :
  (forall ct, In ct [sample_contribution] ->
              In (ct_order ct) [sample_order]) /\
  @nil Crowdfunding = [] /\
  exists orders contributions,
    [sample_order] = ([] ++ orders)%list /\
    [sample_contribution] = ([] ++ contributions)%list /\
    (List.length contributions <= List.length orders <= 1)%nat.
Proof.
  apply (ContributionForm_save_keeps_references
           (fun _ => true) (fun _ => true) (fun title => title)
           sample_contribution_form sample_contribution_cleaned empty_db).
  intros ct [].
Defined.

(** X22 at the sample contribution. *)
Lemma ContributionForm_saved_rows_validated_witness :
  In sample_order [sample_order] /\
  In sample_contribution [sample_contribution] /\
  In (o_country sample_order) ["DE"; "AT"; "CH"] /\
  (inject_Z 1 <= value (o_total_gross sample_order))%Q /\
  (value (o_total_gross sample_order) < inject_Z (10 ^ 8))%Q /\
  ct_amount sample_contribution = o_total_gross sample_order /\
  (forall v, In v ["Ada"; "Lovelace"; "Springfield"; "12345";
                   "ada@example.org"] ->
             v <> "" /\ strip v = v /\ (String.length v <= 255)%nat) /\
  (String.length (ct_note sample_contribution) <= 260)%nat /\
  o_user sample_order = Some sample_user /\
  ct_user sample_contribution = Some sample_user /\
  ct_crowdfunding sample_contribution = Some (sample_campaign "running") /\
  o_kind sample_order = "froide_crowdfunding.Contribution".
Proof.
  apply (ContributionForm_saved_rows_validated
           sample_methods (fun _ => true) (fun _ => true)
           (fun title => title) sample_contribution_form
           sample_contribution_cleaned empty_db
           (mkDB [] [sample_order] [sample_contribution])
           sample_contribution); reflexivity.
Defined.

End ContributionFormFacts.
